(** * Appointment booking service: availability and scheduling engine

    A shallow embedding of [src/appointments/appointments.service.ts]
    (class [AppointmentsService]) together with the pieces of the
    JavaScript [Date] object and of the Mongoose model it relies on.

    - Time values are integers of milliseconds since the epoch ([Z]); an
      invalid [Date] (time value NaN) is [None].  Offsets are whole
      minutes, and a time value is used only once [TimeClip] has found it
      within 8.64e15 of the epoch, below 2^53: there the arithmetic of
      [Z] is that of the doubles of the source.
    - ISO strings are real strings: [toISOString] builds them and the
      store compares them as MongoDB does, byte by byte.
    - The host (process time zone, the engine's parser for strings outside
      the ISO format) is an explicit record.
    - Exceptions are values of an error monad; the collection is threaded
      through the operations as explicit state.
    - The id of a request is a string that the model casts to an ObjectId
      in its first lookup: [updateAppointment] and [deleteAppointment] are
      the two operations from that cast on, [Request] holds them as they
      are called. *)

From Stdlib Require Import ZArith List String Ascii Bool Lia.
From Stdlib Require Import Sorted Permutation.
Import ListNotations.

Open Scope Z_scope.

(** ** Exceptions

    [RangeError] is what [Date.prototype.toISOString] throws on an invalid
    Date, [BadRequestException] is the exception of the service itself
    (with its message), [ValidationError] is the rejection of a write by
    the schema validators of the model and [CastError] is what a lookup of
    the model throws when the id it is given is no ObjectId. *)

Inductive exn : Type :=
| RangeError
| BadRequestException (message : string)
| ValidationError
| CastError.

Inductive result (A : Type) : Type :=
| Ok (a : A)
| Throw (e : exn).

Arguments Ok {A} a.
Arguments Throw {A} e.

(** ** ECMAScript time arithmetic (ECMA-262, "Date Objects") *)

Module JS.

Definition msPerDay : Z := 86400000.
Definition msPerHour : Z := 3600000.
Definition msPerMinute : Z := 60000.
Definition msPerSecond : Z := 1000.

(** The largest magnitude of a time value: 100,000,000 days. *)
Definition maxTime : Z := 8640000000000000.

Definition validTime (t : Z) : Prop := - maxTime <= t <= maxTime.

Definition validTimeb (t : Z) : bool := (- maxTime <=? t) && (t <=? maxTime).

(** [new Date(value)], [setTime]: a time value out of range gives an
    invalid Date. *)
Definition TimeClip (t : Z) : option Z :=
  if validTimeb t then Some t else None.

Definition Day (t : Z) : Z := t / msPerDay.
Definition TimeWithinDay (t : Z) : Z := t mod msPerDay.

Definition isLeap (y : Z) : bool :=
  (y mod 4 =? 0) && (negb (y mod 100 =? 0) || (y mod 400 =? 0)).

Definition DaysInYear (y : Z) : Z := if isLeap y then 366 else 365.

Definition DayFromYear (y : Z) : Z :=
  365 * (y - 1970) + (y - 1969) / 4 - (y - 1901) / 100 + (y - 1601) / 400.

(** The year of a day number: the largest [y] with [DayFromYear y <= d].
    It is computed from an estimate by the mean length of a year, which is
    off by at most one. *)
Definition YearFromDay (d : Z) : Z :=
  let y0 := 1970 + (d * 10000) / 3652425 in
  if DayFromYear (y0 + 1) <=? d then y0 + 1
  else if DayFromYear y0 <=? d then y0
  else y0 - 1.

Definition YearFromTime (t : Z) : Z := YearFromDay (Day t).

Definition InLeapYear (t : Z) : Z :=
  if isLeap (YearFromTime t) then 1 else 0.

Definition DayWithinYear (t : Z) : Z :=
  Day t - DayFromYear (YearFromTime t).

(** Day within the year on which month [m] (0 = January) starts. *)
Definition monthStart (m leap : Z) : Z :=
  if m =? 0 then 0
  else if m =? 1 then 31
  else if m =? 2 then 59 + leap
  else if m =? 3 then 90 + leap
  else if m =? 4 then 120 + leap
  else if m =? 5 then 151 + leap
  else if m =? 6 then 181 + leap
  else if m =? 7 then 212 + leap
  else if m =? 8 then 243 + leap
  else if m =? 9 then 273 + leap
  else if m =? 10 then 304 + leap
  else 334 + leap.

Definition monthOfYearDay (d leap : Z) : Z :=
  if d <? 31 then 0
  else if d <? 59 + leap then 1
  else if d <? 90 + leap then 2
  else if d <? 120 + leap then 3
  else if d <? 151 + leap then 4
  else if d <? 181 + leap then 5
  else if d <? 212 + leap then 6
  else if d <? 243 + leap then 7
  else if d <? 273 + leap then 8
  else if d <? 304 + leap then 9
  else if d <? 334 + leap then 10
  else 11.

Definition MonthFromTime (t : Z) : Z :=
  monthOfYearDay (DayWithinYear t) (InLeapYear t).

Definition DateFromTime (t : Z) : Z :=
  DayWithinYear t - monthStart (MonthFromTime t) (InLeapYear t) + 1.

Definition WeekDay (t : Z) : Z := (Day t + 4) mod 7.

Definition HourFromTime (t : Z) : Z := (t / msPerHour) mod 24.
Definition MinFromTime (t : Z) : Z := (t / msPerMinute) mod 60.
Definition SecFromTime (t : Z) : Z := (t / msPerSecond) mod 60.
Definition msFromTime (t : Z) : Z := t mod msPerSecond.

Definition MakeTime (hour min sec ms : Z) : Z :=
  hour * msPerHour + min * msPerMinute + sec * msPerSecond + ms.

Definition MakeDay (year month date : Z) : Z :=
  let ym := year + month / 12 in
  let mn := month mod 12 in
  DayFromYear ym + monthStart mn (if isLeap ym then 1 else 0) + date - 1.

Definition MakeDate (day time : Z) : Z := day * msPerDay + time.

(** *** Date objects and their ISO strings *)

(** A Date object is its time value; [None] is the invalid Date. *)
Definition Date : Type := option Z.

Definition newDate (tv : Z) : Date := TimeClip tv.

Definition digitChar (n : Z) : ascii := ascii_of_N (48 + Z.to_N n).

(** [n] in decimal on exactly [w] digits, for [0 <= n < 10 ^ w]. *)
Fixpoint pad (w : nat) (n : Z) : string :=
  match w with
  | O => EmptyString
  | S w' =>
      String (digitChar (n / 10 ^ Z.of_nat w')) (pad w' (n mod 10 ^ Z.of_nat w'))
  end.

(** Four digits for the years 0 to 9999, a sign and six digits otherwise. *)
Definition yearString (y : Z) : string :=
  if (0 <=? y) && (y <=? 9999) then pad 4 y
  else String (if y <? 0 then "-"%char else "+"%char) (pad 6 (Z.abs y)).

Definition isoDate (t : Z) : string :=
  (yearString (YearFromTime t) ++ "-" ++ pad 2 (MonthFromTime t + 1)
     ++ "-" ++ pad 2 (DateFromTime t))%string.

Definition isoTime (t : Z) : string :=
  (pad 2 (HourFromTime t) ++ ":" ++ pad 2 (MinFromTime t) ++ ":"
     ++ pad 2 (SecFromTime t) ++ "." ++ pad 3 (msFromTime t))%string.

Definition isoString (t : Z) : string :=
  (isoDate t ++ "T" ++ isoTime t ++ "Z")%string.

Definition toISOString (d : Date) : result string :=
  match d with
  | Some t => Ok (isoString t)
  | None => Throw RangeError
  end.

(** [s.split('T')[0]]: the characters before the first [T]. *)
Fixpoint beforeT (s : string) : string :=
  match s with
  | EmptyString => EmptyString
  | String c r => if (c =? "T")%char then EmptyString else String c (beforeT r)
  end.

(** *** Parsing

    ECMAScript fixes [Date.parse] on the strings [toISOString] produces and
    leaves the rest to the engine.  [parseCanonical] reads the fields of
    such a string and keeps the result only when the string is exactly the
    ISO string of the time value it denotes; every other string is handed
    to the host's own parser. *)

Definition digitVal (c : ascii) : option Z :=
  let n := Z.of_N (N_of_ascii c) in
  if (48 <=? n) && (n <=? 57) then Some (n - 48) else None.

Fixpoint readDigits (w : nat) (acc : Z) (s : string) : option (Z * string) :=
  match w with
  | O => Some (acc, s)
  | S w' =>
      match s with
      | EmptyString => None
      | String c r =>
          match digitVal c with
          | Some d => readDigits w' (10 * acc + d) r
          | None => None
          end
      end
  end.

Definition expect (c : ascii) (s : string) : option string :=
  match s with
  | EmptyString => None
  | String c' r => if (c' =? c)%char then Some r else None
  end.

Definition readYear (s : string) : option (Z * string) :=
  match s with
  | String "+"%char r => readDigits 6 0 r
  | String "-"%char r =>
      match readDigits 6 0 r with
      | Some (y, r') => Some (- y, r')
      | None => None
      end
  | _ => readDigits 4 0 s
  end.

Notation "x <- e ;; k" :=
  (match e with Some x => k | None => None end)
  (at level 100, e at next level, right associativity, only parsing).
Notation "' p <- e ;; k" :=
  (match e with Some p => k | None => None end)
  (at level 100, p pattern, e at next level, right associativity, only parsing).

Definition parseIsoFields (s : string) : option Z :=
  '(y, s) <- readYear s ;;
  s <- expect "-" s ;;
  '(mo, s) <- readDigits 2 0 s ;;
  s <- expect "-" s ;;
  '(d, s) <- readDigits 2 0 s ;;
  s <- expect "T" s ;;
  '(h, s) <- readDigits 2 0 s ;;
  s <- expect ":" s ;;
  '(mi, s) <- readDigits 2 0 s ;;
  s <- expect ":" s ;;
  '(sec, s) <- readDigits 2 0 s ;;
  s <- expect "." s ;;
  '(ms, s) <- readDigits 3 0 s ;;
  s <- expect "Z" s ;;
  match s with
  | EmptyString => Some (MakeDate (MakeDay y (mo - 1) d) (MakeTime h mi sec ms))
  | _ => None
  end.

Definition parseCanonical (s : string) : option Z :=
  match parseIsoFields s with
  | Some t => if validTimeb t && (isoString t =? s)%string then Some t else None
  | None => None
  end.

(** *** The host

    [LocalTZA t isUTC] is the offset of the process's time zone in
    milliseconds, as in ECMA-262; [legacyParse] is the engine's parser for
    the strings that are not canonical ISO strings. *)

Record Host : Type := {
  LocalTZA : Z -> bool -> Z;
  legacyParse : string -> option Z
}.

(** A process in UTC.  Its parser for the strings outside the ISO format
    is left empty: the statements give it canonical ISO strings, and
    strings that no engine reads as a date. *)
Definition utcHost : Host :=
  {| LocalTZA := fun _ _ => 0; legacyParse := fun _ => None |}.

(** A process in a zone at a fixed offset of [minutesEast] minutes east of
    Greenwich. *)
Definition fixedZoneHost (minutesEast : Z) : Host :=
  {| LocalTZA := fun _ _ => minutesEast * msPerMinute;
     legacyParse := fun _ => None |}.

Section HostFunctions.

Variable host : Host.

Definition LocalTime (t : Z) : Z := t + LocalTZA host t true.
Definition UTC (t : Z) : Z := t - LocalTZA host t false.

(** [new Date(string)] and [Date.parse]. *)
Definition Date_parse (s : string) : Date :=
  match parseCanonical s with
  | Some t => Some t
  | None =>
      match legacyParse host s with
      | Some t => TimeClip t
      | None => None
      end
  end.

(** The accessors in the process's local time; the argument is the time
    value of a valid Date. *)
Definition getFullYear (t : Z) : Z := YearFromTime (LocalTime t).
Definition getMonth (t : Z) : Z := MonthFromTime (LocalTime t).
Definition getDate (t : Z) : Z := DateFromTime (LocalTime t).
Definition getDay (t : Z) : Z := WeekDay (LocalTime t).

(** [new Date(year, month, date, hours, minutes, seconds)]: the fields are
    read in local time and a year from 0 to 99 stands for 1900 + year. *)
Definition newDateLocal (year month date hours minutes seconds : Z) : Date :=
  let yr := if (0 <=? year) && (year <=? 99) then 1900 + year else year in
  let finalDate :=
    MakeDate (MakeDay yr month date) (MakeTime hours minutes seconds 0) in
  TimeClip (UTC finalDate).

End HostFunctions.

End JS.

Import JS.

(** ** The schema ([schema/appointment.schema.ts]) *)

Inductive ServiceKey : Type :=
| consultation
| treatment
| extraction
| prosthetics.

(** The ids of stored documents are ObjectIds, taken abstractly.  The id
    of a request is a string, which the model casts to an ObjectId in its
    first lookup: see [Driver] and [Request] below.  (The [createdAt] and
    [updatedAt] fields the schema's [timestamps] option adds play no part
    in the service.) *)
Definition ObjectId : Type := nat.

(** A stored appointment.  [start] and [end_] are strings, as in the
    schema ([end] is the field's name in the source). *)
Record Appointment : Type := {
  _id : ObjectId;
  name : string;
  phoneNumber : string;
  service : ServiceKey;
  start : string;
  end_ : string
}.

(** ** The model (the collection behind [appointmentModel])

    The collection is the list of its documents in insertion order.  The
    query operators [$lt] and [$gt] on string fields compare the strings
    byte by byte. *)

Module Model.

Definition Collection : Type := list Appointment.

Definition str_lt (a b : string) : bool := (a <? b)%string.
Definition str_gt (a b : string) : bool := (b <? a)%string.

(** The filter [{ start: { $lt: hi }, end: { $gt: lo } }]. *)
Definition overlapFilter (lo hi : string) (a : Appointment) : bool :=
  str_lt (start a) hi && str_gt (end_ a) lo.

Definition find (filter : Appointment -> bool) (c : Collection)
  : list Appointment :=
  List.filter filter c.

Definition exists_ (filter : Appointment -> bool) (c : Collection) : bool :=
  existsb filter c.

Definition findById (id : ObjectId) (c : Collection) : option Appointment :=
  List.find (fun a => Nat.eqb (_id a) id) c.

Fixpoint deleteById (id : ObjectId) (c : Collection) : Collection :=
  match c with
  | [] => []
  | a :: r => if Nat.eqb (_id a) id then r else a :: deleteById id r
  end.

Definition findByIdAndDelete (id : ObjectId) (c : Collection)
  : option Appointment * Collection :=
  match findById id c with
  | Some a => (Some a, deleteById id c)
  | None => (None, c)
  end.

(** An id no stored document has. *)
Definition freshId (c : Collection) : ObjectId :=
  S (list_max (map _id c)).

Definition create (n p : string) (sv : ServiceKey) (st en : string)
    (c : Collection) : Appointment * Collection :=
  let doc := {| _id := freshId c; name := n; phoneNumber := p;
                service := sv; start := st; end_ := en |} in
  (doc, c ++ [doc]).

(** The fields an update may set; [None] is a key the update does not
    have.  ([tzOffset] is not a path of the schema and is dropped by the
    model.) *)
Record UpdateData : Type := {
  ud_name : option string;
  ud_phoneNumber : option string;
  ud_service : option ServiceKey;
  ud_start : option string;
  ud_tzOffset : option Z;
  ud_end : option string
}.

Definition orElse {A : Type} (o : option A) (d : A) : A :=
  match o with
  | Some x => x
  | None => d
  end.

Definition applySet (u : UpdateData) (a : Appointment) : Appointment :=
  {| _id := _id a;
     name := orElse (ud_name u) (name a);
     phoneNumber := orElse (ud_phoneNumber u) (phoneNumber a);
     service := orElse (ud_service u) (service a);
     start := orElse (ud_start u) (start a);
     end_ := orElse (ud_end u) (end_ a) |}.

(** [runValidators]: every path of the schema is [required], which on a
    string path refuses the empty string; only the paths the update sets
    are validated. *)
Definition requiredOk (o : option string) : bool :=
  match o with
  | Some EmptyString => false
  | _ => true
  end.

Definition validUpdate (u : UpdateData) : bool :=
  requiredOk (ud_name u) && requiredOk (ud_phoneNumber u)
  && requiredOk (ud_start u) && requiredOk (ud_end u).

Fixpoint updateById (id : ObjectId) (u : UpdateData) (c : Collection)
  : Collection :=
  match c with
  | [] => []
  | a :: r =>
      if Nat.eqb (_id a) id then applySet u a :: r
      else a :: updateById id u r
  end.

(** [findByIdAndUpdate(id, { $set: u }, { new: true, runValidators: true })] *)
Definition findByIdAndUpdate (id : ObjectId) (u : UpdateData) (c : Collection)
  : result (option Appointment) * Collection :=
  if validUpdate u then
    match findById id c with
    | Some a => (Ok (Some (applySet u a)), updateById id u c)
    | None => (Ok None, c)
    end
  else (Throw ValidationError, c).

(** The cast of the id of a request, a string, to an ObjectId: [None] when
    the string is none, where the lookup throws a [CastError].  Which
    strings the cast takes is the driver's matter (24 hexadecimal digits
    in every version, other forms in some). *)
Record Driver : Type := {
  castObjectId : string -> option ObjectId
}.

End Model.

Import Model.

(** ** The service ([appointments.service.ts]) *)

Definition SERVICE_DURATION_MINUTES (s : ServiceKey) : Z :=
  match s with
  | consultation => 15
  | treatment => 45
  | extraction => 45
  | prosthetics => 45
  end.

Record WorkingHours : Type := {
  startHour : Z;
  endHour : Z
}.

Record Availability : Type := {
  availableSlots : list string;
  busySlots : list string;
  workingSlots : list string
}.

(** The body of a create request; [None] is a missing field. *)
Record CreateBody : Type := {
  cb_name : option string;
  cb_phoneNumber : option string;
  cb_service : option ServiceKey;
  cb_start : option string;
  cb_tzOffset : option Z
}.

(** The messages of the four kinds of rejection. *)
Definition OutOfWindow : exn := BadRequestException "Outside working hours".
Definition SlotBusy : exn := BadRequestException "Time slot is busy".
Definition NotFound : exn := BadRequestException "Appointment not found".

(** [!s] on a string that may be missing. *)
Definition falsy (o : option string) : bool :=
  match o with
  | None => true
  | Some EmptyString => true
  | Some _ => false
  end.

(** Comparisons of numbers one of which may be NaN: false on NaN. *)
Definition num_lt (a b : option Z) : bool :=
  match a, b with
  | Some x, Some y => x <? y
  | _, _ => false
  end.

Definition num_le (a b : option Z) : bool :=
  match a, b with
  | Some x, Some y => x <=? y
  | _, _ => false
  end.

(** [x + k] on a number that may be NaN. *)
Definition num_add (a : option Z) (k : Z) : option Z :=
  match a with
  | Some x => Some (x + k)
  | None => None
  end.

(** [new Date(x)] on a number that may be NaN. *)
Definition newDateNum (a : option Z) : Date :=
  match a with
  | Some x => newDate x
  | None => None
  end.

(** A JavaScript [Set] of strings, in insertion order. *)
Definition set_has (s : list string) (x : string) : bool :=
  existsb (String.eqb x) s.

Definition set_add (s : list string) (x : string) : list string :=
  if set_has s x then s else s ++ [x].

(** [Math.ceil(a / b)] for [b > 0]. *)
Definition ceilDiv (a b : Z) : Z := - ((- a) / b).

(** Operations on the collection: the state is threaded, an exception
    leaves with the state it was thrown in. *)
Definition M (A : Type) : Type := Collection -> result A * Collection.

Definition ret {A : Type} (a : A) : M A := fun c => (Ok a, c).
Definition throw {A : Type} (e : exn) : M A := fun c => (Throw e, c).
Definition bind {A B : Type} (m : M A) (k : A -> M B) : M B :=
  fun c =>
    match m c with
    | (Ok a, c') => k a c'
    | (Throw e, c') => (Throw e, c')
    end.
Definition lift {A : Type} (r : result A) : M A := fun c => (r, c).
Definition query {A : Type} (q : Collection -> A) : M A := fun c => (Ok (q c), c).
Definition write {A : Type} (w : Collection -> A * Collection) : M A :=
  fun c => let (a, c') := w c in (Ok a, c').

Notation "'do' x <- m ; k" := (bind m (fun x => k))
  (at level 10, x name, m at level 100, k at level 200, only parsing).

Section Service.

Variable host : Host.

(** [dateUtc] is the time value of a Date every caller has checked to be
    valid; an offset is a whole number of minutes, [None] when the
    argument is [undefined].  When [dateUtc - offsetMs] is out of the
    range of Date, every field read from it is NaN and so is the day of
    the week, which then is neither 0 nor 6. *)
Definition getWorkingHours (dateUtc : Z) (tzOffsetMinutes : option Z)
  : WorkingHours :=
  let offsetMs := orElse tzOffsetMinutes 0 * 60000 in
  let localDate := newDate (dateUtc - offsetMs) in
  let localNoon :=
    match localDate with
    | Some ld =>
        newDateLocal host (getFullYear host ld) (getMonth host ld)
          (getDate host ld) 12 0 0
    | None => None
    end in
  match localNoon with
  | Some n =>
      let day := getDay host n in
      if (day =? 0) || (day =? 6)
      then {| startHour := 9; endHour := 13 |}
      else {| startHour := 9; endHour := 18 |}
  | None => {| startHour := 9; endHour := 18 |}
  end.

(** [new Date(localYmd + 'T00:00:00.000Z').getTime() + offsetMs], where
    [localYmd] is [new Date(t - offsetMs).toISOString().split('T')[0]]:
    the two lines [generateSlots], [getBusyIntervalsISO],
    [createAppointment] and [updateAppointment] each have.  The result is
    a number that may be NaN; [toISOString] throws on an invalid Date. *)
Definition localMidnightUtcMs (t offsetMs : Z) : result (option Z) :=
  match toISOString (newDate (t - offsetMs)) with
  | Throw e => Throw e
  | Ok iso =>
      let localYmd := beforeT iso in
      Ok (num_add (Date_parse host (localYmd ++ "T00:00:00.000Z")) offsetMs)
  end.

(** The loop of [generateSlots]; [None] when the fuel runs out. *)
Fixpoint slotsLoop (fuel : nat) (t stepMs durMs endMs : Z)
  : option (result (list string)) :=
  match fuel with
  | O => None
  | S fuel' =>
      if t + durMs <=? endMs then
        match toISOString (newDate t) with
        | Throw e => Some (Throw e)
        | Ok iso =>
            match slotsLoop fuel' (t + stepMs) stepMs durMs endMs with
            | Some (Ok rest) => Some (Ok (iso :: rest))
            | other => other
            end
        end
      else Some (Ok [])
  end.

(** With a NaN midnight both bounds are NaN and the loop does not run. *)
Definition generateSlots (fuel : nat) (dateUtc slotMinutes durationMinutes : Z)
    (tzOffsetMinutes : option Z) : option (result (list string)) :=
  let wh := getWorkingHours dateUtc tzOffsetMinutes in
  let offsetMs := orElse tzOffsetMinutes 0 * 60000 in
  match localMidnightUtcMs dateUtc offsetMs with
  | Throw e => Some (Throw e)
  | Ok None => Some (Ok [])
  | Ok (Some midnight) =>
      let startMs := midnight + startHour wh * 60 * 60000 in
      let endMs := midnight + endHour wh * 60 * 60000 in
      slotsLoop fuel startMs (slotMinutes * 60000) (durationMinutes * 60000)
        endMs
  end.

Definition getBusyIntervalsISO (dateUtc : Z) (tzOffsetMinutes : option Z)
    (c : Collection) : result (list (string * string)) :=
  let offsetMs := orElse tzOffsetMinutes 0 * 60000 in
  match localMidnightUtcMs dateUtc offsetMs with
  | Throw e => Throw e
  | Ok midnight =>
      let dayStart := newDateNum midnight in
      let dayEnd := newDateNum (num_add midnight (24 * 60 * 60000 - 1)) in
      match toISOString dayEnd with
      | Throw e => Throw e
      | Ok dayEndIso =>
          match toISOString dayStart with
          | Throw e => Throw e
          | Ok dayStartIso =>
              let appts := find (overlapFilter dayStartIso dayEndIso) c in
              Ok (map (fun a => (start a, end_ a)) appts)
          end
      end
  end.

(** The two nested loops that fill [busySlots]. *)
Definition markBusy (allSlots : list string)
    (busyIntervals : list (string * string)) : list string :=
  fold_left
    (fun busy interval =>
       let s := Date_parse host (fst interval) in
       let e := Date_parse host (snd interval) in
       fold_left
         (fun busy slot =>
            let t := Date_parse host slot in
            if num_le s t && num_lt t e then set_add busy slot else busy)
         allSlots busy)
    busyIntervals [].

(** The loop over the chunks of one candidate start: [Ok false] as soon as
    a chunk is busy. *)
Fixpoint chunksFree (n : nat) (i : Z) (startMs : option Z) (slotMinutes : Z)
    (busy : list string) : result bool :=
  match n with
  | O => Ok true
  | S n' =>
      match toISOString (newDateNum (num_add startMs (i * slotMinutes * 60000))) with
      | Throw e => Throw e
      | Ok chunkIso =>
          if set_has busy chunkIso then Ok false
          else chunksFree n' (i + 1) startMs slotMinutes busy
      end
  end.

(** [Array.prototype.filter] with a callback that may throw. *)
Fixpoint filterM (f : string -> result bool) (l : list string)
  : result (list string) :=
  match l with
  | [] => Ok []
  | x :: r =>
      match f x with
      | Throw e => Throw e
      | Ok b =>
          match filterM f r with
          | Throw e => Throw e
          | Ok r' => Ok (if b then x :: r' else r')
          end
      end
  end.

Definition getAvailabilityForDate (fuel : nat) (nowMs : Z) (dateStr : string)
    (service : option ServiceKey) (tzOffsetMinutes : option Z)
    (c : Collection) : option (result Availability) :=
  if falsy (Some dateStr)
  then Some (Throw (BadRequestException "date is required (YYYY-MM-DD)"))
  else
  match Date_parse host (dateStr ++ "T00:00:00.000Z") with
  | None => Some (Throw (BadRequestException "invalid date"))
  | Some date =>
      let slotMinutes := 15 in
      let durationMinutes :=
        match service with
        | Some sv => SERVICE_DURATION_MINUTES sv
        | None => 45
        end in
      let effectiveTzOffset := orElse tzOffsetMinutes 0 in
      match generateSlots fuel date slotMinutes slotMinutes
              (Some effectiveTzOffset) with
      | None => None
      | Some (Throw e) => Some (Throw e)
      | Some (Ok allSlots) =>
      match getBusyIntervalsISO date (Some effectiveTzOffset) c with
      | Throw e => Some (Throw e)
      | Ok busyIntervals =>
      let busy := markBusy allSlots busyIntervals in
      match generateSlots fuel date slotMinutes durationMinutes
              (Some effectiveTzOffset) with
      | None => None
      | Some (Throw e) => Some (Throw e)
      | Some (Ok serviceSpecificStarts) =>
      let chunksNeeded := Z.max 1 (ceilDiv durationMinutes slotMinutes) in
      match filterM
              (fun startIso =>
                 chunksFree (Z.to_nat chunksNeeded) 0
                   (Date_parse host startIso) slotMinutes busy)
              serviceSpecificStarts with
      | Throw e => Some (Throw e)
      | Ok available =>
      let offsetMs := effectiveTzOffset * 60000 in
      match toISOString (newDate (nowMs + offsetMs)) with
      | Throw e => Some (Throw e)
      | Ok todayIso =>
          let todayClientLocal := beforeT todayIso in
          let available' :=
            if (dateStr =? todayClientLocal)%string
            then List.filter
                   (fun iso => num_lt (Some nowMs) (Date_parse host iso))
                   available
            else available in
          Some (Ok {| availableSlots := available';
                      busySlots := busy;
                      workingSlots := allSlots |})
      end end end end end
  end.

(** The working-hours test shared, line for line, by [createAppointment]
    and [updateAppointment]: the bounds of the working day of [startMs]
    and whether the booking leaves them. *)
Definition dayBounds (startMs effectiveTzOffset : Z)
  : result (Date * Date) :=
  let wh := getWorkingHours startMs (Some effectiveTzOffset) in
  let offsetMs := effectiveTzOffset * 60000 in
  match localMidnightUtcMs startMs offsetMs with
  | Throw e => Throw e
  | Ok midnight =>
      Ok (newDateNum (num_add midnight (startHour wh * 60 * 60000)),
          newDateNum (num_add midnight (endHour wh * 60 * 60000)))
  end.

Definition outsideWorkingHours (startDate endDate : Date)
    (bounds : Date * Date) : bool :=
  num_lt startDate (fst bounds) || num_lt (snd bounds) endDate.

Definition createAppointment (body : CreateBody) : M Appointment :=
  match cb_name body, cb_phoneNumber body, cb_service body, cb_start body with
  | Some name, Some phoneNumber, Some service, Some start =>
      if falsy (Some name) || falsy (Some phoneNumber) || falsy (Some start)
      then throw (BadRequestException
                    "name, phoneNumber, service, start are required")
      else
      match Date_parse host start with
      | None => throw (BadRequestException "invalid start")
      | Some startMs =>
          let startDate : Date := Some startMs in
          let durationMinutes := SERVICE_DURATION_MINUTES service in
          let endDate := newDate (startMs + durationMinutes * 60000) in
          let effectiveTzOffset := orElse (cb_tzOffset body) 0 in
          do bounds <- lift (dayBounds startMs effectiveTzOffset) ;
          if outsideWorkingHours startDate endDate bounds
          then throw OutOfWindow
          else
          do endIso <- lift (toISOString endDate) ;
          do startIso <- lift (toISOString startDate) ;
          do overlapping <-
            query (exists_ (overlapFilter startIso endIso)) ;
          if (overlapping : bool) then throw SlotBusy
          else write (create name phoneNumber service startIso endIso)
      end
  | _, _, _, _ =>
      throw (BadRequestException
               "name, phoneNumber, service, start are required")
  end.

(** [deleteAppointment] once the lookup has cast the id (the cast itself
    is in [Request.deleteAppointment]). *)
Definition deleteAppointment (id : ObjectId) : M string :=
  do appointment <- write (findByIdAndDelete id) ;
  match appointment with
  | None => throw NotFound
  | Some _ => ret "Appointment deleted successfully"%string
  end.

Definition withEnd (u : UpdateData) (e : string) : UpdateData :=
  {| ud_name := ud_name u; ud_phoneNumber := ud_phoneNumber u;
     ud_service := ud_service u; ud_start := ud_start u;
     ud_tzOffset := ud_tzOffset u; ud_end := Some e |}.

(** The block guarded by [if (updateData.start)]: it validates the new
    start and returns the update data with its [end] recomputed. *)
Definition revalidate (id : ObjectId) (appointment : Appointment)
    (updateData : UpdateData) (start : string) : M UpdateData :=
  match Date_parse host start with
  | None => throw (BadRequestException "invalid start date")
  | Some startMs =>
      let startDate : Date := Some startMs in
      let service := orElse (ud_service updateData) (service appointment) in
      let durationMinutes := SERVICE_DURATION_MINUTES service in
      let endDate := newDate (startMs + durationMinutes * 60000) in
      let effectiveTzOffset := orElse (ud_tzOffset updateData) 0 in
      do bounds <- lift (dayBounds startMs effectiveTzOffset) ;
      if outsideWorkingHours startDate endDate bounds
      then throw OutOfWindow
      else
      do endIso <- lift (toISOString endDate) ;
      do startIso <- lift (toISOString startDate) ;
      do overlapping <-
        query (exists_ (fun a => negb (Nat.eqb (_id a) id)
                                 && overlapFilter startIso endIso a)) ;
      if (overlapping : bool) then throw SlotBusy
      else ret (withEnd updateData endIso)
  end.

(** [updateAppointment] once the first lookup has cast the id (the cast
    itself is in [Request.updateAppointment]). *)
Definition updateAppointment (id : ObjectId) (updateData : UpdateData)
  : M Appointment :=
  do found <- query (findById id) ;
  match found with
  | None => throw NotFound
  | Some appointment =>
      do updateData' <-
        (match ud_start updateData with
         | Some start =>
             if falsy (Some start) then ret updateData
             else revalidate id appointment updateData start
         | None => ret updateData
         end) ;
      do updatedAppointment <- findByIdAndUpdate id updateData' ;
      match updatedAppointment with
      | None => throw (BadRequestException "Failed to update appointment")
      | Some a => ret a
      end
  end.

End Service.

(** *** The id of a request

    The controller hands [updateAppointment] and [deleteAppointment] the
    id as the string of the URL.  The first statement of each is a lookup
    by id ([findById], [findByIdAndDelete]); there the model casts the
    string and throws when it is no ObjectId.  The definitions above are
    the two operations from that cast on; these are the operations as they
    are called. *)
Module Request.

Definition updateAppointment (driver : Driver) (host : Host) (id : string)
    (updateData : UpdateData) : M Appointment :=
  match castObjectId driver id with
  | None => throw CastError
  | Some oid => updateAppointment host oid updateData
  end.

Definition deleteAppointment (driver : Driver) (id : string) : M string :=
  match castObjectId driver id with
  | None => throw CastError
  | Some oid => deleteAppointment oid
  end.

End Request.

(** [getAllAppointments]: [find().sort({ start: -1 }).lean()], every
    document, by [start] descending in the order of the store on strings.
    The store leaves the order of documents with equal [start] open; here
    they keep the order of insertion. *)
Fixpoint insertByStartDesc (a : Appointment) (l : list Appointment)
  : list Appointment :=
  match l with
  | [] => [a]
  | b :: r =>
      if str_lt (start a) (start b) then b :: insertByStartDesc a r
      else a :: b :: r
  end.

Definition sortByStartDesc (l : list Appointment) : list Appointment :=
  fold_right insertByStartDesc [] l.

Definition getAllAppointments : M (list Appointment) :=
  query (fun c => sortByStartDesc (find (fun _ => true) c)).

(** ** Notions the statements use *)

(** The instant of local midnight of the local day of [t], for a client
    whose offset is [offsetMs]. *)
Definition localMidnight (t offsetMs : Z) : Z :=
  Day (t - offsetMs) * msPerDay + offsetMs.

(** The first [n] instants from [t0] in steps of [step]. *)
Definition slotTimes (n : nat) (t0 step : Z) : list Z :=
  map (fun k => t0 + Z.of_nat k * step) (seq 0 n).

(** How many candidates [t0 + k * step] end by [endMs]. *)
Definition slotCount (t0 step durMs endMs : Z) : nat :=
  Z.to_nat ((endMs - durMs - t0) / step + 1).

(** No character of [s] is a [T]. *)
Fixpoint noT (s : string) : bool :=
  match s with
  | EmptyString => true
  | String c r => negb (c =? "T")%char && noT r
  end.

(** The bounds of the working day of a booking that starts at [s], for a
    client at offset [tz] minutes, as [createAppointment] and
    [updateAppointment] compute them. *)
Definition dayStartOf (host : Host) (s tz : Z) : Z :=
  localMidnight s (tz * 60000)
  + startHour (getWorkingHours host s (Some tz)) * 60 * 60000.

Definition dayEndOf (host : Host) (s tz : Z) : Z :=
  localMidnight s (tz * 60000)
  + endHour (getWorkingHours host s (Some tz)) * 60 * 60000.

Definition endOf (s : Z) (sv : ServiceKey) : Z :=
  s + SERVICE_DURATION_MINUTES sv * 60000.

(** Every instant the working-hours test handles is a time value a Date
    can hold. *)
Definition representable (host : Host) (s tz : Z) (sv : ServiceKey) : Prop :=
  validTime (s - tz * 60000) /\ validTime (dayStartOf host s tz)
  /\ validTime (dayEndOf host s tz) /\ validTime (endOf s sv).

(** A create request with all its fields, whose start denotes [s]. *)
Definition completeBody (host : Host) (body : CreateBody)
    (nm ph : string) (sv : ServiceKey) (st : string) (s : Z) : Prop :=
  cb_name body = Some nm /\ cb_phoneNumber body = Some ph
  /\ cb_service body = Some sv /\ cb_start body = Some st
  /\ nm <> EmptyString /\ ph <> EmptyString /\ st <> EmptyString
  /\ Date_parse host st = Some s.

(** An update of a stored appointment that supplies a start denoting [s]. *)
Definition restartingUpdate (host : Host) (id : ObjectId) (u : UpdateData)
    (c : Collection) (old : Appointment) (st : string) (s : Z) : Prop :=
  findById id c = Some old /\ ud_start u = Some st /\ st <> EmptyString
  /\ Date_parse host st = Some s.

(** The instants of the years 0000 to 9999, whose ISO strings carry a
    four-digit year. *)
Definition plainYear (t : Z) : Prop :=
  -62167219200000 <= t <= 253402300799999.

(** Comparisons in lexicographic sequence. *)
Definition lex (c1 c2 : comparison) : comparison :=
  match c1 with
  | Eq => c2
  | _ => c1
  end.

(** The appointment [a] runs from the instant [s] to the instant [e], both
    stored as their ISO strings with a four-digit year. *)
Definition runs (a : Appointment) (s e : Z) : Prop :=
  plainYear s /\ plainYear e /\ start a = isoString s /\ end_ a = isoString e.

(** Every stored appointment is stored as [createAppointment] stores it. *)
Definition canonical (c : Collection) : Prop :=
  forall a, In a c -> exists s e, runs a s e.

(** Some stored appointment, other than the one with id [self], overlaps
    the half-open interval from [s] to [e]. *)
Definition overlapped (c : Collection) (self : option ObjectId) (s e : Z)
  : Prop :=
  exists a sa ea,
    In a c /\ self <> Some (_id a) /\ runs a sa ea /\ sa < e /\ ea > s.

(** Some stored appointment, other than the one with id [self], passes
    the filter the two operations give the store: its start string is
    below [hi] and its end string above [lo]. *)
Definition clashes (c : Collection) (self : option ObjectId) (lo hi : string)
  : Prop :=
  exists a, In a c /\ self <> Some (_id a) /\ overlapFilter lo hi a = true.

(** The document [createAppointment] writes. *)
Definition newDoc (c : Collection) (nm ph : string) (sv : ServiceKey)
    (s : Z) : Appointment :=
  {| _id := freshId c; name := nm; phoneNumber := ph; service := sv;
     start := isoString s; end_ := isoString (endOf s sv) |}.

(** The end of [a] is its start plus the duration of its service. *)
Definition endMatches (host : Host) (a : Appointment) : Prop :=
  exists s, Date_parse host (start a) = Some s
            /\ Date_parse host (end_ a) = Some (endOf s (service a)).

(** The test of the inner loop of [markBusy]: the slot lies in the
    half-open interval. *)
Definition insideInterval (host : Host) (interval : string * string)
    (slot : string) : bool :=
  num_le (Date_parse host (fst interval)) (Date_parse host slot)
  && num_lt (Date_parse host slot) (Date_parse host (snd interval)).

(** The appointments [getBusyIntervalsISO] fetches for the local day that
    starts at [midnight]. *)
Definition fetchedFor (midnight : Z) (c : Collection) : list Appointment :=
  find (overlapFilter (isoString midnight)
          (isoString (midnight + (24 * 60 * 60000 - 1)))) c.

(** Some fetched appointment's half-open interval contains the instant. *)
Definition busyAt (host : Host) (fetched : list Appointment) (t : Z) : Prop :=
  exists a sa ea,
    In a fetched /\ Date_parse host (start a) = Some sa
    /\ Date_parse host (end_ a) = Some ea /\ sa <= t < ea.

(** The duration an availability query works with. *)
Definition queryDuration (service : option ServiceKey) : Z :=
  match service with
  | Some sv => SERVICE_DURATION_MINUTES sv
  | None => 45
  end.

(** The local day of an availability query can be handled: the instants
    the query converts to ISO strings are time values a Date can hold. *)
Definition dayRepresentable (date offsetMs : Z) : Prop :=
  validTime (date - offsetMs)
  /\ validTime (localMidnight date offsetMs)
  /\ validTime (localMidnight date offsetMs + (24 * 60 * 60000 - 1)).

(** [t] is a candidate start for a booking of [minutes] minutes in the
    window from [windowStart] to [windowEnd]: it is on the 15-minute grid
    of the window and the booking ends by the end of the window. *)
Definition candidateStart (windowStart windowEnd minutes t : Z) : Prop :=
  exists k, 0 <= k /\ t = windowStart + k * (15 * 60000)
            /\ t + minutes * 60000 <= windowEnd.

(** The filter of [getAvailabilityForDate] on one candidate start. *)
Definition chunksFreeb (host : Host) (busy : list string) (chunks : nat)
    (startIso : string) : bool :=
  match Date_parse host startIso with
  | Some t =>
      forallb
        (fun j => negb (set_has busy
                          (isoString (t + (0 + Z.of_nat j) * 15 * 60000))))
        (seq 0 chunks)
  | None => false
  end.

(** The candidate starts of a booking of [minutes] minutes on the day of
    an availability query for [date] at offset [eff] minutes, in order. *)
Definition candidateStarts (host : Host) (date eff minutes : Z) : list Z :=
  slotTimes
    (slotCount (dayStartOf host date eff) (15 * 60000) (minutes * 60000)
       (dayEndOf host date eff))
    (dayStartOf host date eff) (15 * 60000).

(** The process runs in UTC: its local time is universal time. *)
Definition utcProcess (host : Host) : Prop :=
  forall t b, LocalTZA host t b = 0.

(** The local day that starts at [midnight] lies within the years 0000 to
    9999. *)
Definition plainDay (midnight : Z) : Prop :=
  plainYear midnight /\ plainYear (midnight + (24 * 60 * 60000 - 1)).

(** No two stored appointments with different ids overlap. *)
Definition apart (c : Collection) : Prop :=
  forall a b sa ea sb eb,
    In a c -> In b c -> _id a <> _id b ->
    runs a sa ea -> runs b sb eb -> ~ (sa < eb /\ sb < ea).

(** The collection as a sequence of bookings keeps it: ids are unique,
    every appointment is stored the canonical way and no two overlap. *)
Definition wellKept (c : Collection) : Prop :=
  NoDup (map _id c) /\ canonical c /\ apart c.

(** Every stored appointment starts on the 15-minute grid of a client at
    offset [offsetMs], and ends after it starts. *)
Definition onGrid (offsetMs : Z) (c : Collection) : Prop :=
  forall a sa ea,
    In a c -> runs a sa ea ->
    sa < ea /\ (sa - offsetMs) mod (15 * 60000) = 0.

(** [a] does not come before an appointment with a greater [start]. *)
Definition notBefore (a b : Appointment) : Prop :=
  str_lt (start a) (start b) = false.

(** The only exceptions an availability query throws. *)
Definition dateRequired : exn :=
  BadRequestException "date is required (YYYY-MM-DD)".
Definition invalidDate : exn := BadRequestException "invalid date".

(** ** Concrete requests and collections *)

Module Examples.

Open Scope string_scope.

Definition booking (sv : ServiceKey) (st : string) : CreateBody :=
  {| cb_name := Some "Anna"; cb_phoneNumber := Some "+37410000000";
     cb_service := Some sv; cb_start := Some st; cb_tzOffset := None |}.

Definition stored (id : ObjectId) (sv : ServiceKey) (st en : string)
  : Appointment :=
  {| _id := id; name := "Anna"; phoneNumber := "+37410000000";
     service := sv; start := st; end_ := en |}.

(** Monday 10 June 2024, 09:00 to 09:45 UTC. *)
Definition mondayTreatment : Appointment :=
  stored 1%nat treatment "2024-06-10T09:00:00.000Z" "2024-06-10T09:45:00.000Z".

(** Monday 10 June 2024, 09:00 to 09:15 UTC. *)
Definition mondayConsultation : Appointment :=
  stored 1%nat consultation "2024-06-10T09:00:00.000Z" "2024-06-10T09:15:00.000Z".

(** Saturday 15 June 2024, 12:30 to 12:45 UTC. *)
Definition saturdayConsultation : Appointment :=
  stored 1%nat consultation "2024-06-15T12:30:00.000Z" "2024-06-15T12:45:00.000Z".

Definition restart (st : string) : UpdateData :=
  {| ud_name := None; ud_phoneNumber := None; ud_service := None;
     ud_start := Some st; ud_tzOffset := None; ud_end := None |}.

Definition changeService (sv : ServiceKey) : UpdateData :=
  {| ud_name := None; ud_phoneNumber := None; ud_service := Some sv;
     ud_start := None; ud_tzOffset := None; ud_end := None |}.

(** A UTC process whose engine reads the one ISO string with an offset
    that the examples use: 10:00 at +04:00 is 06:00 UTC. *)
Definition offsetHost : Host :=
  {| LocalTZA := fun _ _ => 0;
     legacyParse := fun s =>
       if s =? "2024-06-10T10:00:00+04:00" then Some 1717999200000 else None |}.

Definition yerevanBooking (sv : ServiceKey) (st : string) : CreateBody :=
  {| cb_name := Some "Aram"; cb_phoneNumber := Some "+37411111111";
     cb_service := Some sv; cb_start := Some st; cb_tzOffset := Some (-240) |}.

Definition yerevanRestart (st : string) : UpdateData :=
  {| ud_name := None; ud_phoneNumber := None; ud_service := None;
     ud_start := Some st; ud_tzOffset := Some (-240); ud_end := None |}.

(** An update whose body has an [end] and nothing else. *)
Definition endOnly (en : string) : UpdateData :=
  {| ud_name := None; ud_phoneNumber := None; ud_service := None;
     ud_start := None; ud_tzOffset := None; ud_end := Some en |}.

(** A model whose cast takes the two ids of 24 hexadecimal digits that the
    examples use. *)
Definition driver : Driver :=
  {| castObjectId := fun s =>
       if s =? "665f1c2e8b3a4d0012ab34c1" then Some 1%nat
       else if s =? "665f1c2e8b3a4d0012ab34c7" then Some 7%nat
       else None |}.

End Examples.

(** * Facts about the embedding *)

(** ** The calendar *)

Module JSFacts.

Lemma YearFromDay_spec (d : Z) :
  DayFromYear (YearFromDay d) <= d < DayFromYear (YearFromDay d + 1).
Proof.
  unfold YearFromDay.
  set (y0 := 1970 + d * 10000 / 3652425).
  assert (H : DayFromYear (y0 - 1) <= d < DayFromYear (y0 + 2)).
  { unfold DayFromYear, y0. Z.div_mod_to_equations. lia. }
  destruct (DayFromYear (y0 + 1) <=? d) eqn:E1.
  - apply Z.leb_le in E1. replace (y0 + 1 + 1) with (y0 + 2) by lia. lia.
  - apply Z.leb_gt in E1. destruct (DayFromYear y0 <=? d) eqn:E2.
    + apply Z.leb_le in E2. lia.
    + apply Z.leb_gt in E2. replace (y0 - 1 + 1) with y0 by lia. lia.
Qed.

Lemma isLeap_true (y : Z) :
  isLeap y = true <-> y mod 4 = 0 /\ (y mod 100 <> 0 \/ y mod 400 = 0).
Proof.
  unfold isLeap.
  rewrite andb_true_iff, orb_true_iff, negb_true_iff, !Z.eqb_eq, Z.eqb_neq.
  tauto.
Qed.

Lemma DayFromYear_succ (y : Z) :
  DayFromYear (y + 1) = DayFromYear y + DaysInYear y.
Proof.
  unfold DaysInYear. destruct (isLeap y) eqn:E.
  - apply isLeap_true in E. unfold DayFromYear.
    Z.div_mod_to_equations. lia.
  - assert (N : ~ (y mod 4 = 0 /\ (y mod 100 <> 0 \/ y mod 400 = 0))).
    { rewrite <- isLeap_true. congruence. }
    unfold DayFromYear. Z.div_mod_to_equations. lia.
Qed.

Lemma DayFromYear_mono (a b : Z) : a <= b -> DayFromYear a <= DayFromYear b.
Proof.
  intros H. unfold DayFromYear. Z.div_mod_to_equations. lia.
Qed.

(** The year of a day is the only one whose days contain it. *)
Lemma YearFromDay_unique (d y : Z) :
  DayFromYear y <= d < DayFromYear (y + 1) -> YearFromDay d = y.
Proof.
  intros H. pose proof (YearFromDay_spec d) as S.
  destruct (Z.lt_trichotomy (YearFromDay d) y) as [L | [E | G]]; [ | exact E | ].
  - assert (DayFromYear (YearFromDay d + 1) <= DayFromYear y)
      by (apply DayFromYear_mono; lia). lia.
  - assert (DayFromYear (y + 1) <= DayFromYear (YearFromDay d))
      by (apply DayFromYear_mono; lia). lia.
Qed.

Lemma InLeapYear_cases (t : Z) :
  (InLeapYear t = 0 /\ DaysInYear (YearFromTime t) = 365)
  \/ (InLeapYear t = 1 /\ DaysInYear (YearFromTime t) = 366).
Proof.
  unfold InLeapYear, DaysInYear. destruct (isLeap (YearFromTime t)); auto.
Qed.

Lemma DayWithinYear_range (t : Z) :
  0 <= DayWithinYear t < 365 + InLeapYear t.
Proof.
  unfold DayWithinYear, YearFromTime.
  pose proof (YearFromDay_spec (Day t)) as S.
  rewrite DayFromYear_succ in S.
  pose proof (InLeapYear_cases t) as C. unfold YearFromTime in C.
  lia.
Qed.

Ltac break_ifs :=
  repeat match goal with
         | |- context [if ?a <? ?b then _ else _] =>
             let E := fresh "E" in
             destruct (a <? b) eqn:E;
             [ apply Z.ltb_lt in E | apply Z.ltb_ge in E ]
         | |- context [if ?a =? ?b then _ else _] =>
             let E := fresh "E" in
             destruct (a =? b) eqn:E;
             [ apply Z.eqb_eq in E | apply Z.eqb_neq in E ]
         end.

Lemma monthOfYearDay_range (d l : Z) : 0 <= monthOfYearDay d l <= 11.
Proof. unfold monthOfYearDay. break_ifs; lia. Qed.

Lemma monthStart_le (d l : Z) :
  0 <= d -> 0 <= l <= 1 -> d < 365 + l ->
  1 <= d - monthStart (monthOfYearDay d l) l + 1 <= 31.
Proof.
  intros. unfold monthOfYearDay. break_ifs; unfold monthStart; cbn [Z.eqb Pos.eqb]; lia.
Qed.

Lemma MonthFromTime_range (t : Z) : 0 <= MonthFromTime t <= 11.
Proof. apply monthOfYearDay_range. Qed.

Lemma DateFromTime_range (t : Z) : 1 <= DateFromTime t <= 31.
Proof.
  unfold DateFromTime, MonthFromTime.
  pose proof (DayWithinYear_range t).
  pose proof (InLeapYear_cases t).
  apply monthStart_le; lia.
Qed.

Lemma MakeDay_fields (t : Z) :
  MakeDay (YearFromTime t) (MonthFromTime t) (DateFromTime t) = Day t.
Proof.
  pose proof (MonthFromTime_range t) as R.
  unfold MakeDay.
  rewrite (Z.div_small (MonthFromTime t) 12), (Z.mod_small (MonthFromTime t) 12)
    by lia.
  rewrite Z.add_0_r.
  fold (InLeapYear t).
  unfold DateFromTime, DayWithinYear. lia.
Qed.

Lemma MakeTime_fields (t : Z) :
  MakeTime (HourFromTime t) (MinFromTime t) (SecFromTime t) (msFromTime t)
  = TimeWithinDay t.
Proof.
  unfold MakeTime, HourFromTime, MinFromTime, SecFromTime, msFromTime,
    TimeWithinDay, msPerHour, msPerMinute, msPerSecond, msPerDay.
  Z.div_mod_to_equations. lia.
Qed.

Lemma MakeDate_fields (t : Z) : MakeDate (Day t) (TimeWithinDay t) = t.
Proof.
  unfold MakeDate, Day, TimeWithinDay, msPerDay.
  Z.div_mod_to_equations. lia.
Qed.

Lemma time_fields_range (t : Z) :
  0 <= HourFromTime t < 24 /\ 0 <= MinFromTime t < 60
  /\ 0 <= SecFromTime t < 60 /\ 0 <= msFromTime t < 1000.
Proof.
  unfold HourFromTime, MinFromTime, SecFromTime, msFromTime, msPerSecond.
  repeat split; try apply Z.mod_pos_bound; lia.
Qed.

Lemma YearFromTime_range (t : Z) :
  validTime t -> -271821 <= YearFromTime t <= 275760.
Proof.
  unfold validTime, maxTime, YearFromTime. intros V.
  pose proof (YearFromDay_spec (Day t)) as S.
  assert (D : -100000000 <= Day t <= 100000000).
  { unfold Day, msPerDay. Z.div_mod_to_equations. lia. }
  split.
  - destruct (Z_le_gt_dec (-271821) (YearFromDay (Day t))) as [L | G]; [exact L | ].
    assert (DayFromYear (YearFromDay (Day t) + 1) <= DayFromYear (-271821))
      by (apply DayFromYear_mono; lia).
    assert (DayFromYear (-271821) = -100000109) by reflexivity. lia.
  - destruct (Z_le_gt_dec (YearFromDay (Day t)) 275760) as [L | G]; [exact L | ].
    assert (DayFromYear 275761 <= DayFromYear (YearFromDay (Day t)))
      by (apply DayFromYear_mono; lia).
    assert (DayFromYear 275761 = 100000110) by reflexivity. lia.
Qed.

End JSFacts.

Import JSFacts.

(** ** ISO strings and their parsing *)

Module IsoFacts.

Lemma append_assoc (a b c : string) :
  ((a ++ b) ++ c)%string = (a ++ (b ++ c))%string.
Proof. induction a as [ | x a IH]; simpl; [ | rewrite IH]; reflexivity. Qed.

Lemma digit_cases (n : Z) : 0 <= n <= 9 -> In n [0; 1; 2; 3; 4; 5; 6; 7; 8; 9].
Proof. cbn [In]. lia. Qed.

(** One goal for each decimal digit [H] bounds. *)
Ltac each_digit H :=
  apply digit_cases in H; cbn [In] in H;
  repeat (destruct H as [H | H]); try contradiction; try subst.

Lemma digitVal_digitChar (n : Z) :
  0 <= n <= 9 -> digitVal (digitChar n) = Some n.
Proof. intros H. each_digit H; reflexivity. Qed.

Lemma pow10_pos (w : nat) : 0 < 10 ^ Z.of_nat w.
Proof. apply Z.pow_pos_nonneg; lia. Qed.

Lemma pow10_succ (w : nat) : 10 ^ Z.of_nat (S w) = 10 * 10 ^ Z.of_nat w.
Proof. rewrite Nat2Z.inj_succ, Z.pow_succ_r; lia. Qed.

Lemma lead_digit (w : nat) (n : Z) :
  0 <= n < 10 ^ Z.of_nat (S w) -> 0 <= n / 10 ^ Z.of_nat w <= 9.
Proof.
  intros H. rewrite pow10_succ in H. pose proof (pow10_pos w) as P.
  split.
  - apply Z.div_pos; lia.
  - assert (n / 10 ^ Z.of_nat w < 10); [ | lia].
    apply Z.div_lt_upper_bound; lia.
Qed.

Lemma readDigits_pad (w : nat) : forall (n acc : Z) (r : string),
  0 <= n < 10 ^ Z.of_nat w ->
  readDigits w acc (pad w n ++ r) = Some (acc * 10 ^ Z.of_nat w + n, r).
Proof.
  induction w as [ | w IH]; intros n acc r H.
  - assert (n = 0) by (simpl in H; lia). subst n. simpl.
    rewrite Z.mul_1_r, Z.add_0_r. reflexivity.
  - cbn [pad readDigits append].
    rewrite digitVal_digitChar by (apply lead_digit; exact H).
    pose proof (pow10_pos w) as P.
    rewrite IH by (apply Z.mod_pos_bound; exact P).
    rewrite pow10_succ. f_equal. f_equal.
    pose proof (Z.div_mod n (10 ^ Z.of_nat w)). nia.
Qed.

Lemma readYear_yearString (y : Z) (r : string) :
  -999999 <= y <= 999999 ->
  readYear (yearString y ++ r) = Some (y, r).
Proof.
  intros H. unfold yearString.
  destruct ((0 <=? y) && (y <=? 9999)) eqn:E.
  - apply andb_true_iff in E. destruct E as [E1 E2].
    apply Z.leb_le in E1. apply Z.leb_le in E2.
    assert (B : 0 <= y < 10 ^ Z.of_nat 4) by (simpl; lia).
    transitivity (readDigits 4 0 (pad 4 y ++ r)).
    + pose proof (lead_digit 3 y B) as L.
      change (pad 4 y) with
        (String (digitChar (y / 10 ^ Z.of_nat 3)) (pad 3 (y mod 10 ^ Z.of_nat 3))).
      each_digit L; rewrite <- L; reflexivity.
    + rewrite readDigits_pad by exact B. rewrite Z.mul_0_l, Z.add_0_l.
      reflexivity.
  - assert (B : 0 <= Z.abs y < 10 ^ Z.of_nat 6) by (simpl; lia).
    destruct (y <? 0) eqn:S; cbn [append readYear].
    + apply Z.ltb_lt in S. rewrite readDigits_pad by exact B.
      rewrite Z.mul_0_l, Z.add_0_l. f_equal. f_equal. lia.
    + apply Z.ltb_ge in S. rewrite readDigits_pad by exact B.
      rewrite Z.mul_0_l, Z.add_0_l. f_equal. f_equal. lia.
Qed.

Lemma parseIsoFields_isoString (t : Z) :
  validTime t -> parseIsoFields (isoString t) = Some t.
Proof.
  intros V.
  pose proof (YearFromTime_range t V) as RY.
  pose proof (MonthFromTime_range t) as RM.
  pose proof (DateFromTime_range t) as RD.
  pose proof (time_fields_range t) as (RH & RMi & RS & RMs).
  unfold isoString, isoDate, isoTime, parseIsoFields.
  repeat rewrite append_assoc.
  rewrite readYear_yearString by lia.
  cbn [append expect Ascii.eqb Bool.eqb].
  rewrite (readDigits_pad 2) by (simpl; lia).
  cbn [append expect Ascii.eqb Bool.eqb].
  rewrite (readDigits_pad 2) by (simpl; lia).
  cbn [append expect Ascii.eqb Bool.eqb].
  rewrite (readDigits_pad 2) by (simpl; lia).
  cbn [append expect Ascii.eqb Bool.eqb].
  rewrite (readDigits_pad 2) by (simpl; lia).
  cbn [append expect Ascii.eqb Bool.eqb].
  rewrite (readDigits_pad 2) by (simpl; lia).
  cbn [append expect Ascii.eqb Bool.eqb].
  rewrite (readDigits_pad 3) by (simpl; lia).
  cbn [append expect Ascii.eqb Bool.eqb].
  f_equal.
  rewrite !Z.mul_0_l, !Z.add_0_l.
  replace (MonthFromTime t + 1 - 1) with (MonthFromTime t) by lia.
  rewrite MakeDay_fields, MakeTime_fields. apply MakeDate_fields.
Qed.

Lemma validTimeb_true (t : Z) : validTimeb t = true <-> validTime t.
Proof.
  unfold validTimeb, validTime.
  rewrite andb_true_iff, !Z.leb_le. tauto.
Qed.

Lemma parseCanonical_isoString (t : Z) :
  validTime t -> parseCanonical (isoString t) = Some t.
Proof.
  intros V. unfold parseCanonical.
  rewrite parseIsoFields_isoString by exact V.
  rewrite (proj2 (validTimeb_true t) V), String.eqb_refl. reflexivity.
Qed.

Lemma parseCanonical_sound (s : string) (t : Z) :
  parseCanonical s = Some t -> validTime t /\ isoString t = s.
Proof.
  unfold parseCanonical. destruct (parseIsoFields s) as [u | ]; [ | discriminate].
  destruct (validTimeb u && (isoString u =? s)%string) eqn:E; [ | discriminate].
  intros H. injection H as <-.
  apply andb_true_iff in E. destruct E as [E1 E2].
  split; [apply validTimeb_true; exact E1 | apply String.eqb_eq; exact E2].
Qed.

Lemma isoString_inj (t u : Z) :
  validTime t -> validTime u -> isoString t = isoString u -> t = u.
Proof.
  intros Vt Vu E.
  pose proof (parseCanonical_isoString t Vt) as Pt.
  rewrite E, (parseCanonical_isoString u Vu) in Pt. congruence.
Qed.

Section Host.

Variable host : Host.

Lemma Date_parse_isoString (t : Z) :
  validTime t -> Date_parse host (isoString t) = Some t.
Proof.
  intros V. unfold Date_parse.
  rewrite parseCanonical_isoString by exact V. reflexivity.
Qed.

Lemma Date_parse_valid (s : string) (t : Z) :
  Date_parse host s = Some t -> validTime t.
Proof.
  unfold Date_parse.
  destruct (parseCanonical s) as [u | ] eqn:E.
  - intros H. injection H as <-. apply (parseCanonical_sound s u E).
  - destruct (legacyParse host s) as [u | ]; [ | discriminate].
    unfold TimeClip. destruct (validTimeb u) eqn:V; [ | discriminate].
    intros H. injection H as <-. apply validTimeb_true. exact V.
Qed.

End Host.

Lemma TimeClip_valid (t : Z) : validTime t -> TimeClip t = Some t.
Proof.
  intros V. unfold TimeClip. rewrite (proj2 (validTimeb_true t) V). reflexivity.
Qed.

Lemma TimeClip_Some (t u : Z) : TimeClip t = Some u -> u = t /\ validTime t.
Proof.
  unfold TimeClip. destruct (validTimeb t) eqn:V; [ | discriminate].
  intros H. injection H as <-. split; [reflexivity | ].
  apply validTimeb_true. exact V.
Qed.

Lemma toISOString_valid (t : Z) :
  validTime t -> toISOString (newDate t) = Ok (isoString t).
Proof.
  intros V. unfold newDate. rewrite TimeClip_valid by exact V. reflexivity.
Qed.

Lemma toISOString_Ok (t : Z) (iso : string) :
  toISOString (newDate t) = Ok iso -> validTime t /\ iso = isoString t.
Proof.
  unfold newDate. destruct (TimeClip t) as [u | ] eqn:E; [ | discriminate].
  apply TimeClip_Some in E. destruct E as [-> V]. cbn [toISOString].
  intros H. injection H as <-. auto.
Qed.

End IsoFacts.

Import IsoFacts.

(** ** Local days and the slot loop *)

Module DayFacts.

Lemma noT_app (a b : string) : noT (a ++ b) = noT a && noT b.
Proof.
  induction a as [ | c a IH]; simpl; [reflexivity | ].
  rewrite IH, andb_assoc. reflexivity.
Qed.

Lemma noT_digitChar (n : Z) :
  0 <= n <= 9 -> (digitChar n =? "T")%char = false.
Proof. intros H. each_digit H; reflexivity. Qed.

Lemma noT_pad (w : nat) : forall n, 0 <= n < 10 ^ Z.of_nat w -> noT (pad w n) = true.
Proof.
  induction w as [ | w IH]; intros n H; [reflexivity | ].
  cbn [pad noT].
  rewrite noT_digitChar by (apply lead_digit; exact H).
  rewrite IH by (apply Z.mod_pos_bound, pow10_pos). reflexivity.
Qed.

Lemma noT_yearString (y : Z) :
  -999999 <= y <= 999999 -> noT (yearString y) = true.
Proof.
  intros H. unfold yearString.
  destruct ((0 <=? y) && (y <=? 9999)) eqn:E.
  - apply andb_true_iff in E. destruct E as [E1 E2].
    apply Z.leb_le in E1. apply Z.leb_le in E2.
    apply noT_pad. simpl. lia.
  - cbn [noT]. rewrite noT_pad by (simpl; lia).
    destruct (y <? 0); reflexivity.
Qed.

Lemma noT_isoDate (t : Z) : validTime t -> noT (isoDate t) = true.
Proof.
  intros V. unfold isoDate.
  pose proof (YearFromTime_range t V).
  pose proof (MonthFromTime_range t).
  pose proof (DateFromTime_range t).
  rewrite !noT_app, noT_yearString by lia.
  rewrite !noT_pad by (simpl; lia). reflexivity.
Qed.

Lemma beforeT_app (a b : string) :
  noT a = true -> beforeT (a ++ String "T" b) = a.
Proof.
  induction a as [ | c a IH]; simpl; intros H; [reflexivity | ].
  apply andb_true_iff in H. destruct H as [H1 H2].
  apply negb_true_iff in H1. rewrite H1, IH by exact H2. reflexivity.
Qed.

Lemma beforeT_isoString (t : Z) :
  validTime t -> beforeT (isoString t) = isoDate t.
Proof.
  intros V. unfold isoString. apply beforeT_app, noT_isoDate, V.
Qed.

(** The date part of an ISO string depends on the day only. *)
Lemma isoDate_Day (t u : Z) : Day t = Day u -> isoDate t = isoDate u.
Proof.
  intros E.
  unfold isoDate, DateFromTime, MonthFromTime, DayWithinYear, InLeapYear,
    YearFromTime.
  rewrite E. reflexivity.
Qed.

Lemma Day_midnight (d : Z) : Day (d * msPerDay) = d.
Proof. unfold Day, msPerDay. apply Z.div_mul. lia. Qed.

Lemma isoTime_midnight (d : Z) : isoTime (d * msPerDay) = "00:00:00.000"%string.
Proof.
  unfold isoTime, HourFromTime, MinFromTime, SecFromTime, msFromTime,
    msPerDay, msPerHour, msPerMinute, msPerSecond.
  replace (d * 86400000 / 3600000) with (d * 24)
    by (Z.div_mod_to_equations; lia).
  replace (d * 86400000 / 60000) with (d * 1440)
    by (Z.div_mod_to_equations; lia).
  replace (d * 86400000 / 1000) with (d * 86400)
    by (Z.div_mod_to_equations; lia).
  replace ((d * 24) mod 24) with 0 by (Z.div_mod_to_equations; lia).
  replace ((d * 1440) mod 60) with 0 by (Z.div_mod_to_equations; lia).
  replace ((d * 86400) mod 60) with 0 by (Z.div_mod_to_equations; lia).
  replace ((d * 86400000) mod 1000) with 0 by (Z.div_mod_to_equations; lia).
  reflexivity.
Qed.

Lemma validTime_midnight (t : Z) : validTime t -> validTime (Day t * msPerDay).
Proof.
  unfold validTime, maxTime, Day, msPerDay. intros V.
  Z.div_mod_to_equations. lia.
Qed.

Lemma localYmd_midnight (t : Z) :
  validTime t ->
  (beforeT (isoString t) ++ "T00:00:00.000Z")%string
  = isoString (Day t * msPerDay).
Proof.
  intros V. rewrite beforeT_isoString by exact V.
  unfold isoString at 1.
  rewrite isoTime_midnight.
  rewrite (isoDate_Day (Day t * msPerDay) t) by apply Day_midnight.
  reflexivity.
Qed.

Lemma slotTimes_succ (n : nat) (t stepMs : Z) :
  slotTimes (S n) t stepMs = t :: slotTimes n (t + stepMs) stepMs.
Proof.
  unfold slotTimes. cbn [seq map]. rewrite <- seq_shift, map_map.
  f_equal; [simpl; lia | ].
  apply map_ext. intros k. lia.
Qed.

Section Host.

Variable host : Host.

Lemma localMidnightUtcMs_valid (t offsetMs : Z) :
  validTime (t - offsetMs) ->
  localMidnightUtcMs host t offsetMs = Ok (Some (localMidnight t offsetMs)).
Proof.
  intros V. unfold localMidnightUtcMs, newDate.
  rewrite TimeClip_valid by exact V. cbn [toISOString].
  rewrite localYmd_midnight by exact V.
  rewrite Date_parse_isoString by (apply validTime_midnight; exact V).
  reflexivity.
Qed.

(** The loop of [generateSlots] run with enough fuel. *)
Lemma slotsLoop_spec (stepMs durMs endMs : Z) (n : nat) :
  forall (t : Z) (fuel : nat),
    (forall k, (k < n)%nat ->
               t + Z.of_nat k * stepMs + durMs <= endMs
               /\ validTime (t + Z.of_nat k * stepMs)) ->
    endMs < t + Z.of_nat n * stepMs + durMs ->
    (n < fuel)%nat ->
    slotsLoop fuel t stepMs durMs endMs
    = Some (Ok (map isoString (slotTimes n t stepMs))).
Proof.
  induction n as [ | n IH]; intros t fuel In Out F.
  - destruct fuel as [ | fuel]; [lia | ]. cbn [slotsLoop].
    replace (t + durMs <=? endMs) with false
      by (symmetry; apply Z.leb_gt; simpl in Out; lia).
    reflexivity.
  - destruct fuel as [ | fuel]; [lia | ]. cbn [slotsLoop].
    destruct (In 0%nat ltac:(lia)) as [L V]. simpl in L, V.
    rewrite Z.add_0_r in L, V.
    replace (t + durMs <=? endMs) with true
      by (symmetry; apply Z.leb_le; lia).
    unfold newDate. rewrite TimeClip_valid by exact V. cbn [toISOString].
    rewrite (IH (t + stepMs) fuel).
    + rewrite slotTimes_succ. reflexivity.
    + intros k Hk. destruct (In (S k) ltac:(lia)) as [L' V'].
      replace (t + stepMs + Z.of_nat k * stepMs)
        with (t + Z.of_nat (S k) * stepMs) by lia.
      split; assumption.
    + replace (t + stepMs + Z.of_nat n * stepMs)
        with (t + Z.of_nat (S n) * stepMs) by lia. exact Out.
    + lia.
Qed.

End Host.

(** [slotCount] counts exactly the candidates that fit. *)
Lemma slotCount_spec (t0 stepMs durMs endMs k : Z) :
  0 < stepMs -> 0 <= k ->
  (t0 + k * stepMs + durMs <= endMs
   <-> k < Z.of_nat (slotCount t0 stepMs durMs endMs)).
Proof.
  intros S K. unfold slotCount.
  pose proof (Z.div_mod (endMs - durMs - t0) stepMs ltac:(lia)) as DM.
  pose proof (Z.mod_pos_bound (endMs - durMs - t0) stepMs S) as MB.
  set (q := (endMs - durMs - t0) / stepMs) in *.
  assert (E : Z.of_nat (Z.to_nat (q + 1)) = Z.max 0 (q + 1)) by lia.
  rewrite E.
  destruct (Z_lt_le_dec q 0) as [Neg | Pos]; split; intros H; nia.
Qed.

End DayFacts.

Import DayFacts.

(** ** The slot generator and the working hours *)

Module SlotFacts.

Lemma slotTimes_length (n : nat) (t0 stepMs : Z) :
  List.length (slotTimes n t0 stepMs) = n.
Proof. unfold slotTimes. rewrite length_map, length_seq. reflexivity. Qed.

Lemma slotTimes_nth (n i : nat) (t0 stepMs : Z) :
  (i < n)%nat -> nth i (slotTimes n t0 stepMs) 0 = t0 + Z.of_nat i * stepMs.
Proof.
  revert i t0. induction n as [ | n IH]; intros i t0 H; [lia | ].
  rewrite slotTimes_succ. destruct i as [ | i]; cbn [nth].
  - simpl. lia.
  - rewrite IH by lia. lia.
Qed.

Lemma slotTimes_In (n : nat) (t0 stepMs t : Z) :
  In t (slotTimes n t0 stepMs)
  <-> exists k, 0 <= k < Z.of_nat n /\ t = t0 + k * stepMs.
Proof.
  unfold slotTimes. rewrite in_map_iff. split.
  - intros (k & E & I). apply in_seq in I. exists (Z.of_nat k). split; lia.
  - intros (k & R & E). exists (Z.to_nat k). split.
    + rewrite Z2Nat.id by lia. congruence.
    + apply in_seq. lia.
Qed.

Section Host.

Variable host : Host.

Lemma getWorkingHours_cases (t : Z) (tz : option Z) :
  getWorkingHours host t tz = {| startHour := 9; endHour := 13 |}
  \/ getWorkingHours host t tz = {| startHour := 9; endHour := 18 |}.
Proof.
  unfold getWorkingHours.
  destruct (newDate _) as [ld | ]; [ | auto].
  destruct (newDateLocal _ _ _ _ _ _ _) as [n | ]; [ | auto].
  destruct ((getDay host n =? 0) || (getDay host n =? 6)); auto.
Qed.

(** On a host whose local time is UTC, and away from the years 0 to 99,
    the window is that of the day of the week of the client's local day. *)
Lemma getWorkingHours_utc (t : Z) (tz : option Z) :
  (forall u b, LocalTZA host u b = 0) ->
  let ld := t - orElse tz 0 * 60000 in
  - maxTime <= ld < maxTime ->
  ~ 0 <= YearFromTime ld <= 99 ->
  getWorkingHours host t tz
  = if (WeekDay ld =? 0) || (WeekDay ld =? 6)
    then {| startHour := 9; endHour := 13 |}
    else {| startHour := 9; endHour := 18 |}.
Proof.
  intros Z0 ld V Y. unfold getWorkingHours. fold ld.
  unfold newDate. rewrite TimeClip_valid by (unfold validTime; lia).
  unfold newDateLocal, getFullYear, getMonth, getDate, getDay, LocalTime, UTC.
  rewrite !Z0, !Z.add_0_r, Z.sub_0_r.
  replace ((0 <=? YearFromTime ld) && (YearFromTime ld <=? 99)) with false.
  2:{ symmetry. apply andb_false_iff. rewrite Z.leb_gt, Z.leb_gt. lia. }
  rewrite MakeDay_fields.
  assert (D : -100000000 <= Day ld < 100000000).
  { unfold Day, msPerDay. unfold maxTime in V. Z.div_mod_to_equations. lia. }
  assert (N : Day (MakeDate (Day ld) (MakeTime 12 0 0 0)) = Day ld).
  { unfold MakeDate, MakeTime, Day, msPerDay, msPerHour, msPerMinute,
      msPerSecond. Z.div_mod_to_equations. lia. }
  rewrite TimeClip_valid.
  - rewrite Z0, Z.add_0_r. unfold WeekDay. rewrite N. reflexivity.
  - unfold validTime, maxTime, MakeDate, MakeTime, msPerDay, msPerHour,
      msPerMinute, msPerSecond. lia.
Qed.

Lemma generateSlots_enough_fuel
    (dateUtc slotMinutes durationMinutes : Z) (tz : option Z) :
  let offsetMs := orElse tz 0 * 60000 in
  let wh := getWorkingHours host dateUtc tz in
  let windowStart := localMidnight dateUtc offsetMs + startHour wh * 60 * 60000 in
  let windowEnd := localMidnight dateUtc offsetMs + endHour wh * 60 * 60000 in
  let stepMs := slotMinutes * 60000 in
  let durMs := durationMinutes * 60000 in
  let n := slotCount windowStart stepMs durMs windowEnd in
  0 < slotMinutes ->
  validTime (dateUtc - offsetMs) ->
  - maxTime <= windowStart ->
  windowEnd - durMs <= maxTime ->
  forall fuel, (n < fuel)%nat ->
    generateSlots host fuel dateUtc slotMinutes durationMinutes tz
    = Some (Ok (map isoString (slotTimes n windowStart stepMs))).
Proof.
  intros offsetMs wh windowStart windowEnd stepMs durMs n S V Lo Hi fuel F.
  unfold generateSlots. fold offsetMs wh.
  rewrite localMidnightUtcMs_valid by exact V.
  fold windowStart windowEnd stepMs durMs.
  assert (SP : 0 < stepMs) by (unfold stepMs; lia).
  apply slotsLoop_spec; [ | | exact F].
  - intros k Hk.
    assert (FIT : windowStart + Z.of_nat k * stepMs + durMs <= windowEnd).
    { apply slotCount_spec; [exact SP | lia | fold n; lia]. }
    split; [exact FIT | ]. unfold validTime. nia.
  - assert (NF : ~ windowStart + Z.of_nat n * stepMs + durMs <= windowEnd).
    { rewrite slotCount_spec by lia. fold n. lia. }
    lia.
Qed.

End Host.

End SlotFacts.

Import SlotFacts.

(** ** The two booking operations in normal form *)

Module BookingFacts.

Lemma falsy_nonempty (s : string) : s <> EmptyString -> falsy (Some s) = false.
Proof. destruct s; [congruence | reflexivity]. Qed.

Lemma falsy_false (s : string) : falsy (Some s) = false -> s <> EmptyString.
Proof. destruct s; [discriminate | discriminate]. Qed.

Lemma findById_None (id : ObjectId) (c : Collection) :
  (forall a, In a c -> _id a <> id) -> findById id c = None.
Proof.
  intros H. unfold findById.
  destruct (List.find _ c) as [a | ] eqn:E; [ | reflexivity].
  apply find_some in E. destruct E as [I E]. apply Nat.eqb_eq in E.
  exfalso. exact (H a I E).
Qed.

Section Host.

Variable host : Host.

Lemma dayBounds_valid (s tz : Z) :
  validTime (s - tz * 60000) ->
  dayBounds host s tz
  = Ok (newDate (dayStartOf host s tz), newDate (dayEndOf host s tz)).
Proof.
  intros V. unfold dayBounds.
  rewrite localMidnightUtcMs_valid by exact V. reflexivity.
Qed.

Lemma outsideWorkingHours_spec (s e lo hi : Z) :
  validTime lo -> validTime hi -> validTime e ->
  outsideWorkingHours (Some s) (newDate e) (newDate lo, newDate hi) = true
  <-> s < lo \/ e > hi.
Proof.
  intros Vlo Vhi Ve. unfold outsideWorkingHours, newDate.
  rewrite !TimeClip_valid by assumption. cbn [fst snd num_lt].
  rewrite orb_true_iff, !Z.ltb_lt. lia.
Qed.

(** What [createAppointment] does with a complete body. *)
Lemma createAppointment_complete (body : CreateBody) (c : Collection)
    (nm ph : string) (sv : ServiceKey) (st : string) (s : Z) :
  completeBody host body nm ph sv st s ->
  createAppointment host body c
  = match dayBounds host s (orElse (cb_tzOffset body) 0) with
    | Throw e => (Throw e, c)
    | Ok bounds =>
        if outsideWorkingHours (Some s) (newDate (endOf s sv)) bounds
        then (Throw OutOfWindow, c)
        else
          match toISOString (newDate (endOf s sv)) with
          | Throw e => (Throw e, c)
          | Ok endIso =>
              if exists_ (overlapFilter (isoString s) endIso) c
              then (Throw SlotBusy, c)
              else
                let r := create nm ph sv (isoString s) endIso c in
                (Ok (fst r), snd r)
          end
    end.
Proof.
  intros (E1 & E2 & E3 & E4 & N1 & N2 & N3 & P).
  unfold createAppointment. rewrite E1, E2, E3, E4.
  rewrite !falsy_nonempty by assumption. cbn [orb]. rewrite P.
  unfold bind, lift, throw, query, write, endOf.
  destruct (dayBounds host s _) as [bounds | e]; [ | reflexivity].
  destruct (outsideWorkingHours _ _ _); [reflexivity | ].
  destruct (toISOString _) as [endIso | e]; [ | reflexivity].
  cbn [toISOString].
  destruct (exists_ _ c); [reflexivity | ].
  reflexivity.
Qed.

(** What [updateAppointment] does with an update that supplies a start. *)
Lemma updateAppointment_restarting (id : ObjectId) (u : UpdateData)
    (c : Collection) (old : Appointment) (st : string) (s : Z) :
  restartingUpdate host id u c old st s ->
  let sv := orElse (ud_service u) (service old) in
  updateAppointment host id u c
  = match dayBounds host s (orElse (ud_tzOffset u) 0) with
    | Throw e => (Throw e, c)
    | Ok bounds =>
        if outsideWorkingHours (Some s) (newDate (endOf s sv)) bounds
        then (Throw OutOfWindow, c)
        else
          match toISOString (newDate (endOf s sv)) with
          | Throw e => (Throw e, c)
          | Ok endIso =>
              if exists_ (fun a => negb (Nat.eqb (_id a) id)
                                   && overlapFilter (isoString s) endIso a) c
              then (Throw SlotBusy, c)
              else
                if validUpdate (withEnd u endIso)
                then (Ok (applySet (withEnd u endIso) old),
                      updateById id (withEnd u endIso) c)
                else (Throw ValidationError, c)
          end
    end.
Proof.
  intros (F & E & N & P) sv.
  unfold updateAppointment, bind at 1, query. rewrite F, E.
  rewrite falsy_nonempty by exact N.
  unfold revalidate. rewrite P. fold sv.
  unfold bind, lift, throw, query, ret, endOf.
  destruct (dayBounds host s _) as [bounds | e]; [ | reflexivity].
  destruct (outsideWorkingHours _ _ _); [reflexivity | ].
  destruct (toISOString _) as [endIso | e]; [ | reflexivity].
  cbn [toISOString].
  destruct (exists_ _ c); [reflexivity | ].
  unfold findByIdAndUpdate. rewrite F.
  destruct (validUpdate _); reflexivity.
Qed.

End Host.

End BookingFacts.

Import BookingFacts.

(** ** The order of ISO strings *)

Module IsoOrder.

Lemma plainYear_valid (t : Z) : plainYear t -> validTime t.
Proof. unfold plainYear, validTime, maxTime. lia. Qed.

Lemma plainYear_year (t : Z) : plainYear t -> 0 <= YearFromTime t <= 9999.
Proof.
  unfold plainYear, YearFromTime. intros V.
  pose proof (YearFromDay_spec (Day t)) as S.
  assert (D : -719528 <= Day t <= 2932896).
  { unfold Day, msPerDay. Z.div_mod_to_equations. lia. }
  split.
  - destruct (Z_le_gt_dec 0 (YearFromDay (Day t))) as [L | G]; [exact L | ].
    assert (DayFromYear (YearFromDay (Day t) + 1) <= DayFromYear 0)
      by (apply DayFromYear_mono; lia).
    assert (DayFromYear 0 = -719528) by reflexivity. lia.
  - destruct (Z_le_gt_dec (YearFromDay (Day t)) 9999) as [L | G]; [exact L | ].
    assert (DayFromYear 10000 <= DayFromYear (YearFromDay (Day t)))
      by (apply DayFromYear_mono; lia).
    assert (DayFromYear 10000 = 2932897) by reflexivity. lia.
Qed.

Lemma compare_digitChar (p q : Z) :
  0 <= p <= 9 -> 0 <= q <= 9 ->
  Ascii.compare (digitChar p) (digitChar q) = (p ?= q).
Proof. intros P Q. each_digit P; each_digit Q; reflexivity. Qed.

Lemma ascii_compare_refl (c : ascii) : Ascii.compare c c = Eq.
Proof. unfold Ascii.compare. apply N.compare_refl. Qed.

Lemma compare_cons (c : ascii) (r1 r2 : string) :
  String.compare (String c r1) (String c r2) = String.compare r1 r2.
Proof. cbn [String.compare]. rewrite ascii_compare_refl. reflexivity. Qed.

Lemma compare_shift (p a b m : Z) :
  (p * m + a ?= p * m + b) = (a ?= b).
Proof.
  destruct (Z.compare_spec a b) as [E | L | G].
  - subst. apply Z.compare_refl.
  - apply Z.compare_lt_iff. lia.
  - apply Z.compare_gt_iff. lia.
Qed.

Lemma compare_pad (w : nat) : forall (a b : Z) (r1 r2 : string),
  0 <= a < 10 ^ Z.of_nat w -> 0 <= b < 10 ^ Z.of_nat w ->
  String.compare (pad w a ++ r1) (pad w b ++ r2)
  = lex (a ?= b) (String.compare r1 r2).
Proof.
  induction w as [ | w IH]; intros a b r1 r2 A B.
  - assert (a = 0) by (simpl in A; lia). assert (b = 0) by (simpl in B; lia).
    subst. reflexivity.
  - cbn [pad append String.compare].
    pose proof (pow10_pos w) as P.
    rewrite compare_digitChar by (apply lead_digit; assumption).
    rewrite IH by (apply Z.mod_pos_bound; exact P).
    pose proof (Z.div_mod a (10 ^ Z.of_nat w) ltac:(lia)) as Da.
    pose proof (Z.div_mod b (10 ^ Z.of_nat w) ltac:(lia)) as Db.
    pose proof (Z.mod_pos_bound a (10 ^ Z.of_nat w) P) as Ma.
    pose proof (Z.mod_pos_bound b (10 ^ Z.of_nat w) P) as Mb.
    set (m := 10 ^ Z.of_nat w) in *.
    set (p := a / m) in *. set (q := b / m) in *.
    set (a' := a mod m) in *. set (b' := b mod m) in *.
    destruct (Z.compare_spec p q) as [E | L | G].
    + rewrite Da, Db, E, !(Z.mul_comm m), compare_shift.
      destruct (a' ?= b'); reflexivity.
    + assert (a < b) by nia.
      rewrite (proj2 (Z.compare_lt_iff a b)) by assumption. reflexivity.
    + assert (b < a) by nia.
      rewrite (proj2 (Z.compare_gt_iff a b)) by assumption. reflexivity.
Qed.

Lemma month_mono (d1 d2 l : Z) :
  monthOfYearDay d1 l < monthOfYearDay d2 l -> d1 < d2.
Proof.
  unfold monthOfYearDay.
  repeat match goal with
         | |- context [if ?a <? ?b then _ else _] =>
             let E := fresh "E" in
             destruct (a <? b) eqn:E;
             [ apply Z.ltb_lt in E | apply Z.ltb_ge in E ]
         end; lia.
Qed.

(** Year, month and day of the month order the days. *)
Lemma date_fields_order (x y : Z) (r : comparison) :
  lex (YearFromTime x ?= YearFromTime y)
    (lex (MonthFromTime x + 1 ?= MonthFromTime y + 1)
       (lex (DateFromTime x ?= DateFromTime y) r))
  = lex (Day x ?= Day y) r.
Proof.
  unfold DateFromTime, MonthFromTime, DayWithinYear, InLeapYear, YearFromTime.
  pose proof (YearFromDay_spec (Day x)) as Sx.
  pose proof (YearFromDay_spec (Day y)) as Sy.
  set (dx := Day x) in *. set (dy := Day y) in *.
  set (yx := YearFromDay dx) in *. set (yy := YearFromDay dy) in *.
  destruct (Z.compare_spec yx yy) as [E | L | G]; cbn [lex].
  - rewrite E in *. set (l := if isLeap yy then 1 else 0).
    set (ax := dx - DayFromYear yy). set (ay := dy - DayFromYear yy).
    destruct (Z.compare_spec (monthOfYearDay ax l + 1) (monthOfYearDay ay l + 1))
      as [E' | L' | G']; cbn [lex].
    + assert (EM : monthOfYearDay ax l = monthOfYearDay ay l) by lia.
      rewrite EM.
      replace (ax - monthStart (monthOfYearDay ay l) l + 1
               ?= ay - monthStart (monthOfYearDay ay l) l + 1)
        with (dx ?= dy); [reflexivity | ].
      destruct (Z.compare_spec dx dy) as [E2 | L2 | G2]; symmetry.
      * subst ax ay. rewrite E2. apply Z.compare_refl.
      * apply Z.compare_lt_iff. unfold ax, ay. lia.
      * apply Z.compare_gt_iff. unfold ax, ay. lia.
    + assert (ax < ay) by (apply (month_mono ax ay l); lia).
      rewrite (proj2 (Z.compare_lt_iff dx dy)) by (unfold ax, ay in *; lia).
      reflexivity.
    + assert (ay < ax) by (apply (month_mono ay ax l); lia).
      rewrite (proj2 (Z.compare_gt_iff dx dy)) by (unfold ax, ay in *; lia).
      reflexivity.
  - assert (DayFromYear (yx + 1) <= DayFromYear yy)
      by (apply DayFromYear_mono; lia).
    rewrite (proj2 (Z.compare_lt_iff dx dy)) by lia. reflexivity.
  - assert (DayFromYear (yy + 1) <= DayFromYear yx)
      by (apply DayFromYear_mono; lia).
    rewrite (proj2 (Z.compare_gt_iff dx dy)) by lia. reflexivity.
Qed.

Lemma lex_radix (m a b p q : Z) :
  0 <= a < m -> 0 <= b < m ->
  lex (p ?= q) (a ?= b) = (p * m + a ?= q * m + b).
Proof.
  intros A B. destruct (Z.compare_spec p q) as [E | L | G]; cbn [lex].
  - subst. symmetry. apply compare_shift.
  - symmetry. apply Z.compare_lt_iff. nia.
  - symmetry. apply Z.compare_gt_iff. nia.
Qed.

Lemma time_fields_order (x y : Z) :
  lex (HourFromTime x ?= HourFromTime y)
    (lex (MinFromTime x ?= MinFromTime y)
       (lex (SecFromTime x ?= SecFromTime y)
          (lex (msFromTime x ?= msFromTime y) Eq)))
  = (TimeWithinDay x ?= TimeWithinDay y).
Proof.
  rewrite <- (MakeTime_fields x), <- (MakeTime_fields y).
  pose proof (time_fields_range x) as (Hx & Mx & Sx & Lx).
  pose proof (time_fields_range y) as (Hy & My & Sy & Ly).
  unfold MakeTime, msPerHour, msPerMinute, msPerSecond.
  set (hx := HourFromTime x) in *. set (hy := HourFromTime y) in *.
  set (mx := MinFromTime x) in *. set (my := MinFromTime y) in *.
  set (sx := SecFromTime x) in *. set (sy := SecFromTime y) in *.
  set (lx := msFromTime x) in *. set (ly := msFromTime y) in *.
  replace (lex (lx ?= ly) Eq) with (lx ?= ly) by (destruct (lx ?= ly); reflexivity).
  rewrite (lex_radix 1000 lx ly sx sy) by lia.
  rewrite (lex_radix 60000 (sx * 1000 + lx) (sy * 1000 + ly) mx my) by lia.
  rewrite (lex_radix 3600000 (mx * 60000 + (sx * 1000 + lx))
             (my * 60000 + (sy * 1000 + ly)) hx hy) by lia.
  f_equal; lia.
Qed.

Lemma day_time_order (x y : Z) :
  lex (Day x ?= Day y) (TimeWithinDay x ?= TimeWithinDay y) = (x ?= y).
Proof.
  rewrite (lex_radix msPerDay)
    by (apply Z.mod_pos_bound; reflexivity).
  f_equal; unfold Day, TimeWithinDay, msPerDay; Z.div_mod_to_equations; lia.
Qed.

(** On the years 0000 to 9999 the byte order of ISO strings is the order
    of the instants. *)
Lemma isoString_compare (x y : Z) :
  plainYear x -> plainYear y ->
  String.compare (isoString x) (isoString y) = (x ?= y).
Proof.
  intros Px Py.
  pose proof (plainYear_year x Px) as Yx.
  pose proof (plainYear_year y Py) as Yy.
  pose proof (MonthFromTime_range x). pose proof (MonthFromTime_range y).
  pose proof (DateFromTime_range x). pose proof (DateFromTime_range y).
  pose proof (time_fields_range x) as (? & ? & ? & ?).
  pose proof (time_fields_range y) as (? & ? & ? & ?).
  rewrite <- day_time_order, <- time_fields_order, <- date_fields_order.
  unfold isoString, isoDate, isoTime, yearString.
  replace ((0 <=? YearFromTime x) && (YearFromTime x <=? 9999)) with true
    by (symmetry; apply andb_true_iff; rewrite !Z.leb_le; lia).
  replace ((0 <=? YearFromTime y) && (YearFromTime y <=? 9999)) with true
    by (symmetry; apply andb_true_iff; rewrite !Z.leb_le; lia).
  repeat rewrite append_assoc.
  cbn [append].
  rewrite (compare_pad 4) by (simpl; lia). rewrite compare_cons.
  rewrite (compare_pad 2) by (simpl; lia). rewrite compare_cons.
  rewrite (compare_pad 2) by (simpl; lia). rewrite compare_cons.
  rewrite (compare_pad 2) by (simpl; lia). rewrite compare_cons.
  rewrite (compare_pad 2) by (simpl; lia). rewrite compare_cons.
  rewrite (compare_pad 2) by (simpl; lia). rewrite compare_cons.
  rewrite (compare_pad 3) by (simpl; lia). rewrite compare_cons.
  reflexivity.
Qed.

Lemma isoString_ltb (x y : Z) :
  plainYear x -> plainYear y ->
  str_lt (isoString x) (isoString y) = (x <? y).
Proof.
  intros Px Py. unfold str_lt, String.ltb, Z.ltb.
  rewrite isoString_compare by assumption. reflexivity.
Qed.

End IsoOrder.

Import IsoOrder.

(** ** The collection *)

Module StoreFacts.

Lemma findById_updateById (id : ObjectId) (u : UpdateData) (c : Collection)
    (old : Appointment) :
  findById id c = Some old ->
  findById id (updateById id u c) = Some (applySet u old).
Proof.
  unfold findById. induction c as [ | a c IH]; [discriminate | ].
  cbn [List.find updateById].
  destruct (Nat.eqb (_id a) id) eqn:E.
  - intros H. injection H as <-. cbn [List.find applySet _id]. rewrite E.
    reflexivity.
  - intros H. cbn [List.find]. rewrite E. apply IH, H.
Qed.

Lemma overlapFilter_runs (a : Appointment) (sa ea s e : Z) :
  runs a sa ea -> plainYear s -> plainYear e ->
  overlapFilter (isoString s) (isoString e) a = (sa <? e) && (s <? ea).
Proof.
  intros (Ps & Pe & Es & Ee) S E. unfold overlapFilter, str_gt.
  rewrite Es, Ee.
  change (isoString s <? isoString ea)%string
    with (str_lt (isoString s) (isoString ea)).
  rewrite !isoString_ltb by assumption. reflexivity.
Qed.

Lemma exists_clashes (c : Collection) (lo hi : string) :
  exists_ (overlapFilter lo hi) c = true <-> clashes c None lo hi.
Proof.
  unfold exists_, clashes. rewrite existsb_exists. split.
  - intros (a & I & F). exists a. split; [exact I | ].
    split; [discriminate | exact F].
  - intros (a & I & _ & F). exists a. auto.
Qed.

Lemma exists_clashes_other (c : Collection) (id : ObjectId) (lo hi : string) :
  exists_ (fun a => negb (Nat.eqb (_id a) id) && overlapFilter lo hi a) c = true
  <-> clashes c (Some id) lo hi.
Proof.
  unfold exists_, clashes. rewrite existsb_exists. split.
  - intros (a & I & F). apply andb_true_iff in F. destruct F as [F0 F].
    apply negb_true_iff, Nat.eqb_neq in F0.
    exists a. split; [exact I | ]. split; [congruence | exact F].
  - intros (a & I & N & F). exists a. split; [exact I | ].
    apply andb_true_iff. split; [ | exact F].
    apply negb_true_iff, Nat.eqb_neq. congruence.
Qed.

(** On a canonical collection the filter is the overlap of the instants. *)
Lemma clashes_overlapped (c : Collection) (self : option ObjectId) (s e : Z) :
  canonical c -> plainYear s -> plainYear e ->
  clashes c self (isoString s) (isoString e) <-> overlapped c self s e.
Proof.
  intros C S E. unfold clashes, overlapped. split.
  - intros (a & I & N & F). destruct (C a I) as (sa & ea & R).
    rewrite (overlapFilter_runs a sa ea s e R S E) in F.
    apply andb_true_iff in F. destruct F as [F1 F2].
    apply Z.ltb_lt in F1. apply Z.ltb_lt in F2.
    exists a, sa, ea.
    split; [exact I | ]. split; [exact N | ]. split; [exact R | lia].
  - intros (a & sa & ea & I & N & R & L1 & L2). exists a.
    split; [exact I | ]. split; [exact N | ].
    rewrite (overlapFilter_runs a sa ea s e R S E).
    apply andb_true_iff. rewrite !Z.ltb_lt. lia.
Qed.

End StoreFacts.

Import StoreFacts.

(** ** Busy slots and free chunks *)

Module AvailabilityFacts.

Lemma set_has_In (s : list string) (x : string) :
  set_has s x = true <-> In x s.
Proof.
  unfold set_has. rewrite existsb_exists. split.
  - intros (y & I & E). apply String.eqb_eq in E. subst. exact I.
  - intros I. exists x. split; [exact I | apply String.eqb_refl].
Qed.

Lemma set_add_In (s : list string) (x y : string) :
  In y (set_add s x) <-> In y s \/ y = x.
Proof.
  unfold set_add. destruct (set_has s x) eqn:E.
  - apply set_has_In in E. split; [auto | ]. intros [H | ->]; assumption.
  - rewrite in_app_iff. cbn [In]. split; intros [H | H]; auto.
    + destruct H as [H | []]. auto.
Qed.

Lemma filterM_total (f : string -> result bool) (g : string -> bool)
    (l : list string) :
  (forall x, In x l -> f x = Ok (g x)) -> filterM f l = Ok (filter g l).
Proof.
  induction l as [ | x l IH]; intros H; [reflexivity | ].
  cbn [filterM filter]. rewrite (H x) by (left; reflexivity).
  rewrite IH by (intros y I; apply H; right; exact I).
  destruct (g x); reflexivity.
Qed.

Lemma forallb_shift (f : nat -> bool) (g : nat -> bool) (a n : nat) :
  (forall j, f (S j) = g j) ->
  forallb f (seq (S a) n) = forallb g (seq a n).
Proof.
  intros E. revert a. induction n as [ | n IH]; intros a; [reflexivity | ].
  cbn [seq forallb]. rewrite E, IH. reflexivity.
Qed.

Section Host.

Variable host : Host.

(** The inner loop adds the slots inside the interval. *)
Lemma markInterval_In (interval : string * string) (slots : list string) :
  forall (busy : list string) (x : string),
    In x (fold_left
            (fun busy slot =>
               let t := Date_parse host slot in
               if num_le (Date_parse host (fst interval)) t
                  && num_lt t (Date_parse host (snd interval))
               then set_add busy slot else busy)
            slots busy)
    <-> In x busy \/ (In x slots /\ insideInterval host interval x = true).
Proof.
  induction slots as [ | y slots IH]; intros busy x; cbn [fold_left In].
  - tauto.
  - rewrite IH. unfold insideInterval.
    destruct (num_le _ (Date_parse host y) && num_lt _ _) eqn:E.
    + rewrite set_add_In. split.
      * intros [[H | ->] | H]; [tauto | | tauto]. right. split; [auto | exact E].
      * intros [H | [[<- | H] I]]; tauto.
    + split.
      * intros [H | H]; tauto.
      * intros [H | [[<- | H] I]]; [tauto | congruence | tauto].
Qed.

Lemma markBusy_from (slots : list string) (intervals : list (string * string)) :
  forall (busy : list string) (x : string),
    In x (fold_left
            (fun busy interval =>
               let s := Date_parse host (fst interval) in
               let e := Date_parse host (snd interval) in
               fold_left
                 (fun busy slot =>
                    let t := Date_parse host slot in
                    if num_le s t && num_lt t e then set_add busy slot
                    else busy)
                 slots busy)
            intervals busy)
    <-> In x busy
        \/ (In x slots
            /\ exists interval, In interval intervals
                                /\ insideInterval host interval x = true).
Proof.
  induction intervals as [ | iv intervals IH]; intros busy x;
    cbn [fold_left In].
  - split; [tauto | ]. intros [H | (_ & iv & [] & _)]. exact H.
  - rewrite IH. cbv zeta. rewrite markInterval_In. split.
    + intros [[H | (I & E)] | (I & iv' & I' & E)]; [tauto | | ].
      * right. split; [exact I | ]. exists iv. auto.
      * right. split; [exact I | ]. exists iv'. auto.
    + intros [H | (I & iv' & [<- | I'] & E)]; [tauto | tauto | ].
      right. split; [exact I | ]. exists iv'. auto.
Qed.

Lemma markBusy_In (slots : list string) (intervals : list (string * string))
    (x : string) :
  In x (markBusy host slots intervals)
  <-> In x slots
      /\ exists interval, In interval intervals
                          /\ insideInterval host interval x = true.
Proof.
  unfold markBusy. rewrite markBusy_from. cbn [In]. tauto.
Qed.

Lemma insideInterval_iso (a : Appointment) (t : Z) :
  validTime t ->
  insideInterval host (start a, end_ a) (isoString t) = true
  <-> exists sa ea, Date_parse host (start a) = Some sa
                    /\ Date_parse host (end_ a) = Some ea /\ sa <= t < ea.
Proof.
  intros V. unfold insideInterval. cbn [fst snd].
  rewrite Date_parse_isoString by exact V.
  destruct (Date_parse host (start a)) as [sa | ];
    destruct (Date_parse host (end_ a)) as [ea | ]; cbn [num_le num_lt].
  - rewrite andb_true_iff, Z.leb_le, Z.ltb_lt. split.
    + intros H. exists sa, ea. auto.
    + intros (sa' & ea' & E1 & E2 & H). injection E1 as <-. injection E2 as <-.
      exact H.
  - rewrite andb_false_r. split; [discriminate | ].
    intros (sa' & ea' & _ & E & _). discriminate.
  - split; [discriminate | ]. intros (sa' & ea' & E & _). discriminate.
  - split; [discriminate | ]. intros (sa' & ea' & E & _). discriminate.
Qed.

(** A grid point is marked busy exactly when a fetched interval contains
    it. *)
Lemma busy_grid_point (grid : list Z) (fetched : list Appointment) (t : Z) :
  (forall u, In u grid -> validTime u) -> validTime t ->
  In (isoString t)
    (markBusy host (map isoString grid)
       (map (fun a => (start a, end_ a)) fetched))
  <-> In t grid /\ busyAt host fetched t.
Proof.
  intros G V. rewrite markBusy_In. split.
  - intros (I & iv & Iv & E).
    apply in_map_iff in I. destruct I as (u & Eu & Iu).
    apply isoString_inj in Eu; [ | apply G; exact Iu | exact V]. subst u.
    apply in_map_iff in Iv. destruct Iv as (a & <- & Ia).
    apply insideInterval_iso in E; [ | exact V].
    destruct E as (sa & ea & E1 & E2 & H).
    split; [exact Iu | ]. exists a, sa, ea. auto.
  - intros (I & a & sa & ea & Ia & E1 & E2 & H). split.
    + apply in_map. exact I.
    + exists (start a, end_ a). split.
      * apply in_map_iff. exists a. auto.
      * apply insideInterval_iso; [exact V | ]. exists sa, ea. auto.
Qed.

(** The chunk loop returns, and says whether every chunk is free. *)
Lemma chunksFree_spec (slotMinutes t : Z) (busy : list string) (n : nat) :
  forall i,
    (forall j, (j < n)%nat ->
               validTime (t + (i + Z.of_nat j) * slotMinutes * 60000)) ->
    chunksFree n i (Some t) slotMinutes busy
    = Ok (forallb
            (fun j => negb (set_has busy
                              (isoString
                                 (t + (i + Z.of_nat j) * slotMinutes * 60000))))
            (seq 0 n)).
Proof.
  induction n as [ | n IH]; intros i V; [reflexivity | ].
  cbn [chunksFree num_add newDateNum seq forallb].
  pose proof (V 0%nat ltac:(lia)) as V0. rewrite Z.add_0_r in V0.
  rewrite toISOString_valid by exact V0.
  rewrite Z.add_0_r.
  destruct (set_has busy _); [reflexivity | ]. cbn [negb andb].
  rewrite IH.
  - f_equal. symmetry. apply forallb_shift.
    intros j. replace (i + 1 + Z.of_nat j) with (i + Z.of_nat (S j)) by lia.
    reflexivity.
  - intros j Hj. replace (i + 1 + Z.of_nat j) with (i + Z.of_nat (S j)) by lia.
    apply V. lia.
Qed.

End Host.

End AvailabilityFacts.

Import AvailabilityFacts.

(** ** The availability query *)

Module QueryFacts.

Lemma candidateStart_slotTimes (ws we minutes t : Z) :
  In t (slotTimes (slotCount ws (15 * 60000) (minutes * 60000) we) ws
          (15 * 60000))
  <-> candidateStart ws we minutes t.
Proof.
  rewrite slotTimes_In. unfold candidateStart. split.
  - intros (k & R & E). exists k. split; [lia | ]. split; [exact E | ].
    subst t. apply slotCount_spec; lia.
  - intros (k & K & E & F). exists k. split; [ | exact E].
    split; [exact K | ]. apply slotCount_spec; [lia | exact K | ].
    subst t. exact F.
Qed.

Lemma slotCount_bound (ws we durMs : Z) :
  we - ws <= 9 * 60 * 60000 -> 15 * 60000 <= durMs ->
  (slotCount ws (15 * 60000) durMs we <= 36)%nat.
Proof.
  intros W D. unfold slotCount.
  assert ((we - durMs - ws) / (15 * 60000) + 1 <= 36).
  { Z.div_mod_to_equations. lia. }
  lia.
Qed.

Lemma queryDuration_cases (service : option ServiceKey) :
  (queryDuration service = 15 /\ Z.max 1 (ceilDiv (queryDuration service) 15) = 1)
  \/ (queryDuration service = 45
      /\ Z.max 1 (ceilDiv (queryDuration service) 15) = 3).
Proof. destruct service as [[ | | | ] | ]; cbn; auto. Qed.

Section Host.

Variable host : Host.

Lemma getBusyIntervalsISO_valid (date eff : Z) (c : Collection) :
  dayRepresentable date (eff * 60000) ->
  getBusyIntervalsISO host date (Some eff) c
  = Ok (map (fun a => (start a, end_ a))
          (fetchedFor (localMidnight date (eff * 60000)) c)).
Proof.
  intros (V & Vm & Ve). unfold getBusyIntervalsISO. cbn [orElse].
  rewrite localMidnightUtcMs_valid by exact V.
  cbn [num_add newDateNum].
  rewrite !toISOString_valid by assumption. reflexivity.
Qed.

(** The result of an availability query whose day can be handled. *)
Lemma availability_result (fuel : nat) (now : Z) (dateStr : string)
    (service : option ServiceKey) (tz : option Z) (c : Collection) (date : Z) :
  dateStr <> EmptyString ->
  Date_parse host (dateStr ++ "T00:00:00.000Z") = Some date ->
  let eff := orElse tz 0 in
  let offsetMs := eff * 60000 in
  let midnight := localMidnight date offsetMs in
  let wh := getWorkingHours host date (Some eff) in
  let ws := midnight + startHour wh * 60 * 60000 in
  let we := midnight + endHour wh * 60 * 60000 in
  let d := queryDuration service in
  let grid := slotTimes (slotCount ws (15 * 60000) (15 * 60000) we) ws
                (15 * 60000) in
  let starts := slotTimes (slotCount ws (15 * 60000) (d * 60000) we) ws
                  (15 * 60000) in
  let busy := markBusy host (map isoString grid)
                (map (fun a => (start a, end_ a)) (fetchedFor midnight c)) in
  let available :=
    filter (chunksFreeb host busy (Z.to_nat (Z.max 1 (ceilDiv d 15))))
      (map isoString starts) in
  dayRepresentable date offsetMs ->
  validTime (now + offsetMs) ->
  (36 < fuel)%nat ->
  getAvailabilityForDate host fuel now dateStr service tz c
  = Some (Ok {| availableSlots :=
                  if (dateStr =? beforeT (isoString (now + offsetMs)))%string
                  then filter
                         (fun iso => num_lt (Some now) (Date_parse host iso))
                         available
                  else available;
                busySlots := busy;
                workingSlots := map isoString grid |}).
Proof.
  intros N P eff offsetMs midnight wh ws we d grid starts busy available
    R Vn F.
  pose proof R as (V & Vm & Ve).
  assert (W : ws = midnight + 9 * 60 * 60000
              /\ (we = midnight + 13 * 60 * 60000
                  \/ we = midnight + 18 * 60 * 60000)).
  { unfold ws, we, wh.
    destruct (getWorkingHours_cases host date (Some eff)) as [E | E];
      rewrite E; cbn [startHour endHour]; auto. }
  destruct W as [Ws We].
  assert (Dq : 15 <= d <= 45)
    by (unfold d; destruct (queryDuration_cases service) as [[E _] | [E _]];
        rewrite E; lia).
  unfold validTime in Vm, Ve.
  unfold getAvailabilityForDate.
  rewrite falsy_nonempty by exact N. rewrite P.
  fold (queryDuration service). fold d. fold eff.
  rewrite (generateSlots_enough_fuel host date 15 15 (Some eff)); cbn [orElse];
    fold offsetMs midnight wh ws we; try assumption; try lia.
  2:{ pose proof (slotCount_bound ws we (15 * 60000)). lia. }
  rewrite getBusyIntervalsISO_valid by exact R.
  fold offsetMs midnight grid busy.
  rewrite (generateSlots_enough_fuel host date 15 d (Some eff)); cbn [orElse];
    fold offsetMs midnight wh ws we; try assumption; try lia.
  2:{ pose proof (slotCount_bound ws we (d * 60000)). lia. }
  fold starts.
  rewrite (filterM_total _
             (chunksFreeb host busy (Z.to_nat (Z.max 1 (ceilDiv d 15))))).
  - fold available. rewrite toISOString_valid by exact Vn. reflexivity.
  - intros x I. apply in_map_iff in I. destruct I as (t & <- & I).
    apply candidateStart_slotTimes in I. destruct I as (k & K & E & Fit).
    assert (Vt : validTime t) by (unfold validTime; lia).
    unfold chunksFreeb. rewrite Date_parse_isoString by exact Vt.
    apply chunksFree_spec. intros j Hj. unfold validTime.
    destruct (queryDuration_cases service) as [[E1 E2] | [E1 E2]];
      fold d in E1, E2; rewrite E2 in Hj; lia.
Qed.

End Host.

End QueryFacts.

Import QueryFacts.

(** * The claims *)

(** ** The booking operations *)

Section BookingClaims.

Variable host : Host.

Lemma window_length (s tz : Z) (sv : ServiceKey) :
  dayStartOf host s tz + 4 * 3600000 <= dayEndOf host s tz
  /\ 0 < SERVICE_DURATION_MINUTES sv * 60000 <= 45 * 60000.
Proof.
  unfold dayStartOf, dayEndOf.
  destruct (getWorkingHours_cases host s (Some tz)) as [E | E]; rewrite E;
    cbn [startHour endHour]; destruct sv; cbn [SERVICE_DURATION_MINUTES]; lia.
Qed.

Lemma representable_passes (s tz : Z) (sv : ServiceKey) :
  representable host s tz sv ->
  exists bounds,
    dayBounds host s tz = Ok bounds
    /\ (outsideWorkingHours (Some s) (newDate (endOf s sv)) bounds = true
        <-> s < dayStartOf host s tz \/ endOf s sv > dayEndOf host s tz).
Proof.
  intros (V & Vlo & Vhi & Ve). eexists. split.
  - apply dayBounds_valid. exact V.
  - apply outsideWorkingHours_spec; assumption.
Qed.

(** A complete create request that passed the working-hours test. *)
Lemma create_after_window (body : CreateBody) (c : Collection)
    (nm ph : string) (sv : ServiceKey) (st : string) (s : Z)
    (bounds : Date * Date) :
  completeBody host body nm ph sv st s ->
  validTime (endOf s sv) ->
  dayBounds host s (orElse (cb_tzOffset body) 0) = Ok bounds ->
  outsideWorkingHours (Some s) (newDate (endOf s sv)) bounds = false ->
  createAppointment host body c
  = if exists_ (overlapFilter (isoString s) (isoString (endOf s sv))) c
    then (Throw SlotBusy, c)
    else (Ok (newDoc c nm ph sv s), c ++ [newDoc c nm ph sv s]).
Proof.
  intros B Ve DB OW.
  rewrite (createAppointment_complete host body c nm ph sv st s B).
  rewrite DB, OW, toISOString_valid by exact Ve. reflexivity.
Qed.

(** An update with a start that passed the working-hours test. *)
Lemma update_after_window (id : ObjectId) (u : UpdateData) (c : Collection)
    (old : Appointment) (st : string) (s : Z) (bounds : Date * Date) :
  restartingUpdate host id u c old st s ->
  let sv := orElse (ud_service u) (service old) in
  let u' := withEnd u (isoString (endOf s sv)) in
  validTime (endOf s sv) ->
  dayBounds host s (orElse (ud_tzOffset u) 0) = Ok bounds ->
  outsideWorkingHours (Some s) (newDate (endOf s sv)) bounds = false ->
  updateAppointment host id u c
  = if exists_ (fun a => negb (Nat.eqb (_id a) id)
                         && overlapFilter (isoString s)
                              (isoString (endOf s sv)) a) c
    then (Throw SlotBusy, c)
    else if validUpdate u'
         then (Ok (applySet u' old), updateById id u' c)
         else (Throw ValidationError, c).
Proof.
  intros B sv u' Ve DB OW.
  rewrite (updateAppointment_restarting host id u c old st s B).
  fold sv. rewrite DB, OW, toISOString_valid by exact Ve. reflexivity.
Qed.

Lemma create_window (body : CreateBody) (c : Collection)
    (nm ph : string) (sv : ServiceKey) (st : string) (s : Z) :
  completeBody host body nm ph sv st s ->
  let tz := orElse (cb_tzOffset body) 0 in
  representable host s tz sv ->
  (fst (createAppointment host body c) = Throw OutOfWindow
   <-> s < dayStartOf host s tz \/ endOf s sv > dayEndOf host s tz).
Proof.
  intros B tz R. destruct (representable_passes s tz sv R) as (bounds & DB & OW).
  rewrite <- OW.
  destruct (outsideWorkingHours (Some s) (newDate (endOf s sv)) bounds) eqn:E.
  - rewrite (createAppointment_complete host body c nm ph sv st s B).
    fold tz. rewrite DB, E. cbn [fst]. tauto.
  - rewrite (create_after_window body c nm ph sv st s bounds B
               (proj2 (proj2 (proj2 R))) DB E).
    destruct (exists_ _ c); cbn [fst]; split; intros H; discriminate.
Qed.

Lemma update_window (id : ObjectId) (u : UpdateData) (c : Collection)
    (old : Appointment) (st : string) (s : Z) :
  restartingUpdate host id u c old st s ->
  let tz := orElse (ud_tzOffset u) 0 in
  let sv := orElse (ud_service u) (service old) in
  representable host s tz sv ->
  (fst (updateAppointment host id u c) = Throw OutOfWindow
   <-> s < dayStartOf host s tz \/ endOf s sv > dayEndOf host s tz).
Proof.
  intros B tz sv R.
  destruct (representable_passes s tz sv R) as (bounds & DB & OW).
  rewrite <- OW.
  destruct (outsideWorkingHours (Some s) (newDate (endOf s sv)) bounds) eqn:E.
  - rewrite (updateAppointment_restarting host id u c old st s B).
    fold tz sv. rewrite DB, E. cbn [fst]. tauto.
  - rewrite (update_after_window id u c old st s bounds B
               (proj2 (proj2 (proj2 R))) DB E).
    destruct (exists_ _ c); [cbn [fst]; split; intros H; discriminate | ].
    destruct (validUpdate _); cbn [fst]; split; intros H; discriminate.
Qed.

(** A booking that ends exactly when the working day ends is written when
    nothing stored clashes with it. *)
Lemma create_at_closing (body : CreateBody) (c : Collection)
    (nm ph : string) (sv : ServiceKey) (st : string) (s : Z) :
  completeBody host body nm ph sv st s ->
  let tz := orElse (cb_tzOffset body) 0 in
  representable host s tz sv ->
  endOf s sv = dayEndOf host s tz ->
  ~ clashes c None (isoString s) (isoString (endOf s sv)) ->
  createAppointment host body c
  = (Ok (newDoc c nm ph sv s), c ++ [newDoc c nm ph sv s]).
Proof.
  intros B tz R E N.
  destruct (representable_passes s tz sv R) as (bounds & DB & OW).
  pose proof (window_length s tz sv) as L. unfold endOf in E, L.
  destruct (outsideWorkingHours (Some s) (newDate (endOf s sv)) bounds) eqn:O.
  - exfalso. unfold endOf in OW. pose proof (proj1 OW eq_refl). lia.
  - rewrite (create_after_window body c nm ph sv st s bounds B
               (proj2 (proj2 (proj2 R))) DB O).
    destruct (exists_ _ c) eqn:X; [ | reflexivity].
    exfalso. apply N, exists_clashes, X.
Qed.

End BookingClaims.

(** The comparison of the working-hours test, against the window that
    [getWorkingHours] gives ([dayStartOf], [dayEndOf]): a proposed booking
    whose start parses is rejected with "Outside working hours" exactly
    when it starts before that opening or ends after that closing, in
    [createAppointment] and in [updateAppointment] alike.  A booking that
    ends exactly at the closing is not rejected so (and
    [createAppointment] writes it when nothing stored clashes with it);
    one that starts a millisecond later is rejected.  (Whether the window
    is the one of the client's day is another matter: see
    [process_zone_moves_the_working_window].) *)
Theorem working_hours_rejection (host : Host) :
  (forall body c nm ph sv st s,
      completeBody host body nm ph sv st s ->
      let tz := orElse (cb_tzOffset body) 0 in
      let outcome := createAppointment host body c in
      representable host s tz sv ->
      (fst outcome = Throw OutOfWindow
       <-> s < dayStartOf host s tz \/ endOf s sv > dayEndOf host s tz)
      /\ (s = dayEndOf host s tz - SERVICE_DURATION_MINUTES sv * 60000 ->
          fst outcome <> Throw OutOfWindow
          /\ (~ clashes c None (isoString s) (isoString (endOf s sv)) ->
              outcome = (Ok (newDoc c nm ph sv s), c ++ [newDoc c nm ph sv s])))
      /\ (s = dayEndOf host s tz - SERVICE_DURATION_MINUTES sv * 60000 + 1 ->
          fst outcome = Throw OutOfWindow))
  /\ (forall id u c old st s,
         restartingUpdate host id u c old st s ->
         let tz := orElse (ud_tzOffset u) 0 in
         let sv := orElse (ud_service u) (service old) in
         let outcome := updateAppointment host id u c in
         representable host s tz sv ->
         (fst outcome = Throw OutOfWindow
          <-> s < dayStartOf host s tz \/ endOf s sv > dayEndOf host s tz)
         /\ (s = dayEndOf host s tz - SERVICE_DURATION_MINUTES sv * 60000 ->
             fst outcome <> Throw OutOfWindow)
         /\ (s = dayEndOf host s tz - SERVICE_DURATION_MINUTES sv * 60000 + 1 ->
             fst outcome = Throw OutOfWindow)).
Proof.
  split.
  - intros body c nm ph sv st s B tz outcome R.
    pose proof (create_window host body c nm ph sv st s B R) as W.
    pose proof (window_length host s tz sv) as L.
    fold tz outcome in W.
    split; [exact W | ]. split; intros E.
    + split.
      * rewrite W. unfold endOf. lia.
      * apply (create_at_closing host body c nm ph sv st s B R).
        unfold endOf. fold tz. lia.
    + apply W. unfold endOf. lia.
  - intros id u c old st s B tz sv outcome R.
    pose proof (update_window host id u c old st s B R) as W.
    pose proof (window_length host s tz sv) as L.
    fold tz sv outcome in W. unfold endOf in *.
    split; [exact W | ]. split; intros E.
    + rewrite W. lia.
    + apply W. lia.
Qed.

Lemma working_hours_rejection_witness :
  createAppointment utcHost
    (Examples.booking treatment "2024-06-10T17:15:00.000Z") []
  = (Ok (newDoc [] "Anna" "+37410000000" treatment 1718039700000),
     [newDoc [] "Anna" "+37410000000" treatment 1718039700000])
  /\ fst (updateAppointment utcHost 1%nat
            (Examples.restart "2024-06-10T17:15:00.001Z")
            [Examples.mondayTreatment])
     = Throw OutOfWindow.
Proof.
  split.
  - refine (proj2 (proj1 (proj2 (proj1 (working_hours_rejection utcHost) _ []
             "Anna"%string "+37410000000"%string treatment
             "2024-06-10T17:15:00.000Z"%string 1718039700000 _ _)) _) _).
    + repeat split; try reflexivity; discriminate.
    + repeat split; vm_compute; discriminate.
    + reflexivity.
    + intros (a & [] & _).
  - refine (proj2 (proj2 (proj2 (working_hours_rejection utcHost) 1%nat _
             [Examples.mondayTreatment] Examples.mondayTreatment
             "2024-06-10T17:15:00.001Z"%string 1718039700001 _ _)) _).
    + repeat split; try reflexivity; discriminate.
    + repeat split; vm_compute; discriminate.
    + reflexivity.
Defined.

Section StoreClaims.

Variable host : Host.

(** A create request that returns had all its fields. *)
Lemma createAppointment_Ok (body : CreateBody) (c c' : Collection)
    (a : Appointment) :
  createAppointment host body c = (Ok a, c') ->
  exists nm ph sv st s, completeBody host body nm ph sv st s.
Proof.
  unfold createAppointment, completeBody.
  destruct (cb_name body) as [nm | ]; [ | discriminate].
  destruct (cb_phoneNumber body) as [ph | ]; [ | discriminate].
  destruct (cb_service body) as [sv | ]; [ | discriminate].
  destruct (cb_start body) as [st | ]; [ | discriminate].
  destruct (falsy (Some nm)) eqn:F1; [discriminate | ].
  destruct (falsy (Some ph)) eqn:F2; [discriminate | ].
  destruct (falsy (Some st)) eqn:F3; [discriminate | ].
  cbn [orb].
  destruct (Date_parse host st) as [s | ] eqn:P; [ | discriminate].
  intros _. exists nm, ph, sv, st, s.
  repeat split; try reflexivity; try (apply falsy_false; assumption).
  exact P.
Qed.

Lemma create_outcome (body : CreateBody) (c : Collection) :
  match createAppointment host body c with
  | (Ok a, c') => c' = c ++ [a]
  | (Throw _, c') => c' = c
  end.
Proof.
  unfold createAppointment, throw.
  destruct (cb_name body) as [nm | ]; [ | reflexivity].
  destruct (cb_phoneNumber body) as [ph | ]; [ | reflexivity].
  destruct (cb_service body) as [sv | ]; [ | reflexivity].
  destruct (cb_start body) as [st | ]; [ | reflexivity].
  destruct (falsy (Some nm) || falsy (Some ph) || falsy (Some st));
    [reflexivity | ].
  destruct (Date_parse host st) as [s | ]; [ | reflexivity].
  unfold bind, lift, throw, query, write, create.
  destruct (dayBounds host s _) as [bounds | e]; [ | reflexivity].
  destruct (outsideWorkingHours _ _ _); [reflexivity | ].
  destruct (toISOString _) as [endIso | e]; [ | reflexivity].
  cbn [toISOString].
  destruct (exists_ _ c); reflexivity.
Qed.

Lemma create_endMatches (body : CreateBody) (c c' : Collection)
    (a : Appointment) :
  createAppointment host body c = (Ok a, c') -> endMatches host a.
Proof.
  intros H. destruct (createAppointment_Ok body c c' a H)
    as (nm & ph & sv & st & s & B).
  rewrite (createAppointment_complete host body c nm ph sv st s B) in H.
  destruct (dayBounds host s _) as [bounds | e]; [ | discriminate].
  destruct (outsideWorkingHours _ _ _); [discriminate | ].
  destruct (toISOString _) as [endIso | e] eqn:T; [ | discriminate].
  destruct (exists_ _ c); [discriminate | ].
  apply toISOString_Ok in T. destruct T as [Ve ->].
  unfold create in H. cbn [fst snd] in H. injection H as <- _.
  exists s. cbn [start end_ service].
  destruct B as (_ & _ & _ & _ & _ & _ & _ & P).
  split.
  - apply Date_parse_isoString. apply (Date_parse_valid host st s P).
  - apply Date_parse_isoString. exact Ve.
Qed.

Lemma update_rederives (id : ObjectId) (u : UpdateData) (c c' : Collection)
    (a : Appointment) (st : string) :
  ud_start u = Some st -> st <> EmptyString ->
  updateAppointment host id u c = (Ok a, c') ->
  findById id c' = Some a /\ endMatches host a.
Proof.
  intros E N H.
  destruct (findById id c) as [old | ] eqn:F.
  2:{ unfold updateAppointment, bind, query in H. rewrite F in H. discriminate. }
  destruct (Date_parse host st) as [s | ] eqn:P.
  2:{ unfold updateAppointment, bind, query, revalidate in H.
      rewrite F, E, falsy_nonempty, P in H by exact N. discriminate. }
  assert (B : restartingUpdate host id u c old st s) by (repeat split; assumption).
  rewrite (updateAppointment_restarting host id u c old st s B) in H.
  destruct (dayBounds host s _) as [bounds | e]; [ | discriminate].
  destruct (outsideWorkingHours _ _ _); [discriminate | ].
  destruct (toISOString _) as [endIso | e] eqn:T; [ | discriminate].
  destruct (exists_ _ c); [discriminate | ].
  destruct (validUpdate _); [ | discriminate].
  apply toISOString_Ok in T. destruct T as [Ve ->].
  injection H as <- <-. split.
  - apply findById_updateById. exact F.
  - exists s. cbn [applySet withEnd start end_ service ud_start ud_end
                     ud_service orElse].
    rewrite E. cbn [orElse]. split; [exact P | ].
    apply Date_parse_isoString. exact Ve.
Qed.

Lemma update_without_start (id : ObjectId) (u : UpdateData) (c : Collection)
    (old : Appointment) :
  findById id c = Some old -> ud_start u = None ->
  updateAppointment host id u c
  = if validUpdate u
    then (Ok (applySet u old), updateById id u c)
    else (Throw ValidationError, c).
Proof.
  intros F E. unfold updateAppointment, bind, query, ret. rewrite F, E.
  unfold findByIdAndUpdate. rewrite F.
  destruct (validUpdate u); reflexivity.
Qed.

End StoreClaims.

(** From the cast on: an update or a delete whose ObjectId no stored
    appointment has fails with "Appointment not found" and leaves the
    collection as it was. *)
Theorem unknown_id_not_found (host : Host) (id : ObjectId) (u : UpdateData)
    (c : Collection) :
  (forall a, In a c -> _id a <> id) ->
  updateAppointment host id u c = (Throw NotFound, c)
  /\ deleteAppointment id c = (Throw NotFound, c).
Proof.
  intros H. apply findById_None in H. split.
  - unfold updateAppointment, bind, query. rewrite H. reflexivity.
  - unfold deleteAppointment, bind, write, findByIdAndDelete. rewrite H.
    reflexivity.
Qed.

Lemma unknown_id_not_found_witness :
  updateAppointment utcHost 7%nat (Examples.changeService treatment)
    [Examples.mondayConsultation]
  = (Throw NotFound, [Examples.mondayConsultation])
  /\ deleteAppointment 7%nat [Examples.mondayConsultation]
     = (Throw NotFound, [Examples.mondayConsultation]).
Proof.
  apply (unknown_id_not_found utcHost 7%nat).
  intros a [<- | []]. simpl. discriminate.
Defined.

(** C10.  A create request that fails leaves the collection exactly as it
    was; a request that lacks its name, phone number, service or start, and
    one whose start does not parse, fail.  (That a booking outside the
    working hours, and one that clashes with a stored appointment, fail is
    C3 and C1.) *)
Theorem failed_create_writes_nothing (host : Host) :
  (forall body c e,
      fst (createAppointment host body c) = Throw e ->
      snd (createAppointment host body c) = c)
  /\ (forall body c,
         falsy (cb_name body) = true \/ falsy (cb_phoneNumber body) = true
         \/ cb_service body = None \/ falsy (cb_start body) = true ->
         createAppointment host body c
         = (Throw (BadRequestException
                     "name, phoneNumber, service, start are required"), c))
  /\ (forall body c nm ph sv st,
         cb_name body = Some nm -> cb_phoneNumber body = Some ph ->
         cb_service body = Some sv -> cb_start body = Some st ->
         nm <> EmptyString -> ph <> EmptyString -> st <> EmptyString ->
         Date_parse host st = None ->
         createAppointment host body c
         = (Throw (BadRequestException "invalid start"), c)).
Proof.
  split; [ | split].
  - intros body c e H. pose proof (create_outcome host body c) as O.
    destruct (createAppointment host body c) as [[a | e'] c'];
      [discriminate | exact O].
  - intros body c H. unfold createAppointment, throw.
    destruct (cb_name body) as [nm | ]; [ | reflexivity].
    destruct (cb_phoneNumber body) as [ph | ]; [ | reflexivity].
    destruct (cb_service body) as [sv | ]; [ | reflexivity].
    destruct (cb_start body) as [st | ]; [ | reflexivity].
    destruct H as [H | [H | [H | H]]]; try discriminate; rewrite H;
      [ | rewrite orb_true_r | rewrite !orb_true_r]; reflexivity.
  - intros body c nm ph sv st E1 E2 E3 E4 N1 N2 N3 P.
    unfold createAppointment, throw. rewrite E1, E2, E3, E4.
    rewrite !falsy_nonempty by assumption. cbn [orb]. rewrite P. reflexivity.
Qed.

Lemma failed_create_writes_nothing_witness :
  snd (createAppointment utcHost
         (Examples.booking consultation "2024-06-10T09:15:00.000Z")
         [Examples.mondayTreatment])
  = [Examples.mondayTreatment].
Proof.
  apply (proj1 (failed_create_writes_nothing utcHost) _ _ SlotBusy).
  reflexivity.
Defined.

(** Where the end does follow: an appointment persisted by
    [createAppointment], or by an [updateAppointment] that supplies a
    start, ends at its start plus the duration of its service (the service
    of the update, or the stored one).  An update without a start goes to
    [$set] as it came. *)
Theorem end_follows_supplied_start (host : Host) :
  (forall body c a c',
      createAppointment host body c = (Ok a, c') ->
      c' = c ++ [a] /\ endMatches host a)
  /\ (forall id u c a c' st,
         ud_start u = Some st -> st <> EmptyString ->
         updateAppointment host id u c = (Ok a, c') ->
         findById id c' = Some a /\ endMatches host a)
  /\ (forall id u c old,
         findById id c = Some old -> ud_start u = None ->
         updateAppointment host id u c
         = (if validUpdate u
            then (Ok (applySet u old), updateById id u c)
            else (Throw ValidationError, c))
         /\ end_ (applySet u old) = orElse (ud_end u) (end_ old)).
Proof.
  split; [ | split].
  - intros body c a c' H. split.
    + pose proof (create_outcome host body c) as O. rewrite H in O. exact O.
    + exact (create_endMatches host body c c' a H).
  - intros id u c a c' st. apply update_rederives.
  - intros id u c old F E. split.
    + apply update_without_start; assumption.
    + reflexivity.
Qed.

Lemma end_follows_supplied_start_witness :
  findById 1%nat
    [Examples.stored 1%nat consultation "2024-06-10T10:00:00.000Z"
       "2024-06-10T10:15:00.000Z"]
  = Some (Examples.stored 1%nat consultation "2024-06-10T10:00:00.000Z"
            "2024-06-10T10:15:00.000Z")
  /\ endMatches utcHost
       (Examples.stored 1%nat consultation "2024-06-10T10:00:00.000Z"
          "2024-06-10T10:15:00.000Z").
Proof.
  apply (proj1 (proj2 (end_follows_supplied_start utcHost)) 1%nat
           (Examples.restart "2024-06-10T10:00:00.000Z")
           [Examples.mondayConsultation] _ _ "2024-06-10T10:00:00.000Z"%string).
  - reflexivity.
  - discriminate.
  - reflexivity.
Defined.

(** An update that changes only the service of a 15-minute consultation
    to a 45-minute treatment is persisted with the end it had. *)
Lemma service_only_update_keeps_end :
  updateAppointment utcHost 1%nat (Examples.changeService treatment)
    [Examples.mondayConsultation]
  = (Ok (Examples.stored 1%nat treatment "2024-06-10T09:00:00.000Z"
           "2024-06-10T09:15:00.000Z"),
     [Examples.stored 1%nat treatment "2024-06-10T09:00:00.000Z"
        "2024-06-10T09:15:00.000Z"])
  /\ ~ endMatches utcHost
         (Examples.stored 1%nat treatment "2024-06-10T09:00:00.000Z"
            "2024-06-10T09:15:00.000Z").
Proof.
  split; [reflexivity | ].
  intros (s & Ps & Pe). vm_compute in Ps. injection Ps as <-.
  vm_compute in Pe. discriminate.
Qed.

(** The overlap test on the strings.  A create request, or an update that
    supplies a start, is tested for overlap only once it has passed the
    tests before it (fields, parse, working hours).  From there it is
    rejected with "Time slot is busy" exactly when some stored appointment
    (other than the updated one) passes the store's filter: its start is
    below the ISO string of the candidate's end and its end string above
    that of the candidate's start.  On a collection stored as
    [createAppointment] stores it, within the years 0000 to 9999, that is
    [existing.start < end] and [existing.end > start] on the instants.
    When the filter finds nothing the candidate is written.  (On other
    collections the strings and the instants part: see
    [raw_start_defeats_the_overlap_test].) *)
Theorem overlap_rejection_after_working_hours (host : Host) :
  (forall body c nm ph sv st s bounds,
      completeBody host body nm ph sv st s ->
      let e := endOf s sv in
      let outcome := createAppointment host body c in
      validTime e ->
      dayBounds host s (orElse (cb_tzOffset body) 0) = Ok bounds ->
      outsideWorkingHours (Some s) (newDate e) bounds = false ->
      (fst outcome = Throw SlotBusy
       <-> clashes c None (isoString s) (isoString e))
      /\ (canonical c -> plainYear s -> plainYear e ->
          (fst outcome = Throw SlotBusy <-> overlapped c None s e))
      /\ (~ clashes c None (isoString s) (isoString e) ->
          outcome = (Ok (newDoc c nm ph sv s), c ++ [newDoc c nm ph sv s])))
  /\ (forall id u c old st s bounds,
         restartingUpdate host id u c old st s ->
         let sv := orElse (ud_service u) (service old) in
         let e := endOf s sv in
         let u' := withEnd u (isoString e) in
         let outcome := updateAppointment host id u c in
         validTime e ->
         dayBounds host s (orElse (ud_tzOffset u) 0) = Ok bounds ->
         outsideWorkingHours (Some s) (newDate e) bounds = false ->
         (fst outcome = Throw SlotBusy
          <-> clashes c (Some id) (isoString s) (isoString e))
         /\ (canonical c -> plainYear s -> plainYear e ->
             (fst outcome = Throw SlotBusy <-> overlapped c (Some id) s e))
         /\ (~ clashes c (Some id) (isoString s) (isoString e) ->
             validUpdate u' = true ->
             outcome = (Ok (applySet u' old), updateById id u' c))).
Proof.
  split.
  - intros body c nm ph sv st s bounds B e outcome Ve DB OW.
    assert (K : fst outcome = Throw SlotBusy
                <-> clashes c None (isoString s) (isoString e)).
    { unfold outcome.
      rewrite (create_after_window host body c nm ph sv st s bounds B Ve DB OW).
      fold e. rewrite <- exists_clashes.
      destruct (exists_ _ c); cbn [fst]; split; intros H;
        try reflexivity; discriminate. }
    split; [exact K | ]. split.
    + intros C Ps Pe. rewrite K. apply clashes_overlapped; assumption.
    + intros N. unfold outcome.
      rewrite (create_after_window host body c nm ph sv st s bounds B Ve DB OW).
      fold e. destruct (exists_ _ c) eqn:X; [ | reflexivity].
      exfalso. apply N, exists_clashes, X.
  - intros id u c old st s bounds B sv e u' outcome Ve DB OW.
    pose proof (update_after_window host id u c old st s bounds B Ve DB OW)
      as U. fold sv e u' outcome in U.
    assert (K : fst outcome = Throw SlotBusy
                <-> clashes c (Some id) (isoString s) (isoString e)).
    { rewrite U, <- exists_clashes_other.
      destruct (exists_ _ c); cbn [fst];
        [split; intros H; reflexivity | ].
      destruct (validUpdate u'); cbn [fst]; split; intros H; discriminate. }
    split; [exact K | ]. split.
    + intros C Ps Pe. rewrite K. apply clashes_overlapped; assumption.
    + intros N V. rewrite U, V.
      destruct (exists_ _ c) eqn:X; [ | reflexivity].
      exfalso. apply N, exists_clashes_other, X.
Qed.

Lemma canonical_monday : canonical [Examples.mondayTreatment].
Proof.
  intros a [<- | []]. exists 1718010000000, 1718012700000.
  repeat split; vm_compute; discriminate.
Qed.

Lemma overlap_rejection_witness :
  fst (createAppointment utcHost
         (Examples.booking consultation "2024-06-10T09:15:00.000Z")
         [Examples.mondayTreatment])
  = Throw SlotBusy.
Proof.
  refine (proj2 (proj1 (proj2 (proj1
            (overlap_rejection_after_working_hours utcHost)
            _ [Examples.mondayTreatment] "Anna"%string "+37410000000"%string
            consultation "2024-06-10T09:15:00.000Z"%string 1718010900000
            (Some 1718010000000, Some 1718042400000) _ _ _ _))
            canonical_monday _ _) _).
  - repeat split; try reflexivity; discriminate.
  - vm_compute; split; discriminate.
  - reflexivity.
  - reflexivity.
  - vm_compute; split; discriminate.
  - vm_compute; split; discriminate.
  - exists Examples.mondayTreatment, 1718010000000, 1718012700000.
    split; [left; reflexivity | ]. split; [discriminate | ].
    split; [ | vm_compute; split; reflexivity].
    repeat split; vm_compute; discriminate.
Defined.

(** The overlap test comes after the working hours.  On an empty
    collection nothing overlaps a booking for Monday 08:00, yet it is not
    persisted; and a 45-minute booking for Saturday 12:30 overlaps the
    stored 12:30 to 12:45, yet the rejection is "Outside working hours". *)
Lemma overlap_test_comes_after_working_hours :
  createAppointment utcHost
    (Examples.booking consultation "2024-06-10T08:00:00.000Z") []
  = (Throw OutOfWindow, [])
  /\ overlapped [Examples.saturdayConsultation] None
       1718454600000 (endOf 1718454600000 treatment)
  /\ Date_parse utcHost "2024-06-15T12:30:00.000Z" = Some 1718454600000
  /\ createAppointment utcHost
       (Examples.booking treatment "2024-06-15T12:30:00.000Z")
       [Examples.saturdayConsultation]
     = (Throw OutOfWindow, [Examples.saturdayConsultation]).
Proof.
  split; [reflexivity | ]. split; [ | split; reflexivity].
  exists Examples.saturdayConsultation, 1718454600000, 1718455500000.
  split; [left; reflexivity | ]. split; [discriminate | ].
  split; [ | vm_compute; split; reflexivity].
  repeat split; vm_compute; discriminate.
Qed.

(** ** The availability query *)

(** C5.  With a positive slot granularity, and with enough fuel, the slot
    generator returns the ISO strings of exactly the instants
    [windowStart + k * slotMinutes] ([k = 0, 1, 2, ...]) that leave room
    for the duration before the end of the window, in ascending order:
    consecutive instants differ by the granularity and no later candidate
    fits. *)
Theorem generateSlots_sequence (host : Host)
    (dateUtc slotMinutes durationMinutes : Z) (tz : option Z) :
  let offsetMs := orElse tz 0 * 60000 in
  let wh := getWorkingHours host dateUtc tz in
  let windowStart := localMidnight dateUtc offsetMs + startHour wh * 60 * 60000 in
  let windowEnd := localMidnight dateUtc offsetMs + endHour wh * 60 * 60000 in
  let stepMs := slotMinutes * 60000 in
  let durMs := durationMinutes * 60000 in
  0 < slotMinutes ->
  validTime (dateUtc - offsetMs) ->
  - maxTime <= windowStart ->
  windowEnd - durMs <= maxTime ->
  exists ts : list Z,
    (exists n0, forall fuel, (n0 < fuel)%nat ->
        generateSlots host fuel dateUtc slotMinutes durationMinutes tz
        = Some (Ok (map isoString ts)))
    /\ (forall t, In t ts -> Date_parse host (isoString t) = Some t)
    /\ (forall t, In t ts
                  <-> exists k, 0 <= k /\ t = windowStart + k * stepMs
                                /\ windowStart <= t /\ t + durMs <= windowEnd)
    /\ (forall i, (i < List.length ts)%nat ->
                  nth i ts 0 = windowStart + Z.of_nat i * stepMs)
    /\ (forall i, (S i < List.length ts)%nat ->
                  nth i ts 0 < nth (S i) ts 0
                  /\ nth (S i) ts 0 - nth i ts 0 = stepMs)
    /\ (forall k, Z.of_nat (List.length ts) <= k ->
                  windowEnd < windowStart + k * stepMs + durMs).
Proof.
  intros offsetMs wh windowStart windowEnd stepMs durMs S V Lo Hi.
  assert (SP : 0 < stepMs) by (unfold stepMs; lia).
  set (n := slotCount windowStart stepMs durMs windowEnd).
  exists (slotTimes n windowStart stepMs).
  assert (FIT : forall k, 0 <= k ->
                  windowStart + k * stepMs + durMs <= windowEnd
                  <-> k < Z.of_nat n)
    by (intros k K; apply slotCount_spec; assumption).
  split; [ | split; [ | split; [ | split; [ | split]]]].
  - exists n. intros fuel F.
    apply (generateSlots_enough_fuel host dateUtc slotMinutes durationMinutes tz);
      assumption.
  - intros t I. apply Date_parse_isoString.
    apply slotTimes_In in I. destruct I as (k & K & ->).
    pose proof (proj2 (FIT k ltac:(lia)) ltac:(lia)).
    unfold validTime. nia.
  - intros t. rewrite slotTimes_In. split.
    + intros (k & K & ->). exists k.
      pose proof (proj2 (FIT k ltac:(lia)) ltac:(lia)).
      repeat split; (lia || nia).
    + intros (k & K & -> & _ & F). exists k. split; [ | reflexivity].
      split; [exact K | ]. apply FIT; assumption.
  - intros i I. rewrite slotTimes_length in I. apply slotTimes_nth. exact I.
  - intros i I. rewrite slotTimes_length in I.
    rewrite !slotTimes_nth by lia. split; lia.
  - intros k K. rewrite slotTimes_length in K.
    pose proof (FIT k ltac:(lia)). lia.
Qed.

Lemma generateSlots_sequence_witness :
  exists ts : list Z,
    (exists n0, forall fuel, (n0 < fuel)%nat ->
        generateSlots utcHost fuel 1717977600000 15 45 (Some 0)
        = Some (Ok (map isoString ts)))
    /\ (forall t, In t ts -> Date_parse utcHost (isoString t) = Some t)
    /\ (forall t, In t ts
                  <-> exists k, 0 <= k /\ t = 1718010000000 + k * 900000
                                /\ 1718010000000 <= t
                                /\ t + 2700000 <= 1718042400000)
    /\ (forall i, (i < List.length ts)%nat ->
                  nth i ts 0 = 1718010000000 + Z.of_nat i * 900000)
    /\ (forall i, (S i < List.length ts)%nat ->
                  nth i ts 0 < nth (S i) ts 0
                  /\ nth (S i) ts 0 - nth i ts 0 = 900000)
    /\ (forall k, Z.of_nat (List.length ts) <= k ->
                  1718042400000 < 1718010000000 + k * 900000 + 2700000).
Proof.
  apply (generateSlots_sequence utcHost 1717977600000 15 45 (Some 0)).
  - lia.
  - vm_compute; split; discriminate.
  - vm_compute; discriminate.
  - vm_compute; discriminate.
Defined.

(** C7, as the code has it.  For an availability query whose day can be
    handled, and with enough fuel, the query returns; a candidate start
    for the duration of the service (45 minutes when there is none) is in
    [availableSlots] exactly when none of the [ceil (d / 15)] grid chunks
    from it is inside the half-open interval of a fetched appointment and,
    if the requested date is the one the code takes for today, the start
    is after the current instant.  A grid point is in [busySlots] exactly
    when a fetched appointment's half-open interval contains it. *)
Theorem availability_of_candidates (host : Host) (fuel : nat) (now : Z)
    (dateStr : string) (service : option ServiceKey) (tz : option Z)
    (c : Collection) (date : Z) :
  dateStr <> EmptyString ->
  Date_parse host (dateStr ++ "T00:00:00.000Z") = Some date ->
  let eff := orElse tz 0 in
  let offsetMs := eff * 60000 in
  let midnight := localMidnight date offsetMs in
  let wh := getWorkingHours host date (Some eff) in
  let ws := midnight + startHour wh * 60 * 60000 in
  let we := midnight + endHour wh * 60 * 60000 in
  let d := queryDuration service in
  let fetched := fetchedFor midnight c in
  let today := beforeT (isoString (now + offsetMs)) in
  dayRepresentable date offsetMs ->
  validTime (now + offsetMs) ->
  (36 < fuel)%nat ->
  exists r,
    getAvailabilityForDate host fuel now dateStr service tz c = Some (Ok r)
    /\ (forall x, In x (availableSlots r) ->
                  exists t, x = isoString t /\ candidateStart ws we d t)
    /\ (forall t, candidateStart ws we d t ->
          (In (isoString t) (availableSlots r)
           <-> (forall i, 0 <= i < Z.max 1 (ceilDiv d 15) ->
                          ~ busyAt host fetched (t + i * 15 * 60000))
               /\ (dateStr = today -> now < t)))
    /\ (forall x, In x (busySlots r) ->
                  exists t, x = isoString t /\ candidateStart ws we 15 t)
    /\ (forall t, candidateStart ws we 15 t ->
          (In (isoString t) (busySlots r) <-> busyAt host fetched t)).
Proof.
  intros N P eff offsetMs midnight wh ws we d fetched today R Vn F.
  pose proof (availability_result host fuel now dateStr service tz c date
                N P R Vn F) as A.
  cbv zeta in A. fold eff offsetMs midnight wh ws we d fetched today in A.
  set (grid := slotTimes (slotCount ws (15 * 60000) (15 * 60000) we) ws
                 (15 * 60000)) in *.
  set (starts := slotTimes (slotCount ws (15 * 60000) (d * 60000) we) ws
                   (15 * 60000)) in *.
  set (busy := markBusy host (map isoString grid)
                 (map (fun a => (start a, end_ a)) fetched)) in *.
  set (chunks := Z.max 1 (ceilDiv d 15)) in *.
  set (available := filter (chunksFreeb host busy (Z.to_nat chunks))
                      (map isoString starts)) in *.
  destruct R as (V & Vm & Ve). unfold validTime in Vm, Ve.
  assert (W : ws = midnight + 9 * 60 * 60000
              /\ (we = midnight + 13 * 60 * 60000
                  \/ we = midnight + 18 * 60 * 60000)).
  { unfold ws, we, wh.
    destruct (getWorkingHours_cases host date (Some eff)) as [E | E];
      rewrite E; cbn [startHour endHour]; auto. }
  destruct W as [Ws We].
  assert (Vg : forall u, In u grid -> validTime u).
  { intros u I. apply candidateStart_slotTimes in I.
    destruct I as (k & K & -> & Fit). unfold validTime. lia. }
  assert (Dq : (d = 15 /\ chunks = 1) \/ (d = 45 /\ chunks = 3))
    by apply queryDuration_cases.
  (* membership in the list before the filter on past starts *)
  assert (Av : forall t, candidateStart ws we d t ->
             (In (isoString t) available
              <-> forall i, 0 <= i < chunks ->
                            ~ busyAt host fetched (t + i * 15 * 60000))).
  { intros t Ct. pose proof Ct as (k & K & Et & Fit).
    assert (Vt : validTime t) by (unfold validTime; lia).
    unfold available. rewrite filter_In. unfold chunksFreeb.
    rewrite Date_parse_isoString by exact Vt.
    rewrite forallb_forall. split.
    - intros [_ H] i Hi B.
      specialize (H (Z.to_nat i)).
      rewrite in_seq, Z2Nat.id, negb_true_iff in H by lia.
      specialize (H ltac:(lia)).
      assert (I : In (isoString (t + (0 + i) * 15 * 60000)) busy).
      { apply busy_grid_point; [exact Vg | unfold validTime; lia | ].
        split.
        - apply candidateStart_slotTimes. exists (k + i).
          split; [lia | ]. split; lia.
        - replace (t + (0 + i) * 15 * 60000) with (t + i * 15 * 60000) by lia.
          exact B. }
      apply set_has_In in I. congruence.
    - intros H. split.
      + apply in_map, candidateStart_slotTimes, Ct.
      + intros j Hj. apply in_seq in Hj. apply negb_true_iff.
        destruct (set_has busy _) eqn:S; [ | reflexivity]. exfalso.
        apply set_has_In in S.
        apply busy_grid_point in S; [ | exact Vg | unfold validTime; lia].
        apply (H (Z.of_nat j)); [lia | ].
        replace (t + Z.of_nat j * 15 * 60000)
          with (t + (0 + Z.of_nat j) * 15 * 60000) by lia.
        apply S. }
  eexists. split; [exact A | ]. cbn [availableSlots busySlots].
  split; [ | split; [ | split]].
  - intros x I.
    assert (I' : In x available)
      by (destruct (dateStr =? today)%string;
          [apply filter_In in I; apply I | exact I]).
    unfold available in I'. apply filter_In in I'. destruct I' as [I' _].
    apply in_map_iff in I'. destruct I' as (t & <- & It).
    exists t. split; [reflexivity | ].
    apply candidateStart_slotTimes. exact It.
  - intros t Ct. pose proof Ct as (k & K & Et & Fit).
    assert (Vt : validTime t) by (unfold validTime; lia).
    destruct (String.eqb_spec dateStr today) as [E | NE].
    + rewrite filter_In, Date_parse_isoString by exact Vt.
      cbn [num_lt]. rewrite Z.ltb_lt, (Av t Ct). tauto.
    + rewrite (Av t Ct). tauto.
  - intros x I. unfold busy in I. apply markBusy_In in I.
    destruct I as [I _]. apply in_map_iff in I. destruct I as (t & <- & It).
    exists t. split; [reflexivity | ].
    apply candidateStart_slotTimes. exact It.
  - intros t Ct. pose proof Ct as (k & K & Et & Fit).
    assert (Vt : validTime t) by (unfold validTime; lia).
    unfold busy. rewrite busy_grid_point by assumption.
    split; [tauto | ]. intros B. split; [ | exact B].
    apply candidateStart_slotTimes. exact Ct.
Qed.

Lemma availability_of_candidates_witness :
  exists r,
    getAvailabilityForDate utcHost 40 1718020800000 "2024-06-10" None (Some 0)
      [Examples.mondayTreatment]
    = Some (Ok r)
    /\ (In "2024-06-10T12:15:00.000Z"%string (availableSlots r)
        <-> (forall i, 0 <= i < 3 ->
               ~ busyAt utcHost [Examples.mondayTreatment]
                   (1718021700000 + i * 15 * 60000))
            /\ ("2024-06-10"%string = "2024-06-10"%string ->
                1718020800000 < 1718021700000)).
Proof.
  destruct (availability_of_candidates utcHost 40 1718020800000 "2024-06-10"
              None (Some 0) [Examples.mondayTreatment] 1717977600000)
    as (r & E & _ & A & _ & _).
  - discriminate.
  - reflexivity.
  - repeat split; vm_compute; discriminate.
  - vm_compute; split; discriminate.
  - lia.
  - exists r. split; [exact E | ].
    apply (A 1718021700000). exists 13. repeat split; vm_compute; discriminate.
Defined.

(** C7 fails as stated: with nothing booked no chunk is busy, yet on the
    day the code takes for today (here at noon) the start at 09:00, which
    the same query made a day earlier offers, is not in
    [availableSlots]. *)
Lemma free_start_in_the_past_is_not_available :
  match getAvailabilityForDate utcHost 40 1718020800000 "2024-06-10" None
          (Some 0) [] with
  | Some (Ok r) =>
      busySlots r = []
      /\ In "2024-06-10T09:00:00.000Z"%string (workingSlots r)
      /\ ~ In "2024-06-10T09:00:00.000Z"%string (availableSlots r)
  | _ => False
  end
  /\ match getAvailabilityForDate utcHost 40 (1718020800000 - msPerDay)
            "2024-06-10" None (Some 0) [] with
     | Some (Ok r) =>
         busySlots r = []
         /\ In "2024-06-10T09:00:00.000Z"%string (availableSlots r)
     | _ => False
     end.
Proof.
  split.
  - vm_compute. split; [reflexivity | ]. split; [left; reflexivity | ].
    intros H. repeat (destruct H as [H | H]; [discriminate | ]). exact H.
  - vm_compute. split; [reflexivity | left; reflexivity].
Qed.

(** ** Where the code leaves the claims *)

(** C1 fails on the code.  [updateAppointment] checks the instant of the
    new start but stores the string as it was sent, where
    [createAppointment] stores the ISO string of the instant; the overlap
    test compares the stored strings.  An appointment moved to 10:00 at
    +04:00 is stored with that start string and the end 06:15 UTC: it runs
    from 06:00 to 06:15 UTC.  A create request for 06:00 UTC, 15 minutes,
    overlaps it, [existing.start < end] and [existing.end > start], yet it
    is not rejected: it is written beside it. *)
Theorem raw_start_defeats_the_overlap_test :
  updateAppointment Examples.offsetHost 1%nat
    (Examples.yerevanRestart "2024-06-10T10:00:00+04:00")
    [Examples.stored 1%nat consultation "2024-06-10T05:00:00.000Z"
       "2024-06-10T05:15:00.000Z"]
  = (Ok (Examples.stored 1%nat consultation "2024-06-10T10:00:00+04:00"
           "2024-06-10T06:15:00.000Z"),
     [Examples.stored 1%nat consultation "2024-06-10T10:00:00+04:00"
        "2024-06-10T06:15:00.000Z"])
  /\ Date_parse Examples.offsetHost "2024-06-10T10:00:00+04:00"
     = Some 1717999200000
  /\ Date_parse Examples.offsetHost "2024-06-10T06:15:00.000Z"
     = Some 1718000100000
  /\ Date_parse Examples.offsetHost "2024-06-10T06:00:00.000Z"
     = Some 1717999200000
  /\ 1717999200000 < endOf 1717999200000 consultation
  /\ 1718000100000 > 1717999200000
  /\ createAppointment Examples.offsetHost
       (Examples.yerevanBooking consultation "2024-06-10T06:00:00.000Z")
       [Examples.stored 1%nat consultation "2024-06-10T10:00:00+04:00"
          "2024-06-10T06:15:00.000Z"]
     = (Ok {| _id := 2%nat; name := "Aram"; phoneNumber := "+37411111111";
              service := consultation; start := "2024-06-10T06:00:00.000Z";
              end_ := "2024-06-10T06:15:00.000Z" |},
        [Examples.stored 1%nat consultation "2024-06-10T10:00:00+04:00"
           "2024-06-10T06:15:00.000Z";
         {| _id := 2%nat; name := "Aram"; phoneNumber := "+37411111111";
            service := consultation; start := "2024-06-10T06:00:00.000Z";
            end_ := "2024-06-10T06:15:00.000Z" |}]).
Proof. vm_compute. repeat split. Qed.

(** C2 fails on the code.  The end is derived only inside the block
    guarded by [if (updateData.start)]; without a start the update data go
    to [$set] as they came.  An update whose body is an [end] alone cuts
    the 45-minute treatment of 09:00 to the end 09:15, and an update of
    the service alone turns the consultation of 09:00 to 09:15 into a
    treatment with that same end: in both the stored appointment no longer
    ends at its start plus the duration of its service, and a booking for
    09:15, inside the 45 minutes of the treatment, is written. *)
Theorem end_can_leave_start_and_service :
  updateAppointment utcHost 1%nat
    (Examples.endOnly "2024-06-10T09:15:00.000Z") [Examples.mondayTreatment]
  = (Ok (Examples.stored 1%nat treatment "2024-06-10T09:00:00.000Z"
           "2024-06-10T09:15:00.000Z"),
     [Examples.stored 1%nat treatment "2024-06-10T09:00:00.000Z"
        "2024-06-10T09:15:00.000Z"])
  /\ updateAppointment utcHost 1%nat (Examples.changeService treatment)
       [Examples.mondayConsultation]
     = (Ok (Examples.stored 1%nat treatment "2024-06-10T09:00:00.000Z"
              "2024-06-10T09:15:00.000Z"),
        [Examples.stored 1%nat treatment "2024-06-10T09:00:00.000Z"
           "2024-06-10T09:15:00.000Z"])
  /\ ~ endMatches utcHost
         (Examples.stored 1%nat treatment "2024-06-10T09:00:00.000Z"
            "2024-06-10T09:15:00.000Z")
  /\ Date_parse utcHost "2024-06-10T09:00:00.000Z" = Some 1718010000000
  /\ Date_parse utcHost "2024-06-10T09:15:00.000Z" = Some 1718010900000
  /\ 1718010900000 < endOf 1718010000000 treatment
  /\ fst (createAppointment utcHost
            (Examples.booking consultation "2024-06-10T09:15:00.000Z")
            [Examples.stored 1%nat treatment "2024-06-10T09:00:00.000Z"
               "2024-06-10T09:15:00.000Z"])
     = Ok {| _id := 2%nat; name := "Anna"; phoneNumber := "+37410000000";
             service := consultation; start := "2024-06-10T09:15:00.000Z";
             end_ := "2024-06-10T09:30:00.000Z" |}.
Proof.
  split; [reflexivity | ]. split; [reflexivity | ].
  split; [ | vm_compute; repeat split].
  intros (s & Ps & Pe). vm_compute in Ps. injection Ps as <-.
  vm_compute in Pe. discriminate.
Qed.

(** C3 fails on the code.  The window the test uses is the one
    [getWorkingHours] gives, which takes the day of the week in the time
    zone of the process (C4).  In a process ten hours east of Greenwich, for
    a client at offset 0: a consultation on Friday 14 June 2024 from 17:45
    to 18:00, inside Friday's 9 to 18, is rejected with "Outside working
    hours"; and one on Sunday 16 June from 15:00 to 15:15, after Sunday's
    closing at 13, is written. *)
Theorem process_zone_moves_the_working_window :
  (Date_parse (fixedZoneHost 600) "2024-06-14T17:45:00.000Z"
   = Some 1718387100000
   /\ WeekDay (1718387100000 - 0 * 60000) = 5
   /\ localMidnight 1718387100000 (0 * 60000) + 9 * 60 * 60000
      <= 1718387100000
   /\ endOf 1718387100000 consultation
      <= localMidnight 1718387100000 (0 * 60000) + 18 * 60 * 60000
   /\ createAppointment (fixedZoneHost 600)
        (Examples.booking consultation "2024-06-14T17:45:00.000Z") []
      = (Throw OutOfWindow, []))
  /\ (Date_parse (fixedZoneHost 600) "2024-06-16T15:00:00.000Z"
      = Some 1718550000000
      /\ WeekDay (1718550000000 - 0 * 60000) = 0
      /\ endOf 1718550000000 consultation
         > localMidnight 1718550000000 (0 * 60000) + 13 * 60 * 60000
      /\ fst (createAppointment (fixedZoneHost 600)
                (Examples.booking consultation "2024-06-16T15:00:00.000Z") [])
         = Ok {| _id := 1%nat; name := "Anna"; phoneNumber := "+37410000000";
                 service := consultation;
                 start := "2024-06-16T15:00:00.000Z";
                 end_ := "2024-06-16T15:15:00.000Z" |}).
Proof. vm_compute. repeat split; discriminate. Qed.

(** C9 fails on the code.  The id of a request is a string, and the lookup
    that opens [updateAppointment] and [deleteAppointment] casts it: an id
    that is no ObjectId matches no stored appointment, yet the operation
    does not fail with "Appointment not found" but with the [CastError] of
    the model.  (The collection is left as it was.) *)
Theorem id_that_is_no_ObjectId_fails_in_the_cast (driver : Driver)
    (host : Host) (id : string) (u : UpdateData) (c : Collection) :
  castObjectId driver id = None ->
  Request.updateAppointment driver host id u c = (Throw CastError, c)
  /\ Request.deleteAppointment driver id c = (Throw CastError, c)
  /\ CastError <> NotFound.
Proof.
  intros H. unfold Request.updateAppointment, Request.deleteAppointment.
  rewrite H. repeat split. discriminate.
Qed.

Lemma id_that_is_no_ObjectId_fails_in_the_cast_witness :
  Request.updateAppointment Examples.driver utcHost "abc"
    (Examples.changeService treatment) [Examples.mondayConsultation]
  = (Throw CastError, [Examples.mondayConsultation])
  /\ Request.deleteAppointment Examples.driver "abc"
       [Examples.mondayConsultation]
     = (Throw CastError, [Examples.mondayConsultation])
  /\ CastError <> NotFound.
Proof.
  apply (id_that_is_no_ObjectId_fails_in_the_cast Examples.driver utcHost
           "abc").
  reflexivity.
Defined.

(** An id that the cast takes and that no stored appointment has: the two
    operations, as they are called, fail with "Appointment not found". *)
Lemma unknown_ObjectId_not_found (driver : Driver) (host : Host)
    (id : string) (oid : ObjectId) (u : UpdateData) (c : Collection) :
  castObjectId driver id = Some oid ->
  (forall a, In a c -> _id a <> oid) ->
  Request.updateAppointment driver host id u c = (Throw NotFound, c)
  /\ Request.deleteAppointment driver id c = (Throw NotFound, c).
Proof.
  intros E H. unfold Request.updateAppointment, Request.deleteAppointment.
  rewrite E. apply unknown_id_not_found. exact H.
Qed.

(** C4 fails on the code.  [getWorkingHours] reads the year, month and day
    of the local date with the accessors of the process's own time zone,
    and rebuilds noon from them with a constructor that takes a year from
    0 to 99 for 1900 + year.  In a process four hours east of Greenwich,
    two instants of the same client-local Friday get different windows;
    and in a UTC process Sunday 2 January 0050 gets the window of Monday 2
    January 1950. *)
Theorem working_hours_depend_on_process_zone_and_century :
  (Day (1718366400000 - 0 * 60000) = Day (1718398800000 - 0 * 60000)
   /\ WeekDay (1718366400000 - 0 * 60000) = 5
   /\ getWorkingHours (fixedZoneHost 240) 1718366400000 (Some 0)
      = {| startHour := 9; endHour := 18 |}
   /\ getWorkingHours (fixedZoneHost 240) 1718398800000 (Some 0)
      = {| startHour := 9; endHour := 13 |})
  /\ (Date_parse utcHost "0050-01-02T00:00:00.000Z" = Some (-60589209600000)
      /\ WeekDay (-60589209600000) = 0
      /\ getWorkingHours utcHost (-60589209600000) (Some 0)
         = {| startHour := 9; endHour := 18 |}).
Proof. vm_compute. repeat split. Qed.

(** C6 fails on the code.  The requested date is taken at midnight UTC
    and then moved to the client's local day, which for a client west of
    Greenwich is the day before: Monday 10 June 2024 asked with an offset
    of 300 minutes gets the 16 slots of Sunday 9 June.  The window itself
    follows the process's time zone (see C4): in a process five hours west
    of Greenwich the same Monday asked with offset 0 gets 16 slots. *)
Theorem monday_can_get_sunday_slots :
  Date_parse utcHost "2024-06-10T00:00:00.000Z" = Some 1717977600000
  /\ WeekDay 1717977600000 = 1
  /\ match getAvailabilityForDate utcHost 40 0 "2024-06-10" None (Some 300)
             [] with
     | Some (Ok r) =>
         List.length (workingSlots r) = 16%nat
         /\ hd EmptyString (workingSlots r) = "2024-06-09T14:00:00.000Z"%string
         /\ last (workingSlots r) EmptyString
            = "2024-06-09T17:45:00.000Z"%string
     | _ => False
     end
  /\ match getAvailabilityForDate (fixedZoneHost (-300)) 40 0 "2024-06-10"
             None (Some 0) [] with
     | Some (Ok r) =>
         List.length (workingSlots r) = 16%nat
         /\ hd EmptyString (workingSlots r) = "2024-06-10T09:00:00.000Z"%string
         /\ last (workingSlots r) EmptyString
            = "2024-06-10T12:45:00.000Z"%string
     | _ => False
     end.
Proof. vm_compute. repeat split. Qed.

(** C8 fails on the code.  Today is taken from [now + offset] where every
    other conversion to the client's day uses [- offset].  For a client
    ten hours east of Greenwich (offset -600) at 01:00 UTC on 10 June
    2024, which is 11:00 of 10 June there, a request for 10 June is not
    taken for today: the starts from 09:00 to 11:00 local time, at or
    before the current instant, stay in [availableSlots].  And for a
    client four hours east (offset -240) at 21:00 UTC on 10 June, which is
    01:00 of 11 June there, a request for 10 June, not the client's today,
    is filtered: with nothing booked, no start is left. *)
Theorem today_is_taken_with_the_opposite_sign :
  (beforeT (isoString (1717981200000 - (-600) * 60000)) = "2024-06-10"%string
   /\ beforeT (isoString (1717981200000 + (-600) * 60000))
      = "2024-06-09"%string
   /\ Date_parse utcHost "2024-06-09T23:00:00.000Z" = Some 1717974000000
   /\ 1717974000000 <= 1717981200000
   /\ match getAvailabilityForDate utcHost 40 1717981200000 "2024-06-10"
              (Some consultation) (Some (-600)) [] with
      | Some (Ok r) =>
          In "2024-06-09T23:00:00.000Z"%string (availableSlots r)
          /\ In "2024-06-10T01:00:00.000Z"%string (availableSlots r)
      | _ => False
      end)
  /\ (beforeT (isoString (1718053200000 - (-240) * 60000))
      = "2024-06-11"%string
      /\ match getAvailabilityForDate utcHost 40 1718053200000 "2024-06-10"
                 (Some consultation) (Some (-240)) [] with
         | Some (Ok r) =>
             busySlots r = [] /\ List.length (workingSlots r) = 36%nat
             /\ availableSlots r = []
         | _ => False
         end).
Proof.
  vm_compute. repeat split; try discriminate.
  - left. reflexivity.
  - do 8 right. left. reflexivity.
Qed.

Module Supplements.

(** The side conditions on the range of Date hold for every instant more
    than a day inside the range whose local day exists at all. *)
Lemma representable_ordinary (host : Host) (s tz : Z) (sv : ServiceKey) :
  validTime (s - tz * 60000) ->
  - maxTime + msPerDay <= s <= maxTime - msPerDay ->
  representable host s tz sv.
Proof.
  intros V Hs. unfold representable, dayStartOf, dayEndOf, endOf,
    localMidnight.
  split; [exact V | ]. unfold validTime in *.
  assert (M : s - tz * 60000 - msPerDay
              < Day (s - tz * 60000) * msPerDay <= s - tz * 60000).
  { unfold Day, msPerDay. Z.div_mod_to_equations. lia. }
  unfold maxTime, msPerDay in *.
  destruct (getWorkingHours_cases host s (Some tz)) as [E | E]; rewrite E;
    cbn [startHour endHour]; destruct sv; cbn [SERVICE_DURATION_MINUTES];
    lia.
Qed.

Lemma dayRepresentable_ordinary (date offsetMs : Z) :
  validTime (date - offsetMs) ->
  - maxTime + msPerDay <= date <= maxTime - msPerDay ->
  dayRepresentable date offsetMs.
Proof.
  intros V Hd. unfold dayRepresentable, localMidnight.
  split; [exact V | ]. unfold validTime in *.
  assert (M : date - offsetMs - msPerDay
              < Day (date - offsetMs) * msPerDay <= date - offsetMs).
  { unfold Day, msPerDay. Z.div_mod_to_equations. lia. }
  unfold maxTime, msPerDay in *. lia.
Qed.

(** In a UTC process and away from the years 0 to 99 the window is a
    function of the client's local day alone. *)
Lemma window_of_local_day (host : Host) (t u : Z) (tz : option Z) :
  (forall v b, LocalTZA host v b = 0) ->
  let offsetMs := orElse tz 0 * 60000 in
  - maxTime <= t - offsetMs < maxTime ->
  - maxTime <= u - offsetMs < maxTime ->
  ~ 0 <= YearFromTime (t - offsetMs) <= 99 ->
  Day (t - offsetMs) = Day (u - offsetMs) ->
  getWorkingHours host t tz = getWorkingHours host u tz.
Proof.
  intros Z0 offsetMs Vt Vu Y D.
  assert (Yu : ~ 0 <= YearFromTime (u - offsetMs) <= 99)
    by (unfold YearFromTime in *; rewrite <- D; exact Y).
  rewrite !getWorkingHours_utc by assumption.
  fold offsetMs. unfold WeekDay. rewrite D. reflexivity.
Qed.

(** Whatever the window, [workingSlots] has four entries for each of its
    hours: 36 for 9 to 18 and 16 for 9 to 13. *)
Lemma workingSlots_count (host : Host) (fuel : nat) (now : Z)
    (dateStr : string) (service : option ServiceKey) (tz : option Z)
    (c : Collection) (date : Z) :
  dateStr <> EmptyString ->
  Date_parse host (dateStr ++ "T00:00:00.000Z") = Some date ->
  let eff := orElse tz 0 in
  let wh := getWorkingHours host date (Some eff) in
  dayRepresentable date (eff * 60000) ->
  validTime (now + eff * 60000) ->
  (36 < fuel)%nat ->
  exists r,
    getAvailabilityForDate host fuel now dateStr service tz c = Some (Ok r)
    /\ Z.of_nat (List.length (workingSlots r))
       = (endHour wh - startHour wh) * 60 / 15
    /\ (wh = {| startHour := 9; endHour := 18 |} ->
        List.length (workingSlots r) = 36%nat)
    /\ (wh = {| startHour := 9; endHour := 13 |} ->
        List.length (workingSlots r) = 16%nat).
Proof.
  intros N P eff wh R Vn F.
  pose proof (availability_result host fuel now dateStr service tz c date
                N P R Vn F) as A.
  cbv zeta in A. fold eff wh in A.
  eexists. split; [exact A | ]. cbn [workingSlots].
  rewrite length_map, slotTimes_length. unfold slotCount.
  set (m := localMidnight date (eff * 60000)).
  assert (E : forall sh eh,
             (m + eh * 60 * 60000 - 15 * 60000 - (m + sh * 60 * 60000))
             / (15 * 60000) + 1 = (eh - sh) * 60 / 15).
  { intros sh eh. Z.div_mod_to_equations. lia. }
  rewrite E.
  destruct (getWorkingHours_cases host date (Some eff)) as [W | W];
    fold wh in W; rewrite W; cbn [startHour endHour];
    (split; [reflexivity | split; intros H; [ | ]; try discriminate H;
             reflexivity]).
Qed.

(** Where the count follows the requested date: in a UTC process, for a
    client at or east of Greenwich (an offset from -1439 to 0) and a date
    given at its midnight UTC, outside the years 0 to 99, a Saturday or a
    Sunday gets 16 entries and every other day 36. *)
Lemma workingSlots_of_requested_day (host : Host) (fuel : nat) (now : Z)
    (dateStr : string) (service : option ServiceKey) (tz : option Z)
    (c : Collection) (date : Z) :
  (forall v b, LocalTZA host v b = 0) ->
  dateStr <> EmptyString ->
  Date_parse host (dateStr ++ "T00:00:00.000Z") = Some date ->
  date mod msPerDay = 0 ->
  let eff := orElse tz 0 in
  -1440 < eff <= 0 ->
  ~ 0 <= YearFromTime date <= 99 ->
  dayRepresentable date (eff * 60000) ->
  date - eff * 60000 < maxTime ->
  validTime (now + eff * 60000) ->
  (36 < fuel)%nat ->
  exists r,
    getAvailabilityForDate host fuel now dateStr service tz c = Some (Ok r)
    /\ List.length (workingSlots r)
       = if (WeekDay date =? 0) || (WeekDay date =? 6) then 16%nat else 36%nat.
Proof.
  intros Z0 N P Mid eff Heff Y R Lt Vn F.
  destruct (workingSlots_count host fuel now dateStr service tz c date
              N P R Vn F) as (r & E & _ & W36 & W16).
  fold eff in W36, W16.
  exists r. split; [exact E | ].
  assert (D : Day (date - eff * 60000) = Day date).
  { unfold Day, msPerDay in *. Z.div_mod_to_equations. lia. }
  pose proof (getWorkingHours_utc host date (Some eff) Z0) as G.
  cbv zeta in G. cbn [orElse] in G.
  destruct R as (V & _). unfold validTime in V.
  rewrite G in W36, W16.
  - unfold WeekDay in W36, W16. rewrite D in W36, W16. fold (WeekDay date) in *.
    destruct ((WeekDay date =? 0) || (WeekDay date =? 6));
      [apply W16 | apply W36]; reflexivity.
  - lia.
  - unfold YearFromTime in *. rewrite D. exact Y.
  - lia.
  - unfold YearFromTime in *. rewrite D. exact Y.
Qed.

(** The scenario of Monday 10 June 2024 in a UTC process, offset 0. *)
Lemma monday_in_a_utc_process :
  match getAvailabilityForDate utcHost 40 0 "2024-06-10" None (Some 0) [] with
  | Some (Ok r) =>
      List.length (workingSlots r) = 36%nat
      /\ hd EmptyString (workingSlots r) = "2024-06-10T09:00:00.000Z"%string
      /\ last (workingSlots r) EmptyString = "2024-06-10T17:45:00.000Z"%string
  | _ => False
  end.
Proof. vm_compute. repeat split. Qed.

(** [updateAppointment] validates the instant of the new start but stores
    the string as it was supplied, where [createAppointment] stores the
    ISO string of the instant.  The store then compares a string that is
    not in the canonical form: after moving an appointment to 10:00 at
    +04:00 (06:00 UTC), a booking for 06:00 UTC is accepted on top of
    it. *)
Lemma update_keeps_the_start_string :
  updateAppointment Examples.offsetHost 1%nat
    (Examples.yerevanRestart "2024-06-10T10:00:00+04:00")
    [Examples.stored 1%nat consultation "2024-06-10T05:00:00.000Z"
       "2024-06-10T05:15:00.000Z"]
  = (Ok (Examples.stored 1%nat consultation "2024-06-10T10:00:00+04:00"
           "2024-06-10T06:15:00.000Z"),
     [Examples.stored 1%nat consultation "2024-06-10T10:00:00+04:00"
        "2024-06-10T06:15:00.000Z"])
  /\ Date_parse Examples.offsetHost "2024-06-10T10:00:00+04:00"
     = Date_parse Examples.offsetHost "2024-06-10T06:00:00.000Z"
  /\ fst (createAppointment Examples.offsetHost
            (Examples.yerevanBooking consultation "2024-06-10T06:00:00.000Z")
            [Examples.stored 1%nat consultation "2024-06-10T10:00:00+04:00"
               "2024-06-10T06:15:00.000Z"])
     = Ok {| _id := 2%nat; name := "Aram"; phoneNumber := "+37411111111";
             service := consultation; start := "2024-06-10T06:00:00.000Z";
             end_ := "2024-06-10T06:15:00.000Z" |}.
Proof. vm_compute. repeat split. Qed.

End Supplements.

(** * Further properties of the service *)

(** ** The collection *)

Module StoreLaws.

Lemma freshId_above (c : Collection) (a : Appointment) :
  In a c -> (_id a < freshId c)%nat.
Proof.
  intros I. unfold freshId.
  assert (L : (list_max (map _id c) <= list_max (map _id c))%nat) by lia.
  apply list_max_le in L. rewrite Forall_forall in L.
  specialize (L (_id a) (in_map _id c a I)). lia.
Qed.

Lemma findById_In (id : ObjectId) (c : Collection) (a : Appointment) :
  findById id c = Some a -> In a c /\ _id a = id.
Proof.
  unfold findById. intros H. apply find_some in H. destruct H as [I E].
  apply Nat.eqb_eq in E. auto.
Qed.

Lemma updateById_ids (id : ObjectId) (u : UpdateData) (c : Collection) :
  map _id (updateById id u c) = map _id c.
Proof.
  induction c as [ | a c IH]; [reflexivity | ]. cbn [updateById].
  destruct (Nat.eqb (_id a) id); cbn [map applySet _id]; congruence.
Qed.

Lemma findById_updateById_other (id id' : ObjectId) (u : UpdateData)
    (c : Collection) :
  id' <> id -> findById id' (updateById id u c) = findById id' c.
Proof.
  intros N. unfold findById. induction c as [ | a c IH]; [reflexivity | ].
  cbn [updateById]. destruct (Nat.eqb (_id a) id) eqn:E.
  - apply Nat.eqb_eq in E. cbn [List.find applySet _id].
    replace (Nat.eqb (_id a) id') with false; [reflexivity | ].
    symmetry. apply Nat.eqb_neq. congruence.
  - cbn [List.find]. rewrite IH. reflexivity.
Qed.

Lemma deleteById_other (id id' : ObjectId) (c : Collection) :
  id' <> id -> findById id' (deleteById id c) = findById id' c.
Proof.
  intros N. unfold findById. induction c as [ | a c IH]; [reflexivity | ].
  cbn [deleteById]. destruct (Nat.eqb (_id a) id) eqn:E.
  - apply Nat.eqb_eq in E. cbn [List.find].
    replace (Nat.eqb (_id a) id') with false; [reflexivity | ].
    symmetry. apply Nat.eqb_neq. congruence.
  - cbn [List.find]. rewrite IH. reflexivity.
Qed.

Lemma deleteById_length (id : ObjectId) (c : Collection) (a : Appointment) :
  findById id c = Some a ->
  S (List.length (deleteById id c)) = List.length c.
Proof.
  unfold findById. induction c as [ | b c IH]; [discriminate | ].
  cbn [List.find deleteById]. destruct (Nat.eqb (_id b) id).
  - reflexivity.
  - intros H. cbn [List.length]. rewrite IH by exact H. reflexivity.
Qed.

Lemma deleteById_gone (id : ObjectId) (c : Collection) :
  NoDup (map _id c) -> findById id (deleteById id c) = None.
Proof.
  unfold findById. induction c as [ | b c IH]; [reflexivity | ].
  cbn [map deleteById]. intros ND. inversion ND as [ | x l NI ND' E]. subst.
  destruct (Nat.eqb (_id b) id) eqn:E.
  - apply Nat.eqb_eq in E. subst id.
    destruct (List.find _ c) as [a | ] eqn:F; [ | reflexivity].
    apply find_some in F. destruct F as [I Ea]. apply Nat.eqb_eq in Ea.
    exfalso. apply NI. rewrite <- Ea. apply in_map. exact I.
  - cbn [List.find]. rewrite E. apply IH. exact ND'.
Qed.

Lemma deleteById_last (c : Collection) (a : Appointment) :
  (forall b, In b c -> _id b <> _id a) ->
  findById (_id a) (c ++ [a]) = Some a
  /\ deleteById (_id a) (c ++ [a]) = c.
Proof.
  unfold findById. induction c as [ | b c IH]; intros H.
  - cbn. rewrite Nat.eqb_refl. auto.
  - cbn [app List.find deleteById].
    replace (Nat.eqb (_id b) (_id a)) with false.
    + destruct IH as [F D].
      * intros x I. apply H. right. exact I.
      * rewrite F, D. auto.
    + symmetry. apply Nat.eqb_neq. apply H. left. reflexivity.
Qed.

End StoreLaws.

Import StoreLaws.

(** ** Updating and deleting *)

Section UpdateLaws.

Variable host : Host.

(** An update either throws and leaves the collection, or sets fields of
    the document with the given id. *)
Lemma update_outcome (id : ObjectId) (u : UpdateData) (c : Collection) :
  (exists e, updateAppointment host id u c = (Throw e, c))
  \/ (exists old u',
        findById id c = Some old
        /\ updateAppointment host id u c
           = (Ok (applySet u' old), updateById id u' c)).
Proof.
  destruct (findById id c) as [old | ] eqn:F.
  2:{ left. exists NotFound. unfold updateAppointment, bind, query.
      rewrite F. reflexivity. }
  destruct (ud_start u) as [st | ] eqn:E.
  2:{ rewrite (update_without_start host id u c old F E).
      destruct (validUpdate u); [right | left]; eauto. }
  destruct (string_dec st EmptyString) as [-> | N].
  { unfold updateAppointment, bind, query, ret, findByIdAndUpdate.
    rewrite F, E. cbn [falsy]. rewrite F.
    destruct (validUpdate u); [right | left]; eauto. }
  destruct (Date_parse host st) as [s | ] eqn:P.
  2:{ left. eexists. unfold updateAppointment, bind, query, revalidate.
      rewrite F, E, falsy_nonempty, P by exact N. reflexivity. }
  assert (B : restartingUpdate host id u c old st s)
    by (repeat split; assumption).
  rewrite (updateAppointment_restarting host id u c old st s B).
  destruct (dayBounds host s _) as [bounds | e]; [ | left; eauto].
  destruct (outsideWorkingHours _ _ _); [left; eauto | ].
  destruct (toISOString _) as [endIso | e]; [ | left; eauto].
  destruct (exists_ _ c); [left; eauto | ].
  destruct (validUpdate _); [right | left]; eauto.
Qed.

End UpdateLaws.

(** X1.  [updateAppointment] touches one document at most: whatever the
    outcome, the collection holds the same ids in the same order and every
    lookup by another id gives what it gave before; and an update that
    throws leaves the collection exactly as it was. *)
Theorem update_touches_one_document (host : Host) (id : ObjectId)
    (u : UpdateData) (c : Collection) :
  map _id (snd (updateAppointment host id u c)) = map _id c
  /\ (forall id', id' <> id ->
        findById id' (snd (updateAppointment host id u c)) = findById id' c)
  /\ (forall e, fst (updateAppointment host id u c) = Throw e ->
        snd (updateAppointment host id u c) = c).
Proof.
  destruct (update_outcome host id u c) as [[e E] | (old & u' & F & E)];
    rewrite E; cbn [fst snd].
  - repeat split; reflexivity.
  - split; [apply updateById_ids | ]. split.
    + intros id' N. apply findById_updateById_other. exact N.
    + intros e H. discriminate.
Qed.

Lemma update_touches_one_document_witness :
  findById 2%nat
    (snd (updateAppointment utcHost 1%nat (Examples.changeService treatment)
            [Examples.mondayConsultation;
             Examples.stored 2%nat consultation "2024-06-10T11:00:00.000Z"
               "2024-06-10T11:15:00.000Z"]))
  = Some (Examples.stored 2%nat consultation "2024-06-10T11:00:00.000Z"
            "2024-06-10T11:15:00.000Z").
Proof.
  rewrite (proj1 (proj2 (update_touches_one_document utcHost 1%nat
                           (Examples.changeService treatment) _)) 2%nat).
  - reflexivity.
  - discriminate.
Defined.

(** X2.  Deleting a stored appointment answers with the message of
    success and removes one document: the collection is one shorter and
    every lookup by another id gives what it gave before.  When ids are
    unique the appointment is gone, and deleting it a second time fails
    with "Appointment not found". *)
Theorem delete_removes_one_document (id : ObjectId) (c : Collection)
    (a : Appointment) :
  findById id c = Some a ->
  exists c',
    deleteAppointment id c
    = (Ok "Appointment deleted successfully"%string, c')
    /\ S (List.length c') = List.length c
    /\ (forall id', id' <> id -> findById id' c' = findById id' c)
    /\ (NoDup (map _id c) ->
        findById id c' = None
        /\ deleteAppointment id c' = (Throw NotFound, c')).
Proof.
  intros F. exists (deleteById id c).
  split; [ | split; [ | split]].
  - unfold deleteAppointment, bind, write, findByIdAndDelete, ret.
    rewrite F. reflexivity.
  - apply (deleteById_length id c a F).
  - intros id' N. apply deleteById_other. exact N.
  - intros ND. pose proof (deleteById_gone id c ND) as G.
    split; [exact G | ].
    unfold deleteAppointment, bind, write, findByIdAndDelete, throw.
    rewrite G. reflexivity.
Qed.

Lemma delete_removes_one_document_witness :
  exists c',
    deleteAppointment 1%nat [Examples.mondayTreatment]
    = (Ok "Appointment deleted successfully"%string, c')
    /\ S (List.length c') = List.length [Examples.mondayTreatment]
    /\ (forall id', id' <> 1%nat ->
          findById id' c' = findById id' [Examples.mondayTreatment])
    /\ (NoDup (map _id [Examples.mondayTreatment]) ->
        findById 1%nat c' = None
        /\ deleteAppointment 1%nat c' = (Throw NotFound, c')).
Proof.
  apply (delete_removes_one_document 1%nat [Examples.mondayTreatment]
           Examples.mondayTreatment).
  reflexivity.
Defined.

(** ** What a successful create wrote *)

Section CreateLaws.

Variable host : Host.

Lemma create_written (body : CreateBody) (c c' : Collection)
    (a : Appointment) :
  createAppointment host body c = (Ok a, c') ->
  exists nm ph sv st s bounds,
    completeBody host body nm ph sv st s
    /\ validTime s /\ validTime (endOf s sv)
    /\ dayBounds host s (orElse (cb_tzOffset body) 0) = Ok bounds
    /\ outsideWorkingHours (Some s) (newDate (endOf s sv)) bounds = false
    /\ exists_ (overlapFilter (isoString s) (isoString (endOf s sv))) c
       = false
    /\ a = newDoc c nm ph sv s /\ c' = c ++ [a].
Proof.
  intros H. destruct (createAppointment_Ok host body c c' a H)
    as (nm & ph & sv & st & s & B).
  exists nm, ph, sv, st, s.
  rewrite (createAppointment_complete host body c nm ph sv st s B) in H.
  destruct (dayBounds host s _) as [bounds | e]; [ | discriminate].
  exists bounds.
  destruct (outsideWorkingHours _ _ _); [discriminate | ].
  destruct (toISOString _) as [endIso | e] eqn:T; [ | discriminate].
  apply toISOString_Ok in T. destruct T as [Ve ->].
  destruct (exists_ _ c); [discriminate | ].
  unfold create in H. cbn [fst snd] in H. injection H as <- <-.
  pose proof B as (_ & _ & _ & _ & _ & _ & _ & P).
  split; [exact B | ].
  split; [apply (Date_parse_valid host st s P) | ].
  split; [exact Ve | ]. repeat split; reflexivity.
Qed.

End CreateLaws.

(** X3.  Deleting the appointment a create has just written gives back the
    collection as it was before the create. *)
Theorem create_then_delete_restores (host : Host) (body : CreateBody)
    (c c' : Collection) (a : Appointment) :
  createAppointment host body c = (Ok a, c') ->
  deleteAppointment (_id a) c'
  = (Ok "Appointment deleted successfully"%string, c).
Proof.
  intros H. destruct (create_written host body c c' a H)
    as (nm & ph & sv & st & s & bounds & _ & _ & _ & _ & _ & _ & Ea & ->).
  assert (N : forall b, In b c -> _id b <> _id a).
  { intros b I. pose proof (freshId_above c b I) as L. rewrite Ea.
    cbn [newDoc _id]. lia. }
  destruct (deleteById_last c a N) as [F D].
  unfold deleteAppointment, bind, write, findByIdAndDelete, ret.
  rewrite F, D. reflexivity.
Qed.

Lemma create_then_delete_restores_witness :
  deleteAppointment 2%nat
    [Examples.mondayTreatment;
     {| _id := 2%nat; name := "Anna"; phoneNumber := "+37410000000";
        service := consultation; start := "2024-06-10T10:00:00.000Z";
        end_ := "2024-06-10T10:15:00.000Z" |}]
  = (Ok "Appointment deleted successfully"%string, [Examples.mondayTreatment]).
Proof.
  apply (create_then_delete_restores utcHost
           (Examples.booking consultation "2024-06-10T10:00:00.000Z")
           [Examples.mondayTreatment] _
           {| _id := 2%nat; name := "Anna"; phoneNumber := "+37410000000";
              service := consultation; start := "2024-06-10T10:00:00.000Z";
              end_ := "2024-06-10T10:15:00.000Z" |}).
  reflexivity.
Defined.

(** ** Bookings stay apart *)

Module ApartLaws.

Lemma runs_newDoc (c : Collection) (nm ph : string) (sv : ServiceKey)
    (s0 s e : Z) :
  validTime s0 -> validTime (endOf s0 sv) ->
  runs (newDoc c nm ph sv s0) s e -> s = s0 /\ e = endOf s0 sv.
Proof.
  intros V Ve (Ps & Pe & Es & Ee). cbn [newDoc start end_] in Es, Ee.
  split; symmetry.
  - apply isoString_inj; [exact V | apply plainYear_valid; exact Ps | exact Es].
  - apply isoString_inj; [exact Ve | apply plainYear_valid; exact Pe | exact Ee].
Qed.

Lemma endOf_later (s : Z) (sv : ServiceKey) : s < endOf s sv.
Proof. unfold endOf. destruct sv; cbn [SERVICE_DURATION_MINUTES]; lia. Qed.

Lemma exists_false (f : Appointment -> bool) (c : Collection)
    (b : Appointment) :
  exists_ f c = false -> In b c -> f b = false.
Proof.
  unfold exists_. intros H I. destruct (f b) eqn:E; [ | reflexivity].
  assert (X : existsb f c = true) by (apply existsb_exists; eauto).
  congruence.
Qed.

Lemma NoDup_snoc (l : list nat) (x : nat) :
  NoDup l -> ~ In x l -> NoDup (l ++ [x]).
Proof.
  intros ND NI. apply (Permutation_NoDup (Permutation_cons_append l x)).
  constructor; assumption.
Qed.

(** Under unique ids, the documents after an update by id. *)
Lemma updateById_In (id : ObjectId) (u : UpdateData) (c : Collection)
    (b : Appointment) :
  NoDup (map _id c) ->
  In b (updateById id u c) ->
  (In b c /\ _id b <> id)
  \/ (exists old, findById id c = Some old /\ b = applySet u old).
Proof.
  unfold findById. induction c as [ | a c IH]; [intros _ [] | ].
  cbn [map updateById List.find]. intros ND. inversion ND as [ | x l NI ND' E].
  subst. destruct (Nat.eqb (_id a) id) eqn:E.
  - apply Nat.eqb_eq in E. intros [<- | I].
    + right. exists a. auto.
    + left. split; [right; exact I | ]. intros Eb. apply NI.
      rewrite E, <- Eb. apply in_map. exact I.
  - intros [<- | I].
    + left. split; [left; reflexivity | ]. apply Nat.eqb_neq. exact E.
    + destruct (IH ND' I) as [[I' N] | (old & F & Eb)].
      * left. split; [right; exact I' | exact N].
      * right. exists old. auto.
Qed.

End ApartLaws.

Import ApartLaws.

(** X4.  The same request cannot be booked twice: once a create request
    has been written (as an appointment within the years 0000 to 9999),
    sending the same request again is rejected with "Time slot is busy"
    and writes nothing. *)
Theorem same_request_twice_is_busy (host : Host) (body : CreateBody)
    (c c' : Collection) (a : Appointment) (s e : Z) :
  createAppointment host body c = (Ok a, c') ->
  runs a s e ->
  createAppointment host body c' = (Throw SlotBusy, c').
Proof.
  intros H R. destruct (create_written host body c c' a H)
    as (nm & ph & sv & st & s0 & bounds & B & V & Ve & DB & OW & _ & Ea & ->).
  rewrite (create_after_window host body (c ++ [a]) nm ph sv st s0 bounds
             B Ve DB OW).
  replace (exists_ (overlapFilter (isoString s0) (isoString (endOf s0 sv)))
             (c ++ [a])) with true; [reflexivity | ].
  symmetry. unfold exists_. rewrite existsb_app. apply orb_true_iff. right.
  cbn [existsb]. rewrite orb_false_r.
  subst a. destruct (runs_newDoc c nm ph sv s0 s e V Ve R) as [-> ->].
  pose proof R as (Ps & Pe & _ & _).
  rewrite (overlapFilter_runs _ s0 (endOf s0 sv) s0 (endOf s0 sv) R Ps Pe).
  pose proof (endOf_later s0 sv).
  apply andb_true_iff. rewrite !Z.ltb_lt. lia.
Qed.

Lemma same_request_twice_is_busy_witness :
  createAppointment utcHost
    (Examples.booking consultation "2024-06-10T10:00:00.000Z")
    [{| _id := 1%nat; name := "Anna"; phoneNumber := "+37410000000";
        service := consultation; start := "2024-06-10T10:00:00.000Z";
        end_ := "2024-06-10T10:15:00.000Z" |}]
  = (Throw SlotBusy,
     [{| _id := 1%nat; name := "Anna"; phoneNumber := "+37410000000";
         service := consultation; start := "2024-06-10T10:00:00.000Z";
         end_ := "2024-06-10T10:15:00.000Z" |}]).
Proof.
  apply (same_request_twice_is_busy utcHost
           (Examples.booking consultation "2024-06-10T10:00:00.000Z")
           [] _
           {| _id := 1%nat; name := "Anna"; phoneNumber := "+37410000000";
              service := consultation; start := "2024-06-10T10:00:00.000Z";
              end_ := "2024-06-10T10:15:00.000Z" |}
           1718013600000 1718014500000).
  - reflexivity.
  - unfold runs, plainYear. repeat split; try lia; reflexivity.
Defined.

(** X5.  [createAppointment] keeps the collection in order: when ids are
    unique, every appointment is stored in the canonical form and no two
    overlap, the same holds after a create that wrote an appointment within
    the years 0000 to 9999. *)
Theorem create_keeps_bookings_apart (host : Host) (body : CreateBody)
    (c c' : Collection) (a : Appointment) (s e : Z) :
  wellKept c ->
  createAppointment host body c = (Ok a, c') ->
  runs a s e ->
  wellKept c'.
Proof.
  intros (ND & CA & AP) H R. destruct (create_written host body c c' a H)
    as (nm & ph & sv & st & s0 & bounds & B & V & Ve & _ & _ & X & Ea & ->).
  subst a.
  assert (Fresh : forall b, In b c -> _id b <> _id (newDoc c nm ph sv s0)).
  { intros b I. pose proof (freshId_above c b I) as L.
    cbn [newDoc _id]. lia. }
  destruct (runs_newDoc c nm ph sv s0 s e V Ve R) as [-> ->].
  assert (Free : forall b sb eb, In b c -> runs b sb eb ->
                                 ~ (sb < endOf s0 sv /\ s0 < eb)).
  { intros b sb eb I Rb. pose proof (exists_false _ c b X I) as O.
    pose proof R as (Ps & Pe & _ & _).
    rewrite (overlapFilter_runs b sb eb s0 (endOf s0 sv) Rb Ps Pe) in O.
    apply andb_false_iff in O. rewrite !Z.ltb_ge in O. lia. }
  split; [ | split].
  - rewrite map_app. cbn [map]. apply NoDup_snoc; [exact ND | ].
    intros I. apply in_map_iff in I. destruct I as (b & Eb & I).
    apply (Fresh b I Eb).
  - intros b I. apply in_app_or in I. destruct I as [I | [<- | []]].
    + apply CA, I.
    + exists s0, (endOf s0 sv). exact R.
  - intros b1 b2 s1 e1 s2 e2 I1 I2 N R1 R2.
    apply in_app_or in I1. apply in_app_or in I2.
    destruct I1 as [I1 | [<- | []]]; destruct I2 as [I2 | [<- | []]].
    + apply (AP b1 b2 s1 e1 s2 e2); assumption.
    + destruct (runs_newDoc c nm ph sv s0 s2 e2 V Ve R2) as [-> ->].
      pose proof (Free b1 s1 e1 I1 R1). lia.
    + destruct (runs_newDoc c nm ph sv s0 s1 e1 V Ve R1) as [-> ->].
      pose proof (Free b2 s2 e2 I2 R2). lia.
    + exfalso. apply N. reflexivity.
Qed.

Lemma wellKept_monday : wellKept [Examples.mondayTreatment].
Proof.
  split; [ | split].
  - repeat constructor. intros [].
  - exact canonical_monday.
  - intros a b sa ea sb eb [<- | []] [<- | []] N. exfalso. apply N.
    reflexivity.
Qed.

Lemma create_keeps_bookings_apart_witness :
  wellKept
    [Examples.mondayTreatment;
     {| _id := 2%nat; name := "Anna"; phoneNumber := "+37410000000";
        service := consultation; start := "2024-06-10T10:00:00.000Z";
        end_ := "2024-06-10T10:15:00.000Z" |}].
Proof.
  apply (create_keeps_bookings_apart utcHost
           (Examples.booking consultation "2024-06-10T10:00:00.000Z")
           [Examples.mondayTreatment] _
           {| _id := 2%nat; name := "Anna"; phoneNumber := "+37410000000";
              service := consultation; start := "2024-06-10T10:00:00.000Z";
              end_ := "2024-06-10T10:15:00.000Z" |}
           1718013600000 1718014500000).
  - exact wellKept_monday.
  - reflexivity.
  - unfold runs, plainYear. repeat split; try lia; reflexivity.
Defined.

Section UpdateApart.

Variable host : Host.

(** Setting the interval of one appointment to one that meets no other
    keeps the collection in order. *)
Lemma updated_apart (id : ObjectId) (u' : UpdateData) (c : Collection)
    (old : Appointment) (s e : Z) :
  wellKept c ->
  findById id c = Some old ->
  runs (applySet u' old) s e ->
  (forall b sb eb, In b c -> _id b <> id -> runs b sb eb ->
                   ~ (sb < e /\ s < eb)) ->
  wellKept (updateById id u' c).
Proof.
  intros (ND & CA & AP) F R Free.
  assert (Which : forall b, In b (updateById id u' c) ->
                            (In b c /\ _id b <> id) \/ b = applySet u' old).
  { intros b I. destruct (updateById_In id u' c b ND I)
      as [H | (old' & F' & Eb)]; [left; exact H | right].
    rewrite F in F'. injection F' as <-. exact Eb. }
  assert (Id : _id (applySet u' old) = id).
  { cbn [applySet _id]. apply (findById_In id c old F). }
  assert (Same : forall x y, runs (applySet u' old) x y -> x = s /\ y = e).
  { intros x y (Px & Py & Ex & Ey). destruct R as (Ps & Pe & Es & Ee).
    split; apply isoString_inj;
      try (apply plainYear_valid; assumption); congruence. }
  split; [ | split].
  - rewrite updateById_ids. exact ND.
  - intros b I. destruct (Which b I) as [[I' _] | ->].
    + apply CA, I'.
    + exists s, e. exact R.
  - intros b1 b2 s1 e1 s2 e2 I1 I2 N R1 R2.
    destruct (Which b1 I1) as [[J1 N1] | ->];
      destruct (Which b2 I2) as [[J2 N2] | ->].
    + apply (AP b1 b2 s1 e1 s2 e2); assumption.
    + destruct (Same s2 e2 R2) as [-> ->].
      pose proof (Free b1 s1 e1 J1 N1 R1). lia.
    + destruct (Same s1 e1 R1) as [-> ->].
      pose proof (Free b2 s2 e2 J2 N2 R2). lia.
    + exfalso. apply N. reflexivity.
Qed.

End UpdateApart.

(** X6.  [updateAppointment] keeps the collection in order as well,
    provided the appointment it wrote is in the canonical form within the
    years 0000 to 9999 (the new start was sent as the ISO string of its
    instant) and an update that sends no start sends no end either: ids
    stay unique, every appointment is stored in the canonical form and no
    two overlap. *)
Theorem update_keeps_bookings_apart (host : Host) (id : ObjectId)
    (u : UpdateData) (c c' : Collection) (a : Appointment) (s e : Z) :
  wellKept c ->
  updateAppointment host id u c = (Ok a, c') ->
  (ud_start u = None -> ud_end u = None) ->
  runs a s e ->
  wellKept c'.
Proof.
  intros WK H NoEnd R.
  destruct (findById id c) as [old | ] eqn:F.
  2:{ unfold updateAppointment, bind, query in H. rewrite F in H.
      discriminate. }
  destruct (findById_In id c old F) as [Iold Eid].
  destruct (ud_start u) as [st | ] eqn:E.
  2:{ rewrite (update_without_start host id u c old F E) in H.
      destruct (validUpdate u); [ | discriminate]. injection H as <- <-.
      apply (updated_apart id u c old s e WK F R).
      intros b sb eb I N Rb.
      destruct WK as (_ & _ & AP).
      apply (AP b old sb eb s e I Iold); [congruence | exact Rb | ].
      destruct R as (Ps & Pe & Es & Ee).
      cbn [applySet start end_] in Es, Ee.
      rewrite E in Es. rewrite (NoEnd eq_refl) in Ee. cbn [orElse] in Es, Ee.
      exact (conj Ps (conj Pe (conj Es Ee))). }
  destruct (string_dec st EmptyString) as [-> | N].
  { unfold updateAppointment, bind, query, ret, findByIdAndUpdate in H.
    rewrite F, E in H. cbn [falsy] in H.
    replace (validUpdate u) with false in H; [discriminate | ].
    unfold validUpdate. rewrite E. cbn [requiredOk].
    rewrite andb_false_r. reflexivity. }
  destruct (Date_parse host st) as [s0 | ] eqn:P.
  2:{ unfold updateAppointment, bind, query, revalidate in H.
      rewrite F, E, falsy_nonempty, P in H by exact N. discriminate. }
  assert (B : restartingUpdate host id u c old st s0)
    by (repeat split; assumption).
  rewrite (updateAppointment_restarting host id u c old st s0 B) in H.
  destruct (dayBounds host s0 _) as [bounds | x]; [ | discriminate].
  destruct (outsideWorkingHours _ _ _); [discriminate | ].
  destruct (toISOString _) as [endIso | x] eqn:T; [ | discriminate].
  apply toISOString_Ok in T. destruct T as [Ve ->].
  destruct (exists_ _ c) eqn:X; [discriminate | ].
  destruct (validUpdate _); [ | discriminate]. injection H as <- <-.
  apply (updated_apart id _ c old s e WK F R).
  intros b sb eb I Nb Rb.
  pose proof (exists_false _ c b X I) as O. cbn beta in O.
  replace (negb (Nat.eqb (_id b) id)) with true in O.
  2:{ symmetry. apply negb_true_iff, Nat.eqb_neq. exact Nb. }
  cbn [andb] in O.
  pose proof R as (Ps & Pe & Es & Ee).
  cbn [applySet withEnd start end_ ud_start ud_end orElse] in Es, Ee.
  rewrite E in Es. cbn [orElse] in Es. subst st.
  assert (s0 = s).
  { rewrite Date_parse_isoString in P by (apply plainYear_valid; exact Ps).
    congruence. }
  subst s0.
  assert (e = endOf s (orElse (ud_service u) (service old))).
  { apply isoString_inj;
      [apply plainYear_valid; exact Pe | exact Ve | congruence]. }
  subst e.
  rewrite (overlapFilter_runs b sb eb s _ Rb Ps Pe) in O.
  apply andb_false_iff in O. rewrite !Z.ltb_ge in O. lia.
Qed.

Lemma runs_same (a : Appointment) (s e s' e' : Z) :
  runs a s e -> runs a s' e' -> s' = s /\ e' = e.
Proof.
  intros (Ps & Pe & Es & Ee) (Ps' & Pe' & Es' & Ee').
  split; apply isoString_inj;
    try (apply plainYear_valid; assumption); congruence.
Qed.

(** Two appointments of Monday 10 June 2024: a treatment from 09:00 to
    09:45 and a consultation from 11:00 to 11:15. *)
Lemma wellKept_two :
  wellKept
    [Examples.mondayTreatment;
     Examples.stored 2%nat consultation "2024-06-10T11:00:00.000Z"
       "2024-06-10T11:15:00.000Z"].
Proof.
  assert (R1 : runs Examples.mondayTreatment 1718010000000 1718012700000)
    by (unfold runs, plainYear; repeat split; try lia; reflexivity).
  assert (R2 : runs (Examples.stored 2%nat consultation
                       "2024-06-10T11:00:00.000Z" "2024-06-10T11:15:00.000Z")
                 1718017200000 1718018100000)
    by (unfold runs, plainYear; repeat split; try lia; reflexivity).
  split; [ | split].
  - constructor; [intros [H | []]; discriminate | ].
    constructor; [intros [] | constructor].
  - intros a [<- | [<- | []]]; eauto.
  - intros a b sa ea sb eb [<- | [<- | []]] [<- | [<- | []]] N Ra Rb;
      try (exfalso; apply N; reflexivity).
    + destruct (runs_same _ _ _ _ _ R1 Ra) as [-> ->].
      destruct (runs_same _ _ _ _ _ R2 Rb) as [-> ->]. lia.
    + destruct (runs_same _ _ _ _ _ R2 Ra) as [-> ->].
      destruct (runs_same _ _ _ _ _ R1 Rb) as [-> ->]. lia.
Qed.

Lemma update_keeps_bookings_apart_witness :
  wellKept
    [Examples.stored 1%nat treatment "2024-06-10T10:00:00.000Z"
       "2024-06-10T10:45:00.000Z";
     Examples.stored 2%nat consultation "2024-06-10T11:00:00.000Z"
       "2024-06-10T11:15:00.000Z"].
Proof.
  apply (update_keeps_bookings_apart utcHost 1%nat
           (Examples.restart "2024-06-10T10:00:00.000Z")
           [Examples.mondayTreatment;
            Examples.stored 2%nat consultation "2024-06-10T11:00:00.000Z"
              "2024-06-10T11:15:00.000Z"] _
           (Examples.stored 1%nat treatment "2024-06-10T10:00:00.000Z"
              "2024-06-10T10:45:00.000Z")
           1718013600000 1718016300000).
  - exact wellKept_two.
  - reflexivity.
  - discriminate.
  - unfold runs, plainYear. repeat split; try lia; reflexivity.
Defined.

(** ** The listing *)

Module SortLaws.

Lemma ascii_compare_trans (a b c : ascii) :
  Ascii.compare a b = Lt -> Ascii.compare b c = Lt -> Ascii.compare a c = Lt.
Proof.
  unfold Ascii.compare. rewrite !N.compare_lt_iff. lia.
Qed.

Lemma compare_trans (x : string) : forall y z,
  String.compare x y = Lt -> String.compare y z = Lt ->
  String.compare x z = Lt.
Proof.
  induction x as [ | a x IH]; intros [ | b y] [ | c z]; cbn [String.compare];
    try discriminate; try reflexivity.
  destruct (Ascii.compare a b) eqn:AB; try discriminate;
    destruct (Ascii.compare b c) eqn:BC; try discriminate.
  - apply Ascii.compare_eq_iff in AB, BC. subst. rewrite ascii_compare_refl.
    apply IH.
  - apply Ascii.compare_eq_iff in AB. subst. rewrite BC. reflexivity.
  - apply Ascii.compare_eq_iff in BC. subst. rewrite AB. reflexivity.
  - rewrite (ascii_compare_trans a b c AB BC). reflexivity.
Qed.

Lemma str_lt_asym (x y : string) : str_lt x y = true -> str_lt y x = false.
Proof.
  unfold str_lt, String.ltb. rewrite (String.compare_antisym x y).
  destruct (String.compare y x); cbn; congruence.
Qed.

Lemma notBefore_trans (a b c : Appointment) :
  notBefore a b -> notBefore b c -> notBefore a c.
Proof.
  unfold notBefore, str_lt, String.ltb. intros AB BC.
  destruct (String.compare (start a) (start c)) eqn:AC; try reflexivity.
  exfalso.
  destruct (String.compare (start a) (start b)) eqn:E; try discriminate.
  - apply String.compare_eq_iff in E. rewrite E in AC. rewrite AC in BC.
    discriminate.
  - assert (BA : String.compare (start b) (start a) = Lt).
    { rewrite String.compare_antisym, E. reflexivity. }
    rewrite (compare_trans _ _ _ BA AC) in BC. discriminate.
Qed.

Lemma insertByStartDesc_perm (a : Appointment) (l : list Appointment) :
  Permutation (a :: l) (insertByStartDesc a l).
Proof.
  induction l as [ | b r IH]; [apply Permutation_refl | ].
  cbn [insertByStartDesc]. destruct (str_lt (start a) (start b)).
  - apply perm_trans with (b :: a :: r); [apply perm_swap | ].
    apply perm_skip. exact IH.
  - apply Permutation_refl.
Qed.

Lemma sortByStartDesc_perm (l : list Appointment) :
  Permutation l (sortByStartDesc l).
Proof.
  induction l as [ | a l IH]; [apply perm_nil | ].
  cbn [sortByStartDesc fold_right].
  apply perm_trans with (a :: sortByStartDesc l);
    [apply perm_skip; exact IH | apply insertByStartDesc_perm].
Qed.

Lemma insertByStartDesc_sorted (a : Appointment) (l : list Appointment) :
  StronglySorted notBefore l ->
  StronglySorted notBefore (insertByStartDesc a l).
Proof.
  induction l as [ | b r IH]; intros S.
  - repeat constructor.
  - inversion S as [ | x y Sr Fr]. subst. cbn [insertByStartDesc].
    destruct (str_lt (start a) (start b)) eqn:E.
    + constructor; [apply IH; exact Sr | ].
      apply (Permutation_Forall (insertByStartDesc_perm a r)).
      constructor; [ | exact Fr]. apply str_lt_asym. exact E.
    + constructor; [exact S | ]. constructor; [exact E | ].
      rewrite Forall_forall in Fr. apply Forall_forall. intros x I.
      apply (notBefore_trans a b x E (Fr x I)).
Qed.

Lemma sortByStartDesc_sorted (l : list Appointment) :
  StronglySorted notBefore (sortByStartDesc l).
Proof.
  induction l as [ | a l IH]; [constructor | ].
  apply insertByStartDesc_sorted. exact IH.
Qed.

Lemma find_all (c : Collection) : find (fun _ => true) c = c.
Proof.
  unfold find. induction c as [ | a c IH]; [reflexivity | ].
  cbn [filter]. rewrite IH. reflexivity.
Qed.

Lemma sorted_positions (l : list Appointment) :
  StronglySorted notBefore l ->
  forall i j a b,
    (i < j)%nat -> nth_error l i = Some a -> nth_error l j = Some b ->
    notBefore a b.
Proof.
  induction 1 as [ | x l S IH F]; intros i j a b L A B.
  - destruct i; discriminate.
  - destruct j as [ | j]; [lia | ]. cbn [nth_error] in B.
    destruct i as [ | i].
    + cbn [nth_error] in A. injection A as <-.
      rewrite Forall_forall in F. apply F. apply (nth_error_In l j B).
    + cbn [nth_error] in A. apply (IH i j a b); [lia | exact A | exact B].
Qed.

End SortLaws.

Import SortLaws.

(** X7.  [getAllAppointments] answers with every stored appointment, each
    once, and none of them before one with a greater [start] string; the
    collection is left as it was.  Of two appointments stored in the
    canonical form the one that starts later comes first. *)
Theorem all_appointments_latest_first (c : Collection) :
  exists l,
    getAllAppointments c = (Ok l, c)
    /\ Permutation c l
    /\ StronglySorted notBefore l
    /\ (forall i j a b sa ea sb eb,
           (i < j)%nat -> nth_error l i = Some a -> nth_error l j = Some b ->
           runs a sa ea -> runs b sb eb -> sb <= sa).
Proof.
  exists (sortByStartDesc c). unfold getAllAppointments, query.
  rewrite find_all. split; [reflexivity | ].
  split; [apply sortByStartDesc_perm | ].
  split; [apply sortByStartDesc_sorted | ].
  intros i j a b sa ea sb eb L A B (Pa & _ & Ea & _) (Pb & _ & Eb & _).
  pose proof (sorted_positions _ (sortByStartDesc_sorted c) i j a b L A B)
    as NB.
  unfold notBefore in NB. rewrite Ea, Eb in NB.
  rewrite isoString_ltb in NB by assumption.
  apply Z.ltb_ge in NB. exact NB.
Qed.

Lemma all_appointments_latest_first_witness :
  exists l,
    getAllAppointments
      [Examples.mondayTreatment;
       Examples.stored 2%nat consultation "2024-06-15T12:30:00.000Z"
         "2024-06-15T12:45:00.000Z"]
    = (Ok l,
       [Examples.mondayTreatment;
        Examples.stored 2%nat consultation "2024-06-15T12:30:00.000Z"
          "2024-06-15T12:45:00.000Z"])
    /\ nth_error l 0 = Some (Examples.stored 2%nat consultation
                               "2024-06-15T12:30:00.000Z"
                               "2024-06-15T12:45:00.000Z")
    /\ 1718010000000 <= 1718454600000.
Proof.
  destruct (all_appointments_latest_first
              [Examples.mondayTreatment;
               Examples.stored 2%nat consultation "2024-06-15T12:30:00.000Z"
                 "2024-06-15T12:45:00.000Z"]) as (l & E & _ & _ & O).
  exists l. split; [exact E | ].
  injection E as <-.
  split; [reflexivity | ].
  apply (O 0%nat 1%nat
           (Examples.stored 2%nat consultation "2024-06-15T12:30:00.000Z"
              "2024-06-15T12:45:00.000Z")
           Examples.mondayTreatment
           1718454600000 1718455500000 1718010000000 1718012700000).
  - lia.
  - reflexivity.
  - reflexivity.
  - unfold runs, plainYear. repeat split; try lia; reflexivity.
  - unfold runs, plainYear. repeat split; try lia; reflexivity.
Defined.

(** ** The answer to an availability query *)

Section OfferLaws.

Variable host : Host.

Lemma window_bounds (date eff : Z) :
  dayStartOf host date eff = localMidnight date (eff * 60000) + 9 * 60 * 60000
  /\ (dayEndOf host date eff
      = localMidnight date (eff * 60000) + 13 * 60 * 60000
      \/ dayEndOf host date eff
         = localMidnight date (eff * 60000) + 18 * 60 * 60000).
Proof.
  unfold dayStartOf, dayEndOf.
  destruct (getWorkingHours_cases host date (Some eff)) as [E | E];
    rewrite E; cbn [startHour endHour]; auto.
Qed.

Lemma candidateStarts_In (date eff minutes t : Z) :
  In t (candidateStarts host date eff minutes)
  <-> candidateStart (dayStartOf host date eff) (dayEndOf host date eff)
        minutes t.
Proof. apply candidateStart_slotTimes. Qed.

(** A candidate start lies within the working hours of the local day. *)
Lemma candidate_in_day (date eff minutes t : Z) :
  candidateStart (dayStartOf host date eff) (dayEndOf host date eff)
    minutes t ->
  let midnight := localMidnight date (eff * 60000) in
  midnight + 9 * 60 * 60000 <= t
  /\ t + minutes * 60000 <= midnight + 18 * 60 * 60000
  /\ (t - midnight) mod (15 * 60000) = 0.
Proof.
  intros (k & K & E & Fit) midnight.
  destruct (window_bounds date eff) as [Ws We]. fold midnight in Ws, We.
  rewrite Ws in E. split; [lia | ]. split; [lia | ].
  subst t.
  replace (midnight + 9 * 60 * 60000 + k * (15 * 60000) - midnight)
    with ((36 + k) * (15 * 60000)) by lia.
  apply Z.mod_mul. lia.
Qed.

Lemma candidate_shorter (date eff minutes t : Z) :
  15 <= minutes ->
  candidateStart (dayStartOf host date eff) (dayEndOf host date eff)
    minutes t ->
  candidateStart (dayStartOf host date eff) (dayEndOf host date eff) 15 t.
Proof.
  intros L (k & K & E & Fit). exists k. split; [exact K | ].
  split; [exact E | lia].
Qed.

Lemma queryDuration_range (service : option ServiceKey) :
  15 <= queryDuration service <= 45.
Proof.
  destruct (queryDuration_cases service) as [[E _] | [E _]]; rewrite E; lia.
Qed.

(** The result of a query whose day can be handled, in terms of the
    candidate starts of the day. *)
Lemma query_result (fuel : nat) (now : Z) (dateStr : string)
    (service : option ServiceKey) (tz : option Z) (c : Collection) (date : Z) :
  dateStr <> EmptyString ->
  Date_parse host (dateStr ++ "T00:00:00.000Z") = Some date ->
  let eff := orElse tz 0 in
  let offsetMs := eff * 60000 in
  let busy := markBusy host (map isoString (candidateStarts host date eff 15))
                (map (fun a => (start a, end_ a))
                   (fetchedFor (localMidnight date offsetMs) c)) in
  let available :=
    filter (chunksFreeb host busy
              (Z.to_nat (Z.max 1 (ceilDiv (queryDuration service) 15))))
      (map isoString (candidateStarts host date eff (queryDuration service))) in
  dayRepresentable date offsetMs ->
  validTime (now + offsetMs) ->
  (36 < fuel)%nat ->
  getAvailabilityForDate host fuel now dateStr service tz c
  = Some (Ok {| availableSlots :=
                  if (dateStr =? beforeT (isoString (now + offsetMs)))%string
                  then filter
                         (fun iso => num_lt (Some now) (Date_parse host iso))
                         available
                  else available;
                busySlots := busy;
                workingSlots :=
                  map isoString (candidateStarts host date eff 15) |}).
Proof.
  intros N P eff offsetMs busy available R Vn F.
  apply (availability_result host fuel now dateStr service tz c date
           N P R Vn F).
Qed.

(** Whether the chunks from a candidate start are free. *)
Lemma free_chunks (date eff d : Z) (fetched : list Appointment) (t : Z) :
  let busy := markBusy host (map isoString (candidateStarts host date eff 15))
                (map (fun a => (start a, end_ a)) fetched) in
  let chunks := Z.max 1 (ceilDiv d 15) in
  dayRepresentable date (eff * 60000) ->
  (d = 15 \/ d = 45) ->
  candidateStart (dayStartOf host date eff) (dayEndOf host date eff) d t ->
  (chunksFreeb host busy (Z.to_nat chunks) (isoString t) = true
   <-> forall i, 0 <= i < chunks ->
                 ~ busyAt host fetched (t + i * 15 * 60000)).
Proof.
  intros busy chunks (V & Vm & Ve) Dq Ct.
  unfold validTime in Vm, Ve.
  assert (Dc : (d = 15 /\ chunks = 1) \/ (d = 45 /\ chunks = 3)).
  { unfold chunks. destruct Dq as [-> | ->]; [left | right];
      split; reflexivity. }
  assert (Vg : forall u, In u (candidateStarts host date eff 15) ->
                         validTime u).
  { intros u I. apply candidateStarts_In, candidate_in_day in I.
    unfold validTime. lia. }
  pose proof (candidate_in_day date eff d t Ct) as (Lo & Hi & _).
  pose proof Ct as (k & K & Et & Fit).
  assert (Vt : validTime t) by (unfold validTime; lia).
  unfold chunksFreeb. rewrite Date_parse_isoString by exact Vt.
  rewrite forallb_forall. split.
  - intros H i Hi' B.
    specialize (H (Z.to_nat i)).
    rewrite in_seq, Z2Nat.id, negb_true_iff in H by lia.
    specialize (H ltac:(lia)).
    assert (I : In (isoString (t + (0 + i) * 15 * 60000)) busy).
    { apply busy_grid_point; [exact Vg | unfold validTime; lia | ].
      split.
      - apply candidateStarts_In. exists (k + i).
        split; [lia | ]. split; lia.
      - replace (t + (0 + i) * 15 * 60000) with (t + i * 15 * 60000) by lia.
        exact B. }
    apply set_has_In in I. congruence.
  - intros H j Hj. apply in_seq in Hj. apply negb_true_iff.
    destruct (set_has busy _) eqn:S; [ | reflexivity]. exfalso.
    apply set_has_In in S.
    apply busy_grid_point in S; [ | exact Vg | unfold validTime; lia].
    apply (H (Z.of_nat j)); [lia | ].
    replace (t + Z.of_nat j * 15 * 60000)
      with (t + (0 + Z.of_nat j) * 15 * 60000) by lia.
    apply S.
Qed.

Lemma queryDuration_two (service : option ServiceKey) :
  queryDuration service = 15 \/ queryDuration service = 45.
Proof.
  destruct (queryDuration_cases service) as [[E _] | [E _]]; auto.
Qed.

(** What an entry of [availableSlots] is. *)
Lemma offered (now : Z) (dateStr : string) (service : option ServiceKey)
    (date eff : Z) (fetched : list Appointment) (x : string) :
  let d := queryDuration service in
  let busy := markBusy host (map isoString (candidateStarts host date eff 15))
                (map (fun a => (start a, end_ a)) fetched) in
  let available :=
    filter (chunksFreeb host busy (Z.to_nat (Z.max 1 (ceilDiv d 15))))
      (map isoString (candidateStarts host date eff d)) in
  dayRepresentable date (eff * 60000) ->
  In x (if (dateStr =? beforeT (isoString (now + eff * 60000)))%string
        then filter (fun iso => num_lt (Some now) (Date_parse host iso))
               available
        else available) ->
  exists t,
    x = isoString t /\ validTime t
    /\ candidateStart (dayStartOf host date eff) (dayEndOf host date eff) d t
    /\ forall i, 0 <= i < Z.max 1 (ceilDiv d 15) ->
                 ~ busyAt host fetched (t + i * 15 * 60000).
Proof.
  intros d busy available R I.
  assert (I' : In x available)
    by (destruct (dateStr =? _)%string;
        [apply filter_In in I; apply I | exact I]).
  unfold available in I'. apply filter_In in I'. destruct I' as [I' Fr].
  apply in_map_iff in I'. destruct I' as (t & <- & It).
  apply candidateStarts_In in It.
  exists t. split; [reflexivity | ].
  pose proof (candidate_in_day date eff d t It) as (Lo & Hi & _).
  pose proof (queryDuration_range service) as Dq. fold d in Dq.
  pose proof R as (V & Vm & Ve). unfold validTime in Vm, Ve.
  split; [unfold validTime; lia | ]. split; [exact It | ].
  apply (free_chunks date eff d fetched t R (queryDuration_two service) It).
  exact Fr.
Qed.

End OfferLaws.

Module ListLaws.

Lemma slotTimes_NoDup (n : nat) (t0 stepMs : Z) :
  0 < stepMs -> NoDup (slotTimes n t0 stepMs).
Proof.
  intros S. unfold slotTimes. apply NoDup_map_NoDup_ForallPairs.
  - intros i j _ _ E. nia.
  - apply seq_NoDup.
Qed.

Lemma isoString_NoDup (l : list Z) :
  (forall u, In u l -> validTime u) -> NoDup l -> NoDup (map isoString l).
Proof.
  intros V ND. apply NoDup_map_NoDup_ForallPairs; [ | exact ND].
  intros u v Iu Iv E. apply isoString_inj; auto.
Qed.

Lemma set_add_NoDup (s : list string) (x : string) :
  NoDup s -> NoDup (set_add s x).
Proof.
  intros ND. unfold set_add. destruct (set_has s x) eqn:E; [exact ND | ].
  apply (Permutation_NoDup (Permutation_cons_append s x)).
  constructor; [ | exact ND]. intros I. apply set_has_In in I. congruence.
Qed.

Lemma fold_left_keeps {A B : Type} (P : A -> Prop) (f : A -> B -> A)
    (l : list B) :
  (forall a b, P a -> P (f a b)) -> forall a, P a -> P (fold_left f l a).
Proof.
  intros H. induction l as [ | b l IH]; intros a Pa; [exact Pa | ].
  cbn [fold_left]. apply IH, H, Pa.
Qed.

Lemma markBusy_NoDup (host : Host) (slots : list string)
    (intervals : list (string * string)) :
  NoDup (markBusy host slots intervals).
Proof.
  unfold markBusy. apply fold_left_keeps; [ | constructor].
  intros busy interval ND. apply fold_left_keeps; [ | exact ND].
  intros busy' slot ND'.
  destruct (num_le _ _ && num_lt _ _); [apply set_add_NoDup | ]; exact ND'.
Qed.

End ListLaws.

Import ListLaws.

(** X8.  In the answer to an availability query every offered start is one
    of the working slots and is not itself busy, every busy slot is a
    working slot, and none of the three lists names a slot twice. *)
Theorem offered_slots_are_free_working_slots (host : Host) (fuel : nat)
    (now : Z) (dateStr : string) (service : option ServiceKey)
    (tz : option Z) (c : Collection) (date : Z) :
  dateStr <> EmptyString ->
  Date_parse host (dateStr ++ "T00:00:00.000Z") = Some date ->
  dayRepresentable date (orElse tz 0 * 60000) ->
  validTime (now + orElse tz 0 * 60000) ->
  (36 < fuel)%nat ->
  exists r,
    getAvailabilityForDate host fuel now dateStr service tz c = Some (Ok r)
    /\ (forall x, In x (availableSlots r) ->
                  In x (workingSlots r) /\ ~ In x (busySlots r))
    /\ (forall x, In x (busySlots r) -> In x (workingSlots r))
    /\ NoDup (workingSlots r) /\ NoDup (availableSlots r)
    /\ NoDup (busySlots r).
Proof.
  intros N P R Vn F.
  pose proof (query_result host fuel now dateStr service tz c date
                N P R Vn F) as A.
  cbv zeta in A. eexists. split; [exact A | ].
  cbn [availableSlots busySlots workingSlots].
  set (eff := orElse tz 0) in *.
  set (d := queryDuration service) in *.
  pose proof (queryDuration_range service) as Dq. fold d in Dq.
  pose proof R as (V & Vm & Ve). unfold validTime in Vm, Ve.
  assert (Vc : forall m u, 15 <= m ->
                           In u (candidateStarts host date eff m) ->
                           validTime u).
  { intros m u Hm I. apply candidateStarts_In, candidate_in_day in I.
    unfold validTime. lia. }
  assert (NDc : forall m, 15 <= m ->
                          NoDup (map isoString
                                   (candidateStarts host date eff m))).
  { intros m Hm. apply isoString_NoDup; [intros u; apply Vc; exact Hm | ].
    apply slotTimes_NoDup. lia. }
  split; [ | split; [ | split; [ | split]]].
  - intros x I.
    destruct (offered host now dateStr service date eff
                (fetchedFor (localMidnight date (eff * 60000)) c) x R I)
      as (t & -> & Vt & Ct & Free).
    fold d in Ct, Free. split.
    + apply in_map, candidateStarts_In, candidate_shorter with (minutes := d);
        [lia | exact Ct].
    + intros B. apply (Free 0); [lia | ].
      apply busy_grid_point in B; [ | intros u; apply Vc; lia | exact Vt].
      replace (t + 0 * 15 * 60000) with t by lia. apply B.
  - intros x I. apply markBusy_In in I. apply I.
  - apply NDc. lia.
  - destruct (dateStr =? _)%string; repeat apply NoDup_filter; apply NDc; lia.
  - apply markBusy_NoDup.
Qed.

Lemma offered_slots_are_free_working_slots_witness :
  exists r,
    getAvailabilityForDate utcHost 40 1717900000000 "2024-06-10"
      (Some consultation) None [Examples.mondayTreatment]
    = Some (Ok r)
    /\ (forall x, In x (availableSlots r) ->
                  In x (workingSlots r) /\ ~ In x (busySlots r))
    /\ (forall x, In x (busySlots r) -> In x (workingSlots r))
    /\ NoDup (workingSlots r) /\ NoDup (availableSlots r)
    /\ NoDup (busySlots r).
Proof.
  apply (offered_slots_are_free_working_slots utcHost 40 1717900000000
           "2024-06-10" (Some consultation) None [Examples.mondayTreatment]
           1717977600000).
  - discriminate.
  - reflexivity.
  - unfold dayRepresentable, validTime. vm_compute.
    repeat split; discriminate.
  - unfold validTime. vm_compute. split; discriminate.
  - lia.
Defined.

Section ShrinkLaws.

Variable host : Host.

Lemma chunksFreeb_fewer (busy busy' : list string) (n : nat) (x : string) :
  (forall y, In y busy -> In y busy') ->
  chunksFreeb host busy' n x = true -> chunksFreeb host busy n x = true.
Proof.
  intros Sub. unfold chunksFreeb.
  destruct (Date_parse host x) as [t | ]; [ | discriminate].
  rewrite !forallb_forall. intros H j Ij. specialize (H j Ij).
  apply negb_true_iff in H. apply negb_true_iff.
  destruct (set_has busy _) eqn:E; [ | reflexivity].
  apply set_has_In, Sub, set_has_In in E. congruence.
Qed.

Lemma markBusy_more (slots : list string)
    (intervals intervals' : list (string * string)) (x : string) :
  (forall i, In i intervals -> In i intervals') ->
  In x (markBusy host slots intervals) -> In x (markBusy host slots intervals').
Proof.
  intros Sub I. apply markBusy_In in I. destruct I as (Ix & iv & Iiv & E).
  apply markBusy_In. split; [exact Ix | ]. exists iv. split; [ | exact E].
  apply Sub, Iiv.
Qed.

End ShrinkLaws.

(** X9.  More bookings never make more room: when every appointment of
    one collection is in another, a query on the larger collection has the
    same working slots, at least the busy slots and at most the offered
    starts of the same query on the smaller one.  (So a create can only
    take starts away, and a delete can only give starts back.) *)
Theorem availability_shrinks_with_bookings (host : Host) (fuel : nat)
    (now : Z) (dateStr : string) (service : option ServiceKey)
    (tz : option Z) (c c' : Collection) (date : Z) :
  dateStr <> EmptyString ->
  Date_parse host (dateStr ++ "T00:00:00.000Z") = Some date ->
  dayRepresentable date (orElse tz 0 * 60000) ->
  validTime (now + orElse tz 0 * 60000) ->
  (36 < fuel)%nat ->
  (forall a, In a c -> In a c') ->
  exists r r',
    getAvailabilityForDate host fuel now dateStr service tz c = Some (Ok r)
    /\ getAvailabilityForDate host fuel now dateStr service tz c'
       = Some (Ok r')
    /\ workingSlots r' = workingSlots r
    /\ (forall x, In x (busySlots r) -> In x (busySlots r'))
    /\ (forall x, In x (availableSlots r') -> In x (availableSlots r)).
Proof.
  intros N P R Vn F Sub.
  pose proof (query_result host fuel now dateStr service tz c date
                N P R Vn F) as A.
  pose proof (query_result host fuel now dateStr service tz c' date
                N P R Vn F) as A'.
  cbv zeta in A, A'.
  set (slots := map isoString (candidateStarts host date (orElse tz 0) 15))
    in *.
  set (busy := markBusy host slots
                 (map (fun a => (start a, end_ a))
                    (fetchedFor (localMidnight date (orElse tz 0 * 60000))
                       c))) in *.
  set (busy' := markBusy host slots
                  (map (fun a => (start a, end_ a))
                     (fetchedFor (localMidnight date (orElse tz 0 * 60000))
                        c'))) in *.
  set (n := Z.to_nat (Z.max 1 (ceilDiv (queryDuration service) 15))) in *.
  eexists. eexists.
  split; [exact A | ]. split; [exact A' | ].
  cbn [availableSlots busySlots workingSlots].
  split; [reflexivity | ].
  assert (B : forall x, In x busy -> In x busy').
  { intros x. apply markBusy_more. intros i I.
    apply in_map_iff in I. destruct I as (a & <- & I).
    apply in_map_iff. exists a. split; [reflexivity | ].
    unfold fetchedFor, find in *.
    apply filter_In in I. apply filter_In. split; [apply Sub | ]; apply I. }
  split; [exact B | ].
  intros x I.
  assert (Keep : forall l,
             In x (filter (chunksFreeb host busy' n) l) ->
             In x (filter (chunksFreeb host busy n) l)).
  { intros l H. apply filter_In in H. apply filter_In.
    split; [apply H | ].
    apply (chunksFreeb_fewer host busy busy' n x B), H. }
  destruct (dateStr =? _)%string.
  - apply filter_In in I. apply filter_In. split; [ | apply I].
    apply Keep, I.
  - apply Keep, I.
Qed.

Lemma availability_shrinks_with_bookings_witness :
  exists r r',
    getAvailabilityForDate utcHost 40 1717900000000 "2024-06-10"
      (Some consultation) None [] = Some (Ok r)
    /\ getAvailabilityForDate utcHost 40 1717900000000 "2024-06-10"
         (Some consultation) None [Examples.mondayTreatment] = Some (Ok r')
    /\ workingSlots r' = workingSlots r
    /\ (forall x, In x (busySlots r) -> In x (busySlots r'))
    /\ (forall x, In x (availableSlots r') -> In x (availableSlots r)).
Proof.
  apply (availability_shrinks_with_bookings utcHost 40 1717900000000
           "2024-06-10" (Some consultation) None [] [Examples.mondayTreatment]
           1717977600000).
  - discriminate.
  - reflexivity.
  - unfold dayRepresentable, validTime. vm_compute.
    repeat split; discriminate.
  - unfold validTime. vm_compute. split; discriminate.
  - lia.
  - intros a [].
Defined.

(** X10.  With nothing stored nothing is busy and every candidate start of
    the day is offered: all of them on a day the code does not take for
    today, and on that day those after the current instant. *)
Theorem empty_store_offers_every_start (host : Host) (fuel : nat)
    (now : Z) (dateStr : string) (service : option ServiceKey)
    (tz : option Z) (date : Z) :
  dateStr <> EmptyString ->
  Date_parse host (dateStr ++ "T00:00:00.000Z") = Some date ->
  let eff := orElse tz 0 in
  let starts :=
    map isoString (candidateStarts host date eff (queryDuration service)) in
  dayRepresentable date (eff * 60000) ->
  validTime (now + eff * 60000) ->
  (36 < fuel)%nat ->
  exists r,
    getAvailabilityForDate host fuel now dateStr service tz [] = Some (Ok r)
    /\ busySlots r = []
    /\ workingSlots r = map isoString (candidateStarts host date eff 15)
    /\ availableSlots r
       = if (dateStr =? beforeT (isoString (now + eff * 60000)))%string
         then filter (fun iso => num_lt (Some now) (Date_parse host iso))
                starts
         else starts.
Proof.
  intros N P eff starts R Vn F.
  pose proof (query_result host fuel now dateStr service tz [] date
                N P R Vn F) as A.
  cbv zeta in A. fold eff in A. eexists. split; [exact A | ].
  cbn [availableSlots busySlots workingSlots fetchedFor find filter map].
  split; [reflexivity | ]. split; [reflexivity | ].
  assert (All : filter
                  (chunksFreeb host
                     (markBusy host
                        (map isoString (candidateStarts host date eff 15)) [])
                     (Z.to_nat
                        (Z.max 1 (ceilDiv (queryDuration service) 15))))
                  starts = starts).
  { apply forallb_filter_id. apply forallb_forall. intros x I.
    apply in_map_iff in I. destruct I as (t & <- & I).
    apply candidateStarts_In, candidate_in_day in I.
    pose proof (queryDuration_range service).
    destruct R as (_ & Vm & Ve). unfold validTime in Vm, Ve.
    unfold chunksFreeb.
    rewrite Date_parse_isoString by (unfold validTime; lia).
    apply forallb_forall. intros j _. reflexivity. }
  fold starts. rewrite All. reflexivity.
Qed.

Lemma empty_store_offers_every_start_witness :
  exists r,
    getAvailabilityForDate utcHost 40 1717900000000 "2024-06-15"
      (Some consultation) None [] = Some (Ok r)
    /\ busySlots r = []
    /\ workingSlots r
       = map isoString (candidateStarts utcHost 1718409600000 0 15)
    /\ availableSlots r
       = if ("2024-06-15" =? beforeT (isoString (1717900000000 + 0 * 60000)))%string
         then filter (fun iso => num_lt (Some 1717900000000)
                                   (Date_parse utcHost iso))
                (map isoString (candidateStarts utcHost 1718409600000 0 15))
         else map isoString (candidateStarts utcHost 1718409600000 0 15).
Proof.
  apply (empty_store_offers_every_start utcHost 40 1717900000000
           "2024-06-15" (Some consultation) None 1718409600000).
  - discriminate.
  - reflexivity.
  - unfold dayRepresentable, validTime. vm_compute.
    repeat split; discriminate.
  - unfold validTime. vm_compute. split; discriminate.
  - lia.
Defined.

Lemma plainDay_representable (date offsetMs : Z) :
  validTime (date - offsetMs) -> plainDay (localMidnight date offsetMs) ->
  dayRepresentable date offsetMs.
Proof.
  intros V (P1 & P2).
  split; [exact V | split; apply plainYear_valid; assumption].
Qed.

(** X11.  A start that has just been booked is not offered again: after a
    successful create no availability query on the new collection, for
    whatever date, service and offset (its local day within the years
    0000 to 9999), lists the start of the new appointment in
    [availableSlots]. *)
Theorem booked_start_is_not_offered_again (host : Host) (body : CreateBody)
    (c c' : Collection) (a : Appointment) (fuel : nat) (now : Z)
    (dateStr : string) (service : option ServiceKey) (tz : option Z)
    (date : Z) :
  createAppointment host body c = (Ok a, c') ->
  dateStr <> EmptyString ->
  Date_parse host (dateStr ++ "T00:00:00.000Z") = Some date ->
  validTime (date - orElse tz 0 * 60000) ->
  plainDay (localMidnight date (orElse tz 0 * 60000)) ->
  validTime (now + orElse tz 0 * 60000) ->
  (36 < fuel)%nat ->
  exists r,
    getAvailabilityForDate host fuel now dateStr service tz c' = Some (Ok r)
    /\ ~ In (start a) (availableSlots r).
Proof.
  intros H N P V PD Vn F.
  pose proof (plainDay_representable _ _ V PD) as R.
  destruct (create_written host body c c' a H)
    as (nm & ph & sv & st & s0 & bounds & _ & V0 & Ve & _ & _ & _ & -> & ->).
  pose proof (query_result host fuel now dateStr service tz
                (c ++ [newDoc c nm ph sv s0]) date N P R Vn F) as A.
  cbv zeta in A. eexists. split; [exact A | ].
  cbn [availableSlots]. intros I.
  set (eff := orElse tz 0) in *.
  set (midnight := localMidnight date (eff * 60000)) in *.
  destruct (offered host now dateStr service date eff
              (fetchedFor midnight (c ++ [newDoc c nm ph sv s0]))
              (start (newDoc c nm ph sv s0)) R I)
    as (t & E & Vt & Ct & Free).
  cbn [newDoc start] in E. apply isoString_inj in E; [ | exact V0 | exact Vt].
  subst t.
  pose proof (candidate_in_day host date eff _ s0 Ct) as (Lo & Hi & _).
  fold midnight in Lo, Hi.
  pose proof (queryDuration_range service) as Dq.
  pose proof (endOf_later s0 sv) as L.
  assert (Le : endOf s0 sv <= s0 + 45 * 60000)
    by (unfold endOf; destruct sv; cbn [SERVICE_DURATION_MINUTES]; lia).
  destruct PD as (P1 & P2). unfold plainYear in P1, P2.
  assert (Rn : runs (newDoc c nm ph sv s0) s0 (endOf s0 sv)).
  { unfold runs, plainYear. cbn [newDoc start end_].
    split; [lia | ]. split; [lia | ]. split; reflexivity. }
  apply (Free 0); [lia | ].
  replace (s0 + 0 * 15 * 60000) with s0 by lia.
  exists (newDoc c nm ph sv s0), s0, (endOf s0 sv).
  split; [ | split; [ | split]].
  - unfold fetchedFor, find. apply filter_In.
    split; [apply in_or_app; right; left; reflexivity | ].
    rewrite (overlapFilter_runs _ s0 (endOf s0 sv) midnight _ Rn);
      [ | exact P1 | exact P2].
    apply andb_true_iff. rewrite !Z.ltb_lt. lia.
  - cbn [newDoc start]. apply Date_parse_isoString. exact V0.
  - cbn [newDoc end_]. apply Date_parse_isoString. exact Ve.
  - lia.
Qed.

Lemma booked_start_is_not_offered_again_witness :
  exists r,
    getAvailabilityForDate utcHost 40 1717900000000 "2024-06-10"
      (Some consultation) None
      [Examples.mondayTreatment;
       {| _id := 2%nat; name := "Anna"; phoneNumber := "+37410000000";
          service := consultation; start := "2024-06-10T10:00:00.000Z";
          end_ := "2024-06-10T10:15:00.000Z" |}]
    = Some (Ok r)
    /\ ~ In "2024-06-10T10:00:00.000Z"%string (availableSlots r).
Proof.
  apply (booked_start_is_not_offered_again utcHost
           (Examples.booking consultation "2024-06-10T10:00:00.000Z")
           [Examples.mondayTreatment] _
           {| _id := 2%nat; name := "Anna"; phoneNumber := "+37410000000";
              service := consultation; start := "2024-06-10T10:00:00.000Z";
              end_ := "2024-06-10T10:15:00.000Z" |}
           40 1717900000000 "2024-06-10" (Some consultation) None
           1717977600000).
  - reflexivity.
  - discriminate.
  - reflexivity.
  - unfold validTime. vm_compute. split; discriminate.
  - unfold plainDay, plainYear. vm_compute. repeat split; discriminate.
  - unfold validTime. vm_compute. split; discriminate.
  - lia.
Defined.

(** X12.  [getBusyIntervalsISO] on a collection stored in the canonical
    form, for a local day within the years 0000 to 9999: it returns, and
    the pairs it returns are the start and end strings of exactly the
    stored appointments that begin before the last millisecond of the
    local day and end after its midnight. *)
Theorem busy_intervals_of_the_local_day (host : Host) (date : Z)
    (tz : option Z) (c : Collection) :
  let offsetMs := orElse tz 0 * 60000 in
  let midnight := localMidnight date offsetMs in
  validTime (date - offsetMs) ->
  plainDay midnight ->
  canonical c ->
  exists l,
    getBusyIntervalsISO host date tz c = Ok l
    /\ forall p,
         In p l
         <-> exists a sa ea,
               In a c /\ p = (start a, end_ a) /\ runs a sa ea
               /\ sa < midnight + (24 * 60 * 60000 - 1) /\ midnight < ea.
Proof.
  intros offsetMs midnight V PD CA.
  pose proof (plainDay_representable _ _ V PD) as R.
  assert (E : getBusyIntervalsISO host date tz c
              = getBusyIntervalsISO host date (Some (orElse tz 0)) c)
    by (destruct tz; reflexivity).
  rewrite E, (getBusyIntervalsISO_valid host date (orElse tz 0) c R).
  fold offsetMs midnight. eexists. split; [reflexivity | ].
  destruct PD as (P1 & P2).
  intros p. rewrite in_map_iff. unfold fetchedFor, find. split.
  - intros (a & <- & I). apply filter_In in I. destruct I as [I O].
    destruct (CA a I) as (sa & ea & Ra).
    rewrite (overlapFilter_runs a sa ea midnight _ Ra P1 P2) in O.
    apply andb_true_iff in O. rewrite !Z.ltb_lt in O.
    exists a, sa, ea. repeat split; try apply Ra; try apply O; auto.
  - intros (a & sa & ea & I & -> & Ra & L1 & L2). exists a.
    split; [reflexivity | ]. apply filter_In. split; [exact I | ].
    rewrite (overlapFilter_runs a sa ea midnight _ Ra P1 P2).
    apply andb_true_iff. rewrite !Z.ltb_lt. lia.
Qed.

Lemma busy_intervals_of_the_local_day_witness :
  exists l,
    getBusyIntervalsISO utcHost 1717977600000 None [Examples.mondayTreatment]
    = Ok l
    /\ forall p,
         In p l
         <-> exists a sa ea,
               In a [Examples.mondayTreatment] /\ p = (start a, end_ a)
               /\ runs a sa ea
               /\ sa < localMidnight 1717977600000 (orElse None 0 * 60000)
                       + (24 * 60 * 60000 - 1)
               /\ localMidnight 1717977600000 (orElse None 0 * 60000) < ea.
Proof.
  apply (busy_intervals_of_the_local_day utcHost 1717977600000 None
           [Examples.mondayTreatment]).
  - unfold validTime. vm_compute. split; discriminate.
  - unfold plainDay, plainYear. vm_compute. repeat split; discriminate.
  - exact canonical_monday.
Defined.

(** ** What a query can throw *)

Section ThrowLaws.

Variable host : Host.

Lemma toISOString_throws (d : Date) (e : exn) :
  toISOString d = Throw e -> e = RangeError.
Proof. destruct d; cbn [toISOString]; congruence. Qed.

Lemma localMidnightUtcMs_throws (t offsetMs : Z) (e : exn) :
  localMidnightUtcMs host t offsetMs = Throw e -> e = RangeError.
Proof.
  unfold localMidnightUtcMs.
  destruct (toISOString _) as [iso | x] eqn:T; [discriminate | ].
  intros H. injection H as <-. apply (toISOString_throws _ _ T).
Qed.

Lemma slotsLoop_throws (fuel : nat) : forall (t stepMs durMs endMs : Z)
    (e : exn),
  slotsLoop fuel t stepMs durMs endMs = Some (Throw e) -> e = RangeError.
Proof.
  induction fuel as [ | fuel IH]; intros t stepMs durMs endMs e;
    cbn [slotsLoop]; [discriminate | ].
  destruct (t + durMs <=? endMs); [ | discriminate].
  destruct (toISOString _) as [iso | x] eqn:T.
  - destruct (slotsLoop fuel _ _ _ _) as [[rest | x] | ] eqn:L;
      [discriminate | | discriminate].
    intros H. injection H as <-. apply (IH _ _ _ _ _ L).
  - intros H. injection H as <-. apply (toISOString_throws _ _ T).
Qed.

Lemma generateSlots_throws (fuel : nat) (dateUtc slotMinutes minutes : Z)
    (tz : option Z) (e : exn) :
  generateSlots host fuel dateUtc slotMinutes minutes tz = Some (Throw e) ->
  e = RangeError.
Proof.
  unfold generateSlots.
  destruct (localMidnightUtcMs host dateUtc _) as [[m | ] | x] eqn:L.
  - apply slotsLoop_throws.
  - discriminate.
  - intros H. injection H as <-. apply (localMidnightUtcMs_throws _ _ _ L).
Qed.

Lemma getBusyIntervalsISO_throws (dateUtc : Z) (tz : option Z)
    (c : Collection) (e : exn) :
  getBusyIntervalsISO host dateUtc tz c = Throw e -> e = RangeError.
Proof.
  unfold getBusyIntervalsISO.
  destruct (localMidnightUtcMs host dateUtc _) as [m | x] eqn:L.
  - destruct (toISOString (newDateNum (num_add m _))) as [i1 | x] eqn:T1.
    + destruct (toISOString (newDateNum m)) as [i2 | x] eqn:T2;
        [discriminate | ].
      intros H. injection H as <-. apply (toISOString_throws _ _ T2).
    + intros H. injection H as <-. apply (toISOString_throws _ _ T1).
  - intros H. injection H as <-. apply (localMidnightUtcMs_throws _ _ _ L).
Qed.

Lemma chunksFree_throws (n : nat) : forall (i : Z) (startMs : option Z)
    (slotMinutes : Z) (busy : list string) (e : exn),
  chunksFree n i startMs slotMinutes busy = Throw e -> e = RangeError.
Proof.
  induction n as [ | n IH]; intros i startMs slotMinutes busy e;
    cbn [chunksFree]; [discriminate | ].
  destruct (toISOString _) as [iso | x] eqn:T.
  - destruct (set_has busy iso); [discriminate | apply IH].
  - intros H. injection H as <-. apply (toISOString_throws _ _ T).
Qed.

Lemma filterM_throws (f : string -> result bool) (l : list string)
    (e : exn) :
  filterM f l = Throw e -> exists x, In x l /\ f x = Throw e.
Proof.
  induction l as [ | x l IH]; cbn [filterM]; [discriminate | ].
  destruct (f x) as [b | y] eqn:E.
  - destruct (filterM f l) as [r | y]; [discriminate | ].
    intros H. injection H as <-.
    destruct (IH eq_refl) as (z & I & Ez). exists z. split; [right | ]; auto.
  - intros H. injection H as <-. exists x. split; [left | ]; auto.
Qed.

End ThrowLaws.

(** X13.  The rejections of an availability query.  An empty date is
    refused with "date is required (YYYY-MM-DD)" and a date that does not
    parse with "invalid date", before anything else is looked at; and
    these are the only two refusals of the service itself: any other
    exception of the query is the [RangeError] of a Date out of range. *)
Theorem availability_rejections (host : Host) (fuel : nat) (now : Z)
    (dateStr : string) (service : option ServiceKey) (tz : option Z)
    (c : Collection) :
  (dateStr = EmptyString ->
   getAvailabilityForDate host fuel now dateStr service tz c
   = Some (Throw dateRequired))
  /\ (dateStr <> EmptyString ->
      Date_parse host (dateStr ++ "T00:00:00.000Z") = None ->
      getAvailabilityForDate host fuel now dateStr service tz c
      = Some (Throw invalidDate))
  /\ (forall e,
         getAvailabilityForDate host fuel now dateStr service tz c
         = Some (Throw e) ->
         (e = dateRequired /\ dateStr = EmptyString)
         \/ (e = invalidDate /\ dateStr <> EmptyString
             /\ Date_parse host (dateStr ++ "T00:00:00.000Z") = None)
         \/ e = RangeError).
Proof.
  split; [ | split].
  - intros ->. reflexivity.
  - intros N P. unfold getAvailabilityForDate.
    rewrite falsy_nonempty by exact N. rewrite P. reflexivity.
  - intros e. destruct (string_dec dateStr EmptyString) as [-> | N].
    { cbn. intros H. injection H as <-. left. auto. }
    unfold getAvailabilityForDate. rewrite falsy_nonempty by exact N.
    destruct (Date_parse host (dateStr ++ "T00:00:00.000Z")) as [date | ].
    2:{ intros H. injection H as <-. right. left. auto. }
    intros H. right. right. revert H.
    destruct (generateSlots host fuel date 15 15 _) as [[allSlots | x] | ]
      eqn:G1; [ | | discriminate].
    2:{ intros H. injection H as <-.
        apply (generateSlots_throws _ _ _ _ _ _ _ G1). }
    clear G1.
    destruct (getBusyIntervalsISO host date _ c) as [busyIntervals | x]
      eqn:B.
    2:{ intros H. injection H as <-.
        apply (getBusyIntervalsISO_throws _ _ _ _ _ B). }
    destruct (generateSlots host fuel date 15 _ _) as [[starts | x] | ]
      eqn:G2; [ | | discriminate].
    2:{ intros H. injection H as <-.
        apply (generateSlots_throws _ _ _ _ _ _ _ G2). }
    destruct (filterM _ starts) as [available | x] eqn:FM.
    2:{ intros H. injection H as <-. apply filterM_throws in FM.
        destruct FM as (y & _ & Ey).
        apply (chunksFree_throws _ _ _ _ _ _ Ey). }
    destruct (toISOString _) as [todayIso | x] eqn:T; [discriminate | ].
    intros H. injection H as <-. apply (toISOString_throws _ _ T).
Qed.

Lemma availability_rejections_witness :
  getAvailabilityForDate utcHost 40 0 EmptyString None None []
  = Some (Throw dateRequired)
  /\ getAvailabilityForDate utcHost 40 0 "2024-13-45" None None []
     = Some (Throw invalidDate).
Proof.
  split.
  - apply (proj1 (availability_rejections utcHost 40 0 EmptyString None None
                    [])).
    reflexivity.
  - apply (proj1 (proj2 (availability_rejections utcHost 40 0 "2024-13-45"
                           None None []))).
    + discriminate.
    + reflexivity.
Defined.

(** X14.  The working hours start at 9 and end at 13 or at 18, whatever the
    instant and the offset.  In a process that runs in UTC, for a local
    instant in the range of Date (its last instant apart) and outside the
    years 0 to 99, they end at 13 exactly on the Saturdays and Sundays of
    the client's local calendar. *)
Theorem working_hours_by_local_weekday (host : Host) (t : Z)
    (tz : option Z) :
  let wh := getWorkingHours host t tz in
  let ld := t - orElse tz 0 * 60000 in
  startHour wh = 9 /\ (endHour wh = 13 \/ endHour wh = 18)
  /\ (utcProcess host ->
      - maxTime <= ld < maxTime ->
      ~ 0 <= YearFromTime ld <= 99 ->
      (endHour wh = 13 <-> WeekDay ld = 0 \/ WeekDay ld = 6)).
Proof.
  intros wh ld. split; [ | split].
  - unfold wh. destruct (getWorkingHours_cases host t tz) as [E | E];
      rewrite E; reflexivity.
  - unfold wh. destruct (getWorkingHours_cases host t tz) as [E | E];
      rewrite E; cbn [endHour]; auto.
  - intros U V Y. unfold wh.
    rewrite (getWorkingHours_utc host t tz U V Y). fold ld.
    destruct (Z.eqb_spec (WeekDay ld) 0); destruct (Z.eqb_spec (WeekDay ld) 6);
      cbn [orb endHour]; split; intros H; auto; try discriminate; lia.
Qed.

Lemma working_hours_by_local_weekday_witness :
  endHour (getWorkingHours utcHost 1718454600000 (Some (-240))) = 13
  <-> WeekDay (1718454600000 - orElse (Some (-240)) 0 * 60000) = 0
      \/ WeekDay (1718454600000 - orElse (Some (-240)) 0 * 60000) = 6.
Proof.
  apply (proj2 (proj2 (working_hours_by_local_weekday utcHost 1718454600000
                         (Some (-240))))).
  - intros t b. reflexivity.
  - vm_compute. split; [discriminate | reflexivity].
  - vm_compute. intros [_ H]. apply H. reflexivity.
Defined.

(** ** From an offer to a booking *)

Module BookLaws.

Lemma isoString_nonempty (t : Z) : isoString t <> EmptyString.
Proof.
  unfold isoString. destruct (isoDate t); cbn [append]; discriminate.
Qed.

Lemma same_local_day (x delta : Z) :
  0 <= delta < msPerDay -> Day (Day x * msPerDay + delta) = Day x.
Proof.
  intros H. unfold Day, msPerDay in *. symmetry.
  apply Z.div_unique with (r := delta); lia.
Qed.

Lemma grid_step (a b : Z) :
  a mod (15 * 60000) = 0 -> b mod (15 * 60000) = 0 ->
  exists i, a = b + i * 15 * 60000.
Proof.
  intros Ha Hb. exists (a / (15 * 60000) - b / (15 * 60000)).
  pose proof (Z.div_mod a (15 * 60000) ltac:(lia)).
  pose proof (Z.div_mod b (15 * 60000) ltac:(lia)). lia.
Qed.

End BookLaws.

Import BookLaws.

(** X15.  An offered start can be booked.  In a process that runs in UTC,
    for a local day within the years 0100 to 9999 and an offset of at most
    a day, on a collection stored in the canonical form whose appointments
    start on the 15-minute grid: a create request for a start that the
    availability query lists in [availableSlots], with the same offset and
    a service no longer than the one of the query, is written. *)
Theorem offered_start_can_be_booked (host : Host) (fuel : nat) (now : Z)
    (dateStr : string) (asked : option ServiceKey) (tz : option Z)
    (c : Collection) (date : Z) (r : Availability) (x : string)
    (body : CreateBody) (nm ph : string) (sv : ServiceKey) :
  utcProcess host ->
  dateStr <> EmptyString ->
  Date_parse host (dateStr ++ "T00:00:00.000Z") = Some date ->
  let eff := orElse tz 0 in
  let offsetMs := eff * 60000 in
  -1440 <= eff <= 1440 ->
  plainDay (localMidnight date offsetMs) ->
  ~ 0 <= YearFromTime (date - offsetMs) <= 99 ->
  validTime (now + offsetMs) ->
  (36 < fuel)%nat ->
  canonical c ->
  onGrid offsetMs c ->
  getAvailabilityForDate host fuel now dateStr asked tz c = Some (Ok r) ->
  In x (availableSlots r) ->
  cb_name body = Some nm -> nm <> EmptyString ->
  cb_phoneNumber body = Some ph -> ph <> EmptyString ->
  cb_service body = Some sv ->
  SERVICE_DURATION_MINUTES sv <= queryDuration asked ->
  cb_start body = Some x ->
  orElse (cb_tzOffset body) 0 = eff ->
  exists a,
    createAppointment host body c = (Ok a, c ++ [a])
    /\ start a = x /\ service a = sv.
Proof.
  intros U N P eff offsetMs Heff PD Y Vn F CA OG Q I En Nn Ep Np Es Ds Ex Et.
  set (midnight := localMidnight date offsetMs) in *.
  pose proof PD as (P1 & P2). unfold plainYear in P1, P2.
  assert (Mid : midnight - offsetMs = Day (date - offsetMs) * msPerDay)
    by (unfold midnight, localMidnight; lia).
  assert (Ho : -86400000 <= offsetMs <= 86400000) by (unfold offsetMs; lia).
  assert (Dd : Day (date - offsetMs) * msPerDay <= date - offsetMs
               < Day (date - offsetMs) * msPerDay + 86400000)
    by (unfold Day, msPerDay; Z.div_mod_to_equations; lia).
  assert (V : validTime (date - offsetMs))
    by (unfold validTime, maxTime; lia).
  pose proof (plainDay_representable _ _ V PD) as R.
  pose proof (query_result host fuel now dateStr asked tz c date
                N P R Vn F) as A.
  cbv zeta in A. rewrite A in Q. injection Q as <-.
  cbn [availableSlots] in I.
  destruct (offered host now dateStr asked date eff
              (fetchedFor midnight c) x R I) as (t & -> & Vt & Ct & Free).
  set (d := queryDuration asked) in *.
  pose proof (candidate_in_day host date eff d t Ct) as (Lo & Hi & Gr).
  fold offsetMs midnight in Lo, Hi, Gr.
  pose proof (queryDuration_cases asked) as Dq. fold d in Dq.
  pose proof (endOf_later t sv) as Lt. unfold endOf in Lt.
  (* the local day of the start is the day of the query *)
  assert (Dt : Day (t - offsetMs) = Day (date - offsetMs)).
  { replace (t - offsetMs)
      with (Day (date - offsetMs) * msPerDay + (t - midnight)) by lia.
    apply same_local_day. unfold msPerDay. lia. }
  assert (Wh : getWorkingHours host t (Some eff)
               = getWorkingHours host date (Some eff)).
  { rewrite !(getWorkingHours_utc host _ (Some eff) U); cbn [orElse];
      fold offsetMs.
    - unfold WeekDay. rewrite Dt. reflexivity.
    - unfold maxTime. lia.
    - exact Y.
    - unfold maxTime. lia.
    - unfold YearFromTime in *. rewrite Dt. exact Y. }
  assert (Ws : dayStartOf host t eff = dayStartOf host date eff).
  { unfold dayStartOf, localMidnight. fold offsetMs. rewrite Dt, Wh.
    reflexivity. }
  assert (We : dayEndOf host t eff = dayEndOf host date eff).
  { unfold dayEndOf, localMidnight. fold offsetMs. rewrite Dt, Wh.
    reflexivity. }
  destruct (window_bounds host date eff) as [Bs Be].
  fold offsetMs midnight in Bs, Be.
  pose proof Ct as (k & K & Ek & Fit).
  assert (Ve : validTime (endOf t sv))
    by (unfold validTime, maxTime, endOf; lia).
  assert (B : completeBody host body nm ph sv (isoString t) t).
  { unfold completeBody. repeat split; try assumption.
    - apply isoString_nonempty.
    - apply Date_parse_isoString. exact Vt. }
  assert (DB : dayBounds host t (orElse (cb_tzOffset body) 0)
               = Ok (newDate (dayStartOf host date eff),
                     newDate (dayEndOf host date eff))).
  { rewrite Et, dayBounds_valid, Ws, We; [reflexivity | ].
    fold offsetMs. unfold validTime, maxTime. lia. }
  assert (OW : outsideWorkingHours (Some t) (newDate (endOf t sv))
                 (newDate (dayStartOf host date eff),
                  newDate (dayEndOf host date eff)) = false).
  { apply not_true_is_false. intros OT.
    apply outsideWorkingHours_spec in OT;
      [ | unfold validTime, maxTime; lia | unfold validTime, maxTime; lia
        | exact Ve].
    unfold endOf in OT. lia. }
  rewrite (create_after_window host body c nm ph sv (isoString t) t _
             B Ve DB OW).
  destruct (exists_ _ c) eqn:X.
  2:{ eexists. split; [reflexivity | ]. split; reflexivity. }
  exfalso.
  apply exists_clashes in X.
  apply clashes_overlapped in X;
    [ | exact CA | unfold plainYear; lia | unfold plainYear, endOf; lia].
  destruct X as (a & sa & ea & Ia & _ & Ra & L1 & L2). unfold endOf in L1.
  destruct (OG a sa ea Ia Ra) as [Lsa Gsa].
  assert (Fa : In a (fetchedFor midnight c)).
  { unfold fetchedFor, find. apply filter_In. split; [exact Ia | ].
    rewrite (overlapFilter_runs a sa ea midnight _ Ra);
      [ | unfold plainYear; lia | unfold plainYear; lia].
    apply andb_true_iff. rewrite !Z.ltb_lt. lia. }
  pose proof Ra as (Psa & Pea & Esa & Eea).
  assert (Busy : forall u, sa <= u < ea -> busyAt host (fetchedFor midnight c) u).
  { intros u Hu. exists a, sa, ea. split; [exact Fa | ].
    rewrite Esa, Eea.
    rewrite !Date_parse_isoString by (apply plainYear_valid; assumption).
    auto. }
  destruct (Z_le_gt_dec sa t) as [Le | Gt].
  - apply (Free 0); [destruct Dq as [[_ ->] | [_ ->]]; lia | ].
    apply Busy. lia.
  - assert (G : exists i, sa - midnight = (t - midnight) + i * 15 * 60000).
    { apply grid_step; [ | exact Gr].
      replace (sa - midnight)
        with (sa - offsetMs + (- Day (date - offsetMs) * 96) * (15 * 60000))
        by (unfold msPerDay in Mid; lia).
      rewrite Z.mod_add by lia. exact Gsa. }
    destruct G as (i & Ei).
    apply (Free i).
    + destruct Dq as [[D1 ->] | [D3 ->]];
        destruct sv; cbn [SERVICE_DURATION_MINUTES] in *; lia.
    + apply Busy. lia.
Qed.
Lemma onGrid_monday : onGrid (orElse None 0 * 60000) [Examples.mondayTreatment].
Proof.
  intros a sa ea [<- | []] (Ps & Pe & Es & Ee).
  cbn [Examples.mondayTreatment Examples.stored start end_] in Es, Ee.
  assert (sa = 1718010000000).
  { apply isoString_inj;
      [apply plainYear_valid; exact Ps | unfold validTime, maxTime; lia | ].
    rewrite <- Es. reflexivity. }
  assert (ea = 1718012700000).
  { apply isoString_inj;
      [apply plainYear_valid; exact Pe | unfold validTime, maxTime; lia | ].
    rewrite <- Ee. reflexivity. }
  subst. split; [lia | reflexivity].
Qed.

Lemma offered_start_can_be_booked_witness :
  exists a,
    createAppointment utcHost
      (Examples.booking consultation "2024-06-10T09:45:00.000Z")
      [Examples.mondayTreatment]
    = (Ok a, [Examples.mondayTreatment] ++ [a])
    /\ start a = "2024-06-10T09:45:00.000Z"%string
    /\ service a = consultation.
Proof.
  eapply (offered_start_can_be_booked utcHost 40 1717900000000 "2024-06-10"
            (Some treatment) None [Examples.mondayTreatment] 1717977600000 _
            "2024-06-10T09:45:00.000Z"
            (Examples.booking consultation "2024-06-10T09:45:00.000Z")
            "Anna" "+37410000000" consultation).
  - intros t b. reflexivity.
  - discriminate.
  - reflexivity.
  - cbn. lia.
  - unfold plainDay, plainYear. vm_compute. repeat split; discriminate.
  - vm_compute. intros [_ H]. apply H. reflexivity.
  - unfold validTime. vm_compute. split; discriminate.
  - lia.
  - exact canonical_monday.
  - exact onGrid_monday.
  - vm_compute. reflexivity.
  - cbn [availableSlots In]. left. reflexivity.
  - reflexivity.
  - discriminate.
  - reflexivity.
  - discriminate.
  - reflexivity.
  - cbn. lia.
  - reflexivity.
  - reflexivity.
Defined.

(** ** Out of the range of Date *)

Section RangeLaws.

Variable host : Host.

Lemma TimeClip_invalid (t : Z) : ~ validTime t -> TimeClip t = None.
Proof.
  intros H. unfold TimeClip.
  destruct (validTimeb t) eqn:E; [ | reflexivity].
  apply validTimeb_true in E. contradiction.
Qed.

Lemma localMidnightUtcMs_invalid (t offsetMs : Z) :
  ~ validTime (t - offsetMs) ->
  localMidnightUtcMs host t offsetMs = Throw RangeError.
Proof.
  intros H. unfold localMidnightUtcMs, newDate.
  rewrite TimeClip_invalid by exact H. reflexivity.
Qed.

End RangeLaws.

(** X16.  An offset so large that the client's local instant leaves the
    range of Date is not refused as a bad request: the availability query,
    a create request and an update that supplies a start all end in the
    [RangeError] of [toISOString], and nothing is written. *)
Theorem offset_out_of_range_throws (host : Host) :
  (forall fuel now dateStr service tz c date,
      dateStr <> EmptyString ->
      Date_parse host (dateStr ++ "T00:00:00.000Z") = Some date ->
      ~ validTime (date - orElse tz 0 * 60000) ->
      getAvailabilityForDate host fuel now dateStr service tz c
      = Some (Throw RangeError))
  /\ (forall body c nm ph sv st s,
         completeBody host body nm ph sv st s ->
         ~ validTime (s - orElse (cb_tzOffset body) 0 * 60000) ->
         createAppointment host body c = (Throw RangeError, c))
  /\ (forall id u c old st s,
         restartingUpdate host id u c old st s ->
         ~ validTime (s - orElse (ud_tzOffset u) 0 * 60000) ->
         updateAppointment host id u c = (Throw RangeError, c)).
Proof.
  split; [ | split].
  - intros fuel now dateStr service tz c date N P H.
    unfold getAvailabilityForDate. rewrite falsy_nonempty by exact N.
    rewrite P. unfold generateSlots at 1. cbn [orElse].
    rewrite localMidnightUtcMs_invalid by exact H. reflexivity.
  - intros body c nm ph sv st s B H.
    rewrite (createAppointment_complete host body c nm ph sv st s B).
    unfold dayBounds. rewrite localMidnightUtcMs_invalid by exact H.
    reflexivity.
  - intros id u c old st s B H.
    rewrite (updateAppointment_restarting host id u c old st s B).
    unfold dayBounds. rewrite localMidnightUtcMs_invalid by exact H.
    reflexivity.
Qed.

Lemma offset_out_of_range_throws_witness :
  getAvailabilityForDate utcHost 40 0 "2024-06-10" None (Some 150000000000)
    []
  = Some (Throw RangeError).
Proof.
  apply (proj1 (offset_out_of_range_throws utcHost) 40%nat 0 "2024-06-10"%string
           None (Some 150000000000) [] 1717977600000).
  - discriminate.
  - reflexivity.
  - unfold validTime. vm_compute. intros [H _]. apply H. reflexivity.
Defined.

(** X17.  What a successful create stores: the collection grows by one
    document, the one returned, with an id that no stored document has,
    the name, phone number and service of the request, and as [start] the
    ISO string of the instant the requested start denotes, whatever the
    format it was sent in; reading the stored start gives that instant
    again. *)
Theorem create_stores_the_instant (host : Host) (body : CreateBody)
    (c c' : Collection) (a : Appointment) :
  createAppointment host body c = (Ok a, c') ->
  c' = c ++ [a]
  /\ (forall b, In b c -> _id b <> _id a)
  /\ cb_name body = Some (name a)
  /\ cb_phoneNumber body = Some (phoneNumber a)
  /\ cb_service body = Some (service a)
  /\ exists st s,
       cb_start body = Some st /\ Date_parse host st = Some s
       /\ start a = isoString s /\ Date_parse host (start a) = Some s.
Proof.
  intros H. destruct (create_written host body c c' a H)
    as (nm & ph & sv & st & s & bounds & B & V & _ & _ & _ & _ & -> & ->).
  destruct B as (E1 & E2 & E3 & E4 & _ & _ & _ & P).
  split; [reflexivity | ].
  cbn [newDoc _id name phoneNumber service start].
  split; [ | split; [exact E1 | split; [exact E2 | split; [exact E3 | ]]]].
  - intros b I. pose proof (freshId_above c b I). lia.
  - exists st, s. split; [exact E4 | ]. split; [exact P | ].
    split; [reflexivity | ]. apply Date_parse_isoString. exact V.
Qed.

Lemma create_stores_the_instant_witness :
  [Examples.mondayTreatment;
   {| _id := 2%nat; name := "Aram"; phoneNumber := "+37411111111";
      service := consultation; start := "2024-06-10T06:00:00.000Z";
      end_ := "2024-06-10T06:15:00.000Z" |}]
  = [Examples.mondayTreatment]
    ++ [{| _id := 2%nat; name := "Aram"; phoneNumber := "+37411111111";
           service := consultation; start := "2024-06-10T06:00:00.000Z";
           end_ := "2024-06-10T06:15:00.000Z" |}]
  /\ start {| _id := 2%nat; name := "Aram"; phoneNumber := "+37411111111";
              service := consultation; start := "2024-06-10T06:00:00.000Z";
              end_ := "2024-06-10T06:15:00.000Z" |}
     = isoString 1717999200000.
Proof.
  assert (H : createAppointment Examples.offsetHost
                (Examples.yerevanBooking consultation
                   "2024-06-10T10:00:00+04:00")
                [Examples.mondayTreatment]
              = (Ok {| _id := 2%nat; name := "Aram";
                       phoneNumber := "+37411111111";
                       service := consultation;
                       start := "2024-06-10T06:00:00.000Z";
                       end_ := "2024-06-10T06:15:00.000Z" |},
                 [Examples.mondayTreatment;
                  {| _id := 2%nat; name := "Aram";
                     phoneNumber := "+37411111111";
                     service := consultation;
                     start := "2024-06-10T06:00:00.000Z";
                     end_ := "2024-06-10T06:15:00.000Z" |}]))
    by (vm_compute; reflexivity).
  destruct (create_stores_the_instant Examples.offsetHost _ _ _ _ H)
    as (W & _ & _ & _ & _ & st & s & E & P & S & _).
  split; [exact W | ].
  injection E as <-. vm_compute in P. injection P as <-. exact S.
Defined.

(** ** Moving an appointment *)

Module MoveLaws.

Lemma exists_other (f : Appointment -> bool) (id : ObjectId)
    (c : Collection) :
  ~ In id (map _id c) ->
  exists_ (fun a => negb (Nat.eqb (_id a) id) && f a) c = exists_ f c.
Proof.
  unfold exists_. induction c as [ | b c IH]; [reflexivity | ].
  cbn [map In existsb]. intros NI.
  replace (Nat.eqb (_id b) id) with false.
  - cbn [negb andb]. rewrite IH; [reflexivity | ]. intros I. apply NI.
    right. exact I.
  - symmetry. apply Nat.eqb_neq. intros Eb. apply NI. left. exact Eb.
Qed.

Lemma exists_without (f : Appointment -> bool) (id : ObjectId)
    (c : Collection) :
  NoDup (map _id c) ->
  exists_ (fun a => negb (Nat.eqb (_id a) id) && f a) c
  = exists_ f (deleteById id c).
Proof.
  induction c as [ | a c IH]; [reflexivity | ].
  cbn [map]. intros ND. inversion ND as [ | x l NI ND' E]. subst.
  unfold exists_ in *. cbn [existsb deleteById].
  destruct (Nat.eqb (_id a) id) eqn:E.
  - cbn [negb andb orb]. apply Nat.eqb_eq in E. rewrite <- E.
    apply (exists_other f (_id a) c NI).
  - cbn [negb andb existsb]. rewrite (IH ND'). reflexivity.
Qed.

End MoveLaws.

Import MoveLaws.

(** X18.  Moving an appointment is refused exactly when booking it afresh
    would be.  With unique ids, an update that supplies a parseable start
    (and no empty name or phone number) throws an exception exactly when
    a create request for the same start, offset and service throws it on
    the collection without the appointment; so the update is accepted
    exactly when that create would be. *)
Theorem moving_is_deleting_and_booking (host : Host) (id : ObjectId)
    (u : UpdateData) (c : Collection) (old : Appointment) (st : string)
    (s : Z) (body : CreateBody) (nm ph : string) :
  NoDup (map _id c) ->
  restartingUpdate host id u c old st s ->
  ud_name u <> Some EmptyString ->
  ud_phoneNumber u <> Some EmptyString ->
  cb_name body = Some nm -> nm <> EmptyString ->
  cb_phoneNumber body = Some ph -> ph <> EmptyString ->
  cb_service body = Some (orElse (ud_service u) (service old)) ->
  cb_start body = Some st ->
  cb_tzOffset body = ud_tzOffset u ->
  forall e,
    fst (updateAppointment host id u c) = Throw e
    <-> fst (createAppointment host body (deleteById id c)) = Throw e.
Proof.
  intros ND B Un Up En Nn Ep Np Es Et Ez e.
  pose proof B as (F & Eu & Nst & P).
  assert (CB : completeBody host body nm ph
                 (orElse (ud_service u) (service old)) st s)
    by (repeat split; assumption).
  rewrite (updateAppointment_restarting host id u c old st s B).
  rewrite (createAppointment_complete host body (deleteById id c) nm ph
             _ st s CB).
  rewrite Ez.
  destruct (dayBounds host s _) as [bounds | x]; [ | cbn [fst]; tauto].
  destruct (outsideWorkingHours _ _ _); [cbn [fst]; tauto | ].
  destruct (toISOString _) as [endIso | x] eqn:T; [ | cbn [fst]; tauto].
  rewrite (exists_without _ id c ND).
  destruct (exists_ _ (deleteById id c)); [cbn [fst]; tauto | ].
  replace (validUpdate (withEnd u endIso)) with true.
  - cbn [fst]. split; discriminate.
  - symmetry. unfold validUpdate. cbn [withEnd ud_name ud_phoneNumber
                                        ud_start ud_end].
    rewrite Eu.
    apply toISOString_Ok in T. destruct T as [_ ->].
    destruct (ud_name u) as [[ | ? ?] | ]; try (exfalso; apply Un; reflexivity);
      destruct (ud_phoneNumber u) as [[ | ? ?] | ];
      try (exfalso; apply Up; reflexivity);
      destruct st; try (exfalso; apply Nst; reflexivity);
      pose proof (isoString_nonempty (endOf s (orElse (ud_service u)
                                                 (service old))));
      destruct (isoString _); try contradiction; reflexivity.
Qed.

Lemma moving_is_deleting_and_booking_witness :
  fst (updateAppointment utcHost 1%nat
         (Examples.restart "2024-06-10T17:30:00.000Z")
         [Examples.mondayTreatment])
  = Throw OutOfWindow
  <-> fst (createAppointment utcHost
             (Examples.booking treatment "2024-06-10T17:30:00.000Z")
             (deleteById 1%nat [Examples.mondayTreatment]))
      = Throw OutOfWindow.
Proof.
  apply (moving_is_deleting_and_booking utcHost 1%nat
           (Examples.restart "2024-06-10T17:30:00.000Z")
           [Examples.mondayTreatment] Examples.mondayTreatment
           "2024-06-10T17:30:00.000Z" 1718040600000
           (Examples.booking treatment "2024-06-10T17:30:00.000Z")
           "Anna" "+37410000000").
  - repeat constructor. intros [].
  - unfold restartingUpdate. repeat split; try reflexivity. discriminate.
  - discriminate.
  - discriminate.
  - reflexivity.
  - discriminate.
  - reflexivity.
  - discriminate.
  - reflexivity.
  - reflexivity.
  - reflexivity.
Defined.
